(** * EchoSim: position-to-view resolution, quiz progression and rope geometry

    A shallow embedding of the simulator's event handlers
    (imagedata.js, feedback.js, the game-flow script, the probe script,
    the rope script and the simulator script) together with the
    properties the specification states about them.

    Conventions of the embedding.
    - The script-level [let] variables become the fields of one [State]
      record, grouped as quiz variables, probe variables and the part of
      the page the handlers write to.
    - A handler is a function [State -> Completion State]: [Normal s] when
      the handler runs to its end, [Throw s] when a [TypeError] escapes it;
      [s] is then the state at the point of the throw, because the
      assignments made before the throw stay in force.
    - The page layout a handler reads through [getBoundingClientRect] is
      passed to it as a [Layout]: the drop zones in document order and the
      box of the probe.  Pixel coordinates are rationals.
    - [currentViewIndex] is a JavaScript number that is always a natural
      number or [NaN] (the remainder by the length of an empty array).
    - The rope geometry uses [Math.cos], [Math.sin] and [Math.PI]; it is
      written over the real numbers, and only statements that do not
      depend on rounding are proved from it: which point a branch returns,
      through which points a path is written, what a fallback returns. *)

From Stdlib Require Import List String Ascii Bool Arith ZArith QArith Lia.
From Stdlib Require Import DecimalString.
From Stdlib Require Import Reals Lra Psatz.
Import ListNotations.

Local Open Scope string_scope.
Local Open Scope nat_scope.

(* ===================================================================== *)
(** ** JavaScript values used by the scripts *)
(* ===================================================================== *)

(** A number that is a natural number or [NaN]. *)
Inductive num : Type :=
| Fin (n : nat)
| NaN.

(** [a === n] for a literal [n]. *)
Definition num_eqb (a : num) (n : nat) : bool :=
  match a with
  | Fin m => Nat.eqb m n
  | NaN => false
  end.

(** [(a + 1) % len]; the remainder by zero is [NaN]. *)
Definition succ_rem (a : num) (len : nat) : num :=
  match a, len with
  | Fin n, S _ => Fin ((n + 1) mod len)
  | _, _ => NaN
  end.

(** [a % len]. *)
Definition num_rem (a : num) (len : nat) : num :=
  match a, len with
  | Fin n, S _ => Fin (n mod len)
  | _, _ => NaN
  end.

Definition nat_str (n : nat) : string :=
  NilZero.string_of_uint (Nat.to_uint n).

Definition Z_str (z : Z) : string :=
  NilZero.string_of_int (Z.to_int z).

(** Template-literal rendering of [a + 1]. *)
Definition num_succ_str (a : num) : string :=
  match a with
  | Fin n => nat_str (n + 1)
  | NaN => "NaN"
  end.

(** Lookup of a property in an object literal; [None] is [undefined]. *)
Fixpoint obj_get {K V : Type} (eqb : K -> K -> bool)
         (o : list (K * V)) (k : K) : option V :=
  match o with
  | [] => None
  | (k', v) :: o' => if eqb k' k then Some v else obj_get eqb o' k
  end.

(** The completion of a handler. *)
Inductive Completion (A : Type) : Type :=
| Normal (a : A)
| Throw (a : A).
Arguments Normal {A} a.
Arguments Throw {A} a.

Definition bind {A : Type} (c : Completion A) (f : A -> Completion A)
  : Completion A :=
  match c with
  | Normal a => f a
  | Throw a => Throw a
  end.

Definition state_of {A : Type} (c : Completion A) : A :=
  match c with
  | Normal a => a
  | Throw a => a
  end.

Definition is_normal {A : Type} (c : Completion A) : bool :=
  match c with
  | Normal _ => true
  | Throw _ => false
  end.

Notation "c >>= f" := (bind c f) (at level 50, left associativity).

(* ===================================================================== *)
(** ** imagedata.js: the data model *)
(* ===================================================================== *)

Inductive Tail : Type := up | down.

Definition Tail_eqb (a b : Tail) : bool :=
  match a, b with
  | up, up | down, down => true
  | _, _ => false
  end.

Definition Tail_str (t : Tail) : string :=
  match t with
  | up => "up"
  | down => "down"
  end.

Record View : Type := {
  angle : Z;
  tail : Tail;
  view : string
}.

Record CircleData : Type := {
  x : Z;
  y : Z;
  answer : string;
  text : string
}.

Record Question : Type := {
  question : string;
  key : string;
  correctPosition : nat;
  correctAnswer : string;
  correctImage : string
}.

Definition imageSetsByAngleAndTail : list (string * list string) :=
  [ ("30_up",   ["Echo_Images/30_up_1.png"; "Echo_Images/30_up_2.png";
                 "Echo_Images/30_up_3.png"; "Echo_Images/30_up_4.png"]);
    ("30_down", ["Echo_Images/30_down_1.png"; "Echo_Images/30_down_2.png";
                 "Echo_Images/30_down_3.png"; "Echo_Images/30_down_4.png"]);
    ("0_up",    ["Echo_Images/0_up_1.png"; "Echo_Images/0_up_2.png";
                 "Echo_Images/0_up_3.png"; "Echo_Images/0_up_4.png"]);
    ("90_down", ["Echo_Images/90_down_1.png"; "Echo_Images/90_down_2.png";
                 "Echo_Images/90_down_3.png"; "Echo_Images/90_down_4.png"]);
    ("300_up",  ["Echo_Images/300_up_1.png"; "Echo_Images/300_up_2.png";
                 "Echo_Images/300_up_3.png"; "Echo_Images/300_up_4.png"]) ].

Definition cellOrientationMap : list (nat * list View) :=
  [ (1, [ {| angle := 0; tail := up; view := "Suprasternal Notch" |} ]);
    (2, [ {| angle := 30; tail := up; view := "Parasternal Short-axis MV" |};
          {| angle := 30; tail := down; view := "Parasternal Short-axis AV" |};
          {| angle := 300; tail := up; view := "Parasternal Long-axis" |} ]);
    (3, [ {| angle := 90; tail := down; view := "Subcostal 4-chamber" |} ]);
    (4, [ {| angle := 90; tail := down; view := "Apical 4-chamber" |} ]) ].

Definition mkCircle (px py : Z) (a t : string) : CircleData :=
  {| x := px; y := py; answer := a; text := t |}.

Definition circlePositionsByKey : list (string * list (list CircleData)) :=
  [ ("30_up",
     [ [];
       [ mkCircle 45 54 "A" "Left Ventricle" ];
       [];
       [] ]);
    ("30_down",
     [ [];
       [ mkCircle 45 56 "B" "Aortic Valve";
         mkCircle 45 37 "C" "RVOT";
         mkCircle 45 70 "D" "Left Atrium";
         mkCircle 30 60 "E" "Right Atrium" ];
       [];
       [] ]);
    ("300_up",
     [ [];
       [ mkCircle 40 50 "F" "Left Ventricle";
         mkCircle 53 30 "G" "Right Ventricle";
         mkCircle 65 60 "H" "Left Atrium";
         mkCircle 53 60 "I" "Mitral Valve";
         mkCircle 60 49 "K" "Ascending Aorta" ];
       [];
       [] ]);
    ("0_up",
     [ [ mkCircle 45 28 "A" "Brachiocephalic Trunk";
         mkCircle 50 35 "B" "Left Common Carotid Artery";
         mkCircle 35 60 "C" "Thoracic Descending Artery";
         mkCircle 33 50 "D" "Main Pulmonary Artery" ];
       [];
       [];
       [] ]);
    ("90_down",
     [ [];
       [];
       [ mkCircle 50 30 "A" "Liver";
         mkCircle 30 65 "B" "Right Atrium";
         mkCircle 53 58 "C" "Left Ventricle" ];
       [ mkCircle 38 54 "A" "Right Ventricle";
         mkCircle 54 50 "B" "Left Ventricle";
         mkCircle 42 63 "C" "Tricuspid Valve";
         mkCircle 53 60 "D" "Mitral Valve";
         mkCircle 41 67 "E" "Right Atrium";
         mkCircle 55 70 "F" "Left Atrium" ] ]) ].

Definition mkQuestion (q k : string) (p : nat) (a img : string) : Question :=
  {| question := q; key := k; correctPosition := p;
     correctAnswer := a; correctImage := img |}.

Definition quizData : list Question :=
  [ mkQuestion
      "In parasternal long axis view (PLAX), where is the right ventricle?"
      "300_up" 2 "G" "Echo_Images/answer/Q1_ans.png";
    mkQuestion
      "In parasternal short axis view (PSAX), where is the aortic valve?"
      "30_down" 2 "B" "Echo_Images/answer/Q2_ans.png";
    mkQuestion
      "In suprasternal notch view, where is the main pulmonary artery?"
      "0_up" 1 "D" "Echo_Images/answer/Q3_ans.png";
    mkQuestion
      "In apical 4-chamber view (A4C), where is the left atrium?"
      "90_down" 4 "F" "Echo_Images/answer/Q4_ans.png";
    mkQuestion
      "In subcostal 4-chamber view (S4C), where is the left ventricle?"
      "90_down" 3 "C" "Echo_Images/answer/Q5_ans.png" ].

(** [cellOrientationMap[pos] || []]. *)
Definition views_at (pos : nat) : list View :=
  match obj_get Nat.eqb cellOrientationMap pos with
  | Some vs => vs
  | None => []
  end.

(** [views_at] for a [lastCellPos] that may be [null]. *)
Definition views_of (p : option nat) : list View :=
  match p with
  | Some pos => views_at pos
  | None => []
  end.

(** [arr[pos - 1]] for a position read from [data-pos]. *)
Definition at_pos {A : Type} (arr : list A) (pos : nat) : option A :=
  match pos with
  | O => None
  | S i => nth_error arr i
  end.

(** The template literal [`${angle}_${tailDir}`]. *)
Definition key_of (a : Z) (t : Tail) : string :=
  Z_str a ++ "_" ++ Tail_str t.

(* ===================================================================== *)
(** ** Page layout: boxes of the drop zones and of the probe *)
(* ===================================================================== *)

(** The part of a [DOMRect] the scripts read: six attributes, each a
    number the browser reports.  The scripts read [right] and [bottom] as
    they read [left] and [top]; nothing is assumed on how the browser
    derives them from the other four. *)
Record DOMRect : Type := {
  left : Q;
  top : Q;
  right : Q;
  bottom : Q;
  width : Q;
  height : Q
}.

(** An element of class [cell]: its [data-pos] attribute read as a number
    and its bounding box. *)
Record Cell : Type := {
  pos : nat;
  rect : DOMRect
}.

(** What [getBoundingClientRect] answers while one handler runs: [cells] is
    [document.querySelectorAll('.cell')] in document order. *)
Record Layout : Type := {
  cells : list Cell;
  probeBox : DOMRect
}.

(** The probe script's [getProbeCenter]; [updateImagePreview] computes the
    same two numbers inline. *)
Definition getProbeCenter (b : DOMRect) : Q * Q :=
  ((left b + width b / 2)%Q, (top b + height b / 2)%Q).

(** The predicate handed to [Array.prototype.find]. *)
Definition cell_contains (probeCenterX probeCenterY : Q) (cell : Cell) : bool :=
  let b := rect cell in
  Qle_bool (left b) probeCenterX &&
  Qle_bool probeCenterX (right b) &&
  Qle_bool (top b) probeCenterY &&
  Qle_bool probeCenterY (bottom b).

(** [Array.from(cells).find(...)]: the zone resolver. *)
Definition find_cell (cs : list Cell) (p : Q * Q) : option Cell :=
  find (cell_contains (fst p) (snd p)) cs.

Definition resolve (L : Layout) : option Cell :=
  find_cell (cells L) (getProbeCenter (probeBox L)).

(* ===================================================================== *)
(** ** The state the handlers share *)
(* ===================================================================== *)

(** [imagePanel.innerHTML] after a call of [updateImagePreview].  The
    circles of [PanelImage] are the elements whose click listeners closed
    over [pos] and their [circleData]. *)
Inductive Panel : Type :=
| PanelEmpty
| PanelDropPrompt
| PanelInvalidPosition
| PanelNoImage (k : string) (p : nat)
| PanelImage (src : string) (p : nat) (circles : list CircleData).

(** [feedbackText.textContent]. *)
Inductive Feedback : Type :=
| FeedbackUnset
| FeedbackCorrect
| FeedbackIncorrect.

Record QuizVars : Type := {
  currentQuestionIndex : nat;
  score : nat;
  isSimulatorActive : bool;
  isFeedbackActive : bool;
  isSandBoxActive : bool;
  gameStarted : bool
}.

Record ProbeVars : Type := {
  sweepDeg : Z;
  tailPosition : Tail;
  lastCellPos : option nat;
  currentViewIndex : num
}.

Record Display : Type := {
  rotationDisplay : string;
  tailDisplay : string;
  viewDisplay : string;
  partDisplay : string;
  imagePanel : Panel
}.

Record Controls : Type := {
  toggleButtonHidden : bool;
  toggleButtonText : string;
  showAnswerButtonHidden : bool;
  nextQuestionButtonHidden : bool;
  correctAnswerImageHidden : bool;
  feedbackText : Feedback;
  feedbackBoxHidden : bool;
  endScreenHidden : bool;
  finalScore : string
}.

Record State : Type := {
  quiz : QuizVars;
  probe : ProbeVars;
  display : Display;
  controls : Controls
}.

Definition on_quiz (f : QuizVars -> QuizVars) (s : State) : State :=
  {| quiz := f (quiz s);
     probe := probe s;
     display := display s;
     controls := controls s |}.

Definition on_probe (f : ProbeVars -> ProbeVars) (s : State) : State :=
  {| quiz := quiz s;
     probe := f (probe s);
     display := display s;
     controls := controls s |}.

Definition on_display (f : Display -> Display) (s : State) : State :=
  {| quiz := quiz s;
     probe := probe s;
     display := f (display s);
     controls := controls s |}.

Definition on_controls (f : Controls -> Controls) (s : State) : State :=
  {| quiz := quiz s;
     probe := probe s;
     display := display s;
     controls := f (controls s) |}.

Definition set_currentQuestionIndex (v : nat) : State -> State :=
  on_quiz (fun r =>
    {| currentQuestionIndex := v;
       score := score r;
       isSimulatorActive := isSimulatorActive r;
       isFeedbackActive := isFeedbackActive r;
       isSandBoxActive := isSandBoxActive r;
       gameStarted := gameStarted r |}).

Definition set_score (v : nat) : State -> State :=
  on_quiz (fun r =>
    {| currentQuestionIndex := currentQuestionIndex r;
       score := v;
       isSimulatorActive := isSimulatorActive r;
       isFeedbackActive := isFeedbackActive r;
       isSandBoxActive := isSandBoxActive r;
       gameStarted := gameStarted r |}).

Definition set_isSimulatorActive (v : bool) : State -> State :=
  on_quiz (fun r =>
    {| currentQuestionIndex := currentQuestionIndex r;
       score := score r;
       isSimulatorActive := v;
       isFeedbackActive := isFeedbackActive r;
       isSandBoxActive := isSandBoxActive r;
       gameStarted := gameStarted r |}).

Definition set_isFeedbackActive (v : bool) : State -> State :=
  on_quiz (fun r =>
    {| currentQuestionIndex := currentQuestionIndex r;
       score := score r;
       isSimulatorActive := isSimulatorActive r;
       isFeedbackActive := v;
       isSandBoxActive := isSandBoxActive r;
       gameStarted := gameStarted r |}).

Definition set_isSandBoxActive (v : bool) : State -> State :=
  on_quiz (fun r =>
    {| currentQuestionIndex := currentQuestionIndex r;
       score := score r;
       isSimulatorActive := isSimulatorActive r;
       isFeedbackActive := isFeedbackActive r;
       isSandBoxActive := v;
       gameStarted := gameStarted r |}).

Definition set_gameStarted (v : bool) : State -> State :=
  on_quiz (fun r =>
    {| currentQuestionIndex := currentQuestionIndex r;
       score := score r;
       isSimulatorActive := isSimulatorActive r;
       isFeedbackActive := isFeedbackActive r;
       isSandBoxActive := isSandBoxActive r;
       gameStarted := v |}).

Definition set_sweepDeg (v : Z) : State -> State :=
  on_probe (fun r =>
    {| sweepDeg := v;
       tailPosition := tailPosition r;
       lastCellPos := lastCellPos r;
       currentViewIndex := currentViewIndex r |}).

Definition set_tailPosition (v : Tail) : State -> State :=
  on_probe (fun r =>
    {| sweepDeg := sweepDeg r;
       tailPosition := v;
       lastCellPos := lastCellPos r;
       currentViewIndex := currentViewIndex r |}).

Definition set_lastCellPos (v : option nat) : State -> State :=
  on_probe (fun r =>
    {| sweepDeg := sweepDeg r;
       tailPosition := tailPosition r;
       lastCellPos := v;
       currentViewIndex := currentViewIndex r |}).

Definition set_currentViewIndex (v : num) : State -> State :=
  on_probe (fun r =>
    {| sweepDeg := sweepDeg r;
       tailPosition := tailPosition r;
       lastCellPos := lastCellPos r;
       currentViewIndex := v |}).

Definition set_rotationDisplay (v : string) : State -> State :=
  on_display (fun r =>
    {| rotationDisplay := v;
       tailDisplay := tailDisplay r;
       viewDisplay := viewDisplay r;
       partDisplay := partDisplay r;
       imagePanel := imagePanel r |}).

Definition set_tailDisplay (v : string) : State -> State :=
  on_display (fun r =>
    {| rotationDisplay := rotationDisplay r;
       tailDisplay := v;
       viewDisplay := viewDisplay r;
       partDisplay := partDisplay r;
       imagePanel := imagePanel r |}).

Definition set_viewDisplay (v : string) : State -> State :=
  on_display (fun r =>
    {| rotationDisplay := rotationDisplay r;
       tailDisplay := tailDisplay r;
       viewDisplay := v;
       partDisplay := partDisplay r;
       imagePanel := imagePanel r |}).

Definition set_partDisplay (v : string) : State -> State :=
  on_display (fun r =>
    {| rotationDisplay := rotationDisplay r;
       tailDisplay := tailDisplay r;
       viewDisplay := viewDisplay r;
       partDisplay := v;
       imagePanel := imagePanel r |}).

Definition set_imagePanel (v : Panel) : State -> State :=
  on_display (fun r =>
    {| rotationDisplay := rotationDisplay r;
       tailDisplay := tailDisplay r;
       viewDisplay := viewDisplay r;
       partDisplay := partDisplay r;
       imagePanel := v |}).

Definition set_toggleButtonHidden (v : bool) : State -> State :=
  on_controls (fun r =>
    {| toggleButtonHidden := v;
       toggleButtonText := toggleButtonText r;
       showAnswerButtonHidden := showAnswerButtonHidden r;
       nextQuestionButtonHidden := nextQuestionButtonHidden r;
       correctAnswerImageHidden := correctAnswerImageHidden r;
       feedbackText := feedbackText r;
       feedbackBoxHidden := feedbackBoxHidden r;
       endScreenHidden := endScreenHidden r;
       finalScore := finalScore r |}).

Definition set_toggleButtonText (v : string) : State -> State :=
  on_controls (fun r =>
    {| toggleButtonHidden := toggleButtonHidden r;
       toggleButtonText := v;
       showAnswerButtonHidden := showAnswerButtonHidden r;
       nextQuestionButtonHidden := nextQuestionButtonHidden r;
       correctAnswerImageHidden := correctAnswerImageHidden r;
       feedbackText := feedbackText r;
       feedbackBoxHidden := feedbackBoxHidden r;
       endScreenHidden := endScreenHidden r;
       finalScore := finalScore r |}).

Definition set_showAnswerButtonHidden (v : bool) : State -> State :=
  on_controls (fun r =>
    {| toggleButtonHidden := toggleButtonHidden r;
       toggleButtonText := toggleButtonText r;
       showAnswerButtonHidden := v;
       nextQuestionButtonHidden := nextQuestionButtonHidden r;
       correctAnswerImageHidden := correctAnswerImageHidden r;
       feedbackText := feedbackText r;
       feedbackBoxHidden := feedbackBoxHidden r;
       endScreenHidden := endScreenHidden r;
       finalScore := finalScore r |}).

Definition set_nextQuestionButtonHidden (v : bool) : State -> State :=
  on_controls (fun r =>
    {| toggleButtonHidden := toggleButtonHidden r;
       toggleButtonText := toggleButtonText r;
       showAnswerButtonHidden := showAnswerButtonHidden r;
       nextQuestionButtonHidden := v;
       correctAnswerImageHidden := correctAnswerImageHidden r;
       feedbackText := feedbackText r;
       feedbackBoxHidden := feedbackBoxHidden r;
       endScreenHidden := endScreenHidden r;
       finalScore := finalScore r |}).

Definition set_correctAnswerImageHidden (v : bool) : State -> State :=
  on_controls (fun r =>
    {| toggleButtonHidden := toggleButtonHidden r;
       toggleButtonText := toggleButtonText r;
       showAnswerButtonHidden := showAnswerButtonHidden r;
       nextQuestionButtonHidden := nextQuestionButtonHidden r;
       correctAnswerImageHidden := v;
       feedbackText := feedbackText r;
       feedbackBoxHidden := feedbackBoxHidden r;
       endScreenHidden := endScreenHidden r;
       finalScore := finalScore r |}).

Definition set_feedbackText (v : Feedback) : State -> State :=
  on_controls (fun r =>
    {| toggleButtonHidden := toggleButtonHidden r;
       toggleButtonText := toggleButtonText r;
       showAnswerButtonHidden := showAnswerButtonHidden r;
       nextQuestionButtonHidden := nextQuestionButtonHidden r;
       correctAnswerImageHidden := correctAnswerImageHidden r;
       feedbackText := v;
       feedbackBoxHidden := feedbackBoxHidden r;
       endScreenHidden := endScreenHidden r;
       finalScore := finalScore r |}).

Definition set_feedbackBoxHidden (v : bool) : State -> State :=
  on_controls (fun r =>
    {| toggleButtonHidden := toggleButtonHidden r;
       toggleButtonText := toggleButtonText r;
       showAnswerButtonHidden := showAnswerButtonHidden r;
       nextQuestionButtonHidden := nextQuestionButtonHidden r;
       correctAnswerImageHidden := correctAnswerImageHidden r;
       feedbackText := feedbackText r;
       feedbackBoxHidden := v;
       endScreenHidden := endScreenHidden r;
       finalScore := finalScore r |}).

Definition set_endScreenHidden (v : bool) : State -> State :=
  on_controls (fun r =>
    {| toggleButtonHidden := toggleButtonHidden r;
       toggleButtonText := toggleButtonText r;
       showAnswerButtonHidden := showAnswerButtonHidden r;
       nextQuestionButtonHidden := nextQuestionButtonHidden r;
       correctAnswerImageHidden := correctAnswerImageHidden r;
       feedbackText := feedbackText r;
       feedbackBoxHidden := feedbackBoxHidden r;
       endScreenHidden := v;
       finalScore := finalScore r |}).

Definition set_finalScore (v : string) : State -> State :=
  on_controls (fun r =>
    {| toggleButtonHidden := toggleButtonHidden r;
       toggleButtonText := toggleButtonText r;
       showAnswerButtonHidden := showAnswerButtonHidden r;
       nextQuestionButtonHidden := nextQuestionButtonHidden r;
       correctAnswerImageHidden := correctAnswerImageHidden r;
       feedbackText := feedbackText r;
       feedbackBoxHidden := feedbackBoxHidden r;
       endScreenHidden := endScreenHidden r;
       finalScore := v |}).

(* ===================================================================== *)
(** ** Game-flow script: [degreesToClock]; probe script: [resetProbe] *)
(* ===================================================================== *)

Definition clock_labels : list string :=
  [ "12 o'clock"; "1 o'clock"; "2 o'clock"; "3 o'clock";
    "4 o'clock"; "5 o'clock"; "6 o'clock"; "7 o'clock";
    "8 o'clock"; "9 o'clock"; "10 o'clock"; "11 o'clock" ].

(** On an integer angle.  [%] is the truncating remainder; on the
    normalised angle [Math.round(n / 30)] is the quotient of [n + 15]
    by [30]. *)
Definition degreesToClock (a : Z) : string :=
  let normalized := Z.rem (Z.rem a 360 + 360) 360 in
  let hourIndex := Z.rem ((normalized + 15) / 30) 12 in
  match nth_error clock_labels (Z.to_nat hourIndex) with
  | Some l => l
  | None => "undefined"
  end.

Definition resetProbe (s : State) : State :=
  let s := set_sweepDeg 90 s in
  let s := set_tailPosition down s in
  let s := set_rotationDisplay "3 o'clock" s in
  let s := set_viewDisplay "-" s in
  let s := set_tailDisplay "Tail Down" s in
  s.

(* ===================================================================== *)
(** ** Simulator script: [updateImagePreview], [loadQuestion] and the
       click listeners of the switch-view button and of the circles *)
(* ===================================================================== *)

(** [lastCellPos !== pos]. *)
Definition lastCellPos_differs (s : State) (p : nat) : bool :=
  match lastCellPos (probe s) with
  | Some q => negb (Nat.eqb q p)
  | None => true
  end.

(** [views[currentViewIndex % views.length]]; [None] is [undefined]. *)
Definition view_at (views : list View) (i : num) : option View :=
  match num_rem i (List.length views) with
  | Fin k => nth_error views k
  | NaN => None
  end.

(** [imageSetsByAngleAndTail[key]?.[pos - 1]]. *)
Definition imageSet_at (k : string) (p : nat) : option string :=
  match obj_get String.eqb imageSetsByAngleAndTail k with
  | Some arr => at_pos arr p
  | None => None
  end.

(** [circlePositionsByKey[key]?.[pos - 1] || []]. *)
Definition circles_at (k : string) (p : nat) : list CircleData :=
  match obj_get String.eqb circlePositionsByKey k with
  | Some arr => match at_pos arr p with
                | Some cs => cs
                | None => []
                end
  | None => []
  end.

(** The test that guards the switch-view button, with the grouping the
    language gives it: [&&] binds tighter than [||]. *)
Definition switch_view_shown (views : list View) (s : State) : bool :=
  (Nat.ltb 1 (List.length views) && isSimulatorActive (quiz s))
  || isSandBoxActive (quiz s).

(** The blocks of [updateImagePreview], in the order of the source. *)

(** Always clear the image panel & hide controls. *)
Definition clear_preview (s : State) : State :=
  let s := set_imagePanel PanelEmpty s in
  let s := set_partDisplay "-" s in
  let s := set_toggleButtonHidden true s in
  let s := set_showAnswerButtonHidden true s in
  let s := set_nextQuestionButtonHidden true s in
  let s := set_correctAnswerImageHidden true s in
  s.

(** If moved to a new cell, reset the view index. *)
Definition enter_cell (p : nat) (s : State) : State :=
  if lastCellPos_differs s p then
    let s := set_currentViewIndex (Fin 0) s in
    let s := set_lastCellPos (Some p) s in
    s
  else s.

(** Show the switch-view button if there are multiples. *)
Definition show_switch_view (views : list View) (s : State) : State :=
  if switch_view_shown views s then
    let s := set_toggleButtonHidden false s in
    let s := set_toggleButtonText
               ("Switch View (" ++
                num_succ_str (currentViewIndex (probe s)) ++ "/" ++
                nat_str (List.length views) ++ ")") s in
    s
  else s.

(** Apply the probe transform and update the text of the displays; then
    the exception for the third view of position 2. *)
Definition apply_view (p : nat) (views : list View) (v : View) (s : State)
  : State :=
  let s := set_sweepDeg (angle v) s in
  let s := set_tailPosition (tail v) s in
  let s := set_rotationDisplay (degreesToClock (angle v)) s in
  let s := set_tailDisplay (match tail v with
                            | up => "Tail Up"
                            | down => "Tail Down"
                            end) s in
  let s := set_viewDisplay (view v) s in
  if Nat.eqb p 2 &&
     num_eqb (num_rem (currentViewIndex (probe s)) (List.length views)) 2
  then set_tailDisplay "Tail Neutral" s
  else s.

(** Inject the image and its circles. *)
Definition inject_image (p : nat) (v : View) (s : State) : State :=
  let k := key_of (angle v) (tail v) in
  match imageSet_at k p with
  | None => set_imagePanel (PanelNoImage k p) s
  | Some src => set_imagePanel (PanelImage src p (circles_at k p)) s
  end.

Definition updateImagePreview (L : Layout) (s : State) : Completion State :=
  let matched := resolve L in
  let s := clear_preview s in
  match matched with
  | None =>
      (* If no valid cell, reset probe and show message *)
      let s := resetProbe s in
      Normal (set_imagePanel PanelDropPrompt s)
  | Some cell =>
      (* We have a valid cell: load its views *)
      let p := pos cell in
      let views := views_at p in
      match views with
      | [] => Normal (set_imagePanel PanelInvalidPosition s)
      | _ :: _ =>
          let s := enter_cell p s in
          let s := show_switch_view views s in
          (* Pull the orientation, angle & tailDir *)
          match view_at views (currentViewIndex (probe s)) with
          | None => Throw s
          | Some v =>
              let s := apply_view p views v s in
              Normal (inject_image p v s)
          end
      end
  end.

Definition loadQuestion (L : Layout) (s : State) : Completion State :=
  match nth_error quizData (currentQuestionIndex (quiz s)) with
  | None => Normal s
  | Some _ => updateImagePreview L s
  end.

(** Click on the switch-view button. *)
Definition toggleButton_click (L : Layout) (s : State) : Completion State :=
  let views := views_of (lastCellPos (probe s)) in
  let s := set_currentViewIndex
             (succ_rem (currentViewIndex (probe s)) (List.length views)) s in
  updateImagePreview L s.

(** Click on a circle created by [updateImagePreview] for position [p] and
    data [circleData]. *)
Definition circle_click (p : nat) (circleData : CircleData) (s : State)
  : Completion State :=
  if isSandBoxActive (quiz s) then
    let s := set_feedbackBoxHidden true s in
    let s := set_isSimulatorActive false s in
    let s := set_isFeedbackActive false s in
    let s := set_partDisplay (text circleData) s in
    Normal s
  else
    match nth_error quizData (currentQuestionIndex (quiz s)) with
    | None => Throw s
    | Some qData =>
        let selectedAnswer := answer circleData in
        let s :=
          if Nat.eqb p (correctPosition qData) &&
             String.eqb selectedAnswer (correctAnswer qData) &&
             negb (isFeedbackActive (quiz s))
          then
            let s := set_score (score (quiz s) + 1) s in
            let s := set_feedbackText FeedbackCorrect s in
            let s := set_nextQuestionButtonHidden false s in
            let s := set_correctAnswerImageHidden true s in
            s
          else if negb (isFeedbackActive (quiz s)) then
            let s := set_feedbackText FeedbackIncorrect s in
            let s := set_showAnswerButtonHidden false s in
            let s := set_nextQuestionButtonHidden false s in
            let s := set_correctAnswerImageHidden true s in
            s
          else s in
        (* Show feedback modal *)
        let s := set_feedbackBoxHidden false s in
        let s := set_isSimulatorActive false s in
        let s := set_isFeedbackActive true s in
        Normal s
    end.

(** The probe script's [mousemove] listener while dragging, from the point
    where its call of [updateRope()] has returned: [L] is the layout once
    the probe has been moved.  The call of [updateRope()] before it, which
    does not return when the rope surface has a transform without an
    inverse, is added by [listen]. *)
Definition mousemove (L : Layout) (s : State) : Completion State :=
  updateImagePreview L s.

(* ===================================================================== *)
(** ** feedback.js *)
(* ===================================================================== *)

Definition showAnswerButton_click (s : State) : Completion State :=
  match nth_error quizData (currentQuestionIndex (quiz s)) with
  | None => Throw s
  | Some _ =>
      let s := set_correctAnswerImageHidden false s in
      let s := set_showAnswerButtonHidden true s in
      Normal s
  end.

Definition nextQuestionButton_click (L : Layout) (s : State)
  : Completion State :=
  let s := set_feedbackBoxHidden true s in
  let s := set_showAnswerButtonHidden true s in
  let s := set_nextQuestionButtonHidden true s in
  let s := set_isFeedbackActive false s in
  let s := set_currentQuestionIndex (currentQuestionIndex (quiz s) + 1) s in
  match nth_error quizData (currentQuestionIndex (quiz s)) with
  | Some _ =>
      let s := set_isSimulatorActive false s in
      loadQuestion L s
  | None =>
      let s := set_finalScore
                 (nat_str (score (quiz s)) ++ " out of " ++
                  nat_str (List.length quizData)) s in
      let s := set_isSimulatorActive false s in
      let s := set_endScreenHidden false s in
      Normal s
  end.

(* ===================================================================== *)
(** ** Game-flow script *)
(* ===================================================================== *)

Definition initUI (L : Layout) (s : State) : Completion State :=
  loadQuestion L s >>= fun s =>
  let s := set_sweepDeg 90 s in
  let s := set_rotationDisplay "3 o'clock" s in
  let s := set_tailDisplay "Tail Down" s in
  let s := set_viewDisplay "-" s in
  Normal s.

Definition startButton_click (L : Layout) (s : State) : Completion State :=
  let s := set_gameStarted true s in
  let s := set_currentQuestionIndex 0 s in
  let s := set_score 0 s in
  loadQuestion L s.

Definition sandBoxButton_click (L : Layout) (s : State) : Completion State :=
  let s := set_isSimulatorActive false s in
  let s := set_isSandBoxActive true s in
  initUI L s >>= updateImagePreview L >>= loadQuestion L.

Definition continueButton_click (L : Layout) (s : State) : Completion State :=
  let s := set_feedbackBoxHidden true s in
  let s := set_isSimulatorActive true s in
  initUI L s >>= updateImagePreview L >>= loadQuestion L.

Definition confirmExitButton_click (s : State) : Completion State :=
  let s := set_isSimulatorActive false s in
  let s := set_isSandBoxActive false s in
  let s := set_gameStarted false s in
  let s := set_currentQuestionIndex 0 s in
  let s := set_score 0 s in
  Normal s.

(** The listener of the restart button up to its last statement, the call
    of [updateRope()], which is added by [listen].  [L] is the layout once
    the probe is back at its start position. *)
Definition restartButton_click (L : Layout) (s : State) : Completion State :=
  let s := set_currentQuestionIndex 0 s in
  let s := set_score 0 s in
  let s := set_sweepDeg 90 s in
  let s := set_tailPosition down s in
  let s := set_currentViewIndex (Fin 0) s in
  let s := set_lastCellPos None s in
  let s := set_endScreenHidden true s in
  loadQuestion L s.

(* ===================================================================== *)
(** ** The page as an event-driven machine *)
(* ===================================================================== *)

(** One constructor per listener.  A listener that reads the layout carries
    the layout it finds; the listener of a circle carries the position and
    the data it closed over. *)
Inductive Event : Type :=
| StartButton (L : Layout)
| SandBoxButton (L : Layout)
| ContinueButton (L : Layout)
| ConfirmExitButton
| RestartButton (L : Layout)
| MouseMove (L : Layout)
| ToggleButton (L : Layout)
| CircleClick (p : nat) (circleData : CircleData)
| ShowAnswerButton
| NextQuestionButton (L : Layout).

Definition handle (e : Event) (s : State) : Completion State :=
  match e with
  | StartButton L => startButton_click L s
  | SandBoxButton L => sandBoxButton_click L s
  | ContinueButton L => continueButton_click L s
  | ConfirmExitButton => confirmExitButton_click s
  | RestartButton L => restartButton_click L s
  | MouseMove L => mousemove L s
  | ToggleButton L => toggleButton_click L s
  | CircleClick p circleData => circle_click p circleData s
  | ShowAnswerButton => showAnswerButton_click s
  | NextQuestionButton L => nextQuestionButton_click L s
  end.

(** An exception ends the handler it escapes from, not the page: the next
    event finds the state as the throw left it. *)
Definition run (es : list Event) (s : State) : State :=
  fold_left (fun s e => state_of (handle e s)) es s.

(** The script-level initialisers; the page part is what the document
    declares. *)
Definition initial (d : Display) (c : Controls) : State :=
  {| quiz := {| currentQuestionIndex := 0; score := 0;
                isSimulatorActive := false; isFeedbackActive := false;
                isSandBoxActive := false; gameStarted := false |};
     probe := {| sweepDeg := 0; tailPosition := up;
                 lastCellPos := None; currentViewIndex := Fin 0 |};
     display := d;
     controls := c |}.

(* ===================================================================== *)
(** ** Rope script: [getTailAnchor], [toSvgCoords], [updateRope] *)
(* ===================================================================== *)

Local Open Scope R_scope.

(** The probe centre as the rope script reads it. *)
Definition probe_center (probeEl : DOMRect) : R * R :=
  (Q2R (fst (getProbeCenter probeEl)), Q2R (snd (getProbeCenter probeEl))).

(** [Math.PI], [Math.cos] and [Math.sin] are written as the real constant
    and functions they approximate. *)
Definition getTailAnchor (probeEl : DOMRect) (angleDeg : R) (tailDir : Tail)
           (currentViewIndex : num) : R * R :=
  let cx := fst (probe_center probeEl) in
  let cy := snd (probe_center probeEl) in
  (* radius from center to edge (half width) *)
  let r := 160 / 2 in
  (* convert to radians *)
  let theta := angleDeg * PI / 180 in
  let offsetAngle := match tailDir with
                     | down => theta
                     | up => theta + PI
                     end in
  if num_eqb currentViewIndex 2
  then (cx, cy)
  else (cx + r * cos offsetAngle, cy + r * sin offsetAngle).

(** The six entries of a two-dimensional [DOMMatrix]:
    [x' = a x + c y + e] and [y' = b x + d y + f]. *)
Record DOMMatrix : Type := {
  ma : R; mb : R; mc : R; md : R; me : R; mf : R
}.

Definition matrixTransform (m : DOMMatrix) (p : R * R) : R * R :=
  (ma m * fst p + mc m * snd p + me m,
   mb m * fst p + md m * snd p + mf m).

Definition determinant (m : DOMMatrix) : R := ma m * md m - mb m * mc m.

(** [inverse()]; [None] for a matrix that has none (the browser then
    answers a matrix of [NaN] or raises, according to its age). *)
Definition inverse (m : DOMMatrix) : option DOMMatrix :=
  if Req_dec_T (determinant m) 0 then None
  else
    let dt := determinant m in
    Some {| ma := md m / dt;
            mb := - mb m / dt;
            mc := - mc m / dt;
            md := ma m / dt;
            me := (mc m * mf m - md m * me m) / dt;
            mf := (mb m * me m - ma m * mf m) / dt |}.

(** What a call leaves behind: the value it returns, if it returns one, and
    the lines it wrote with [console.warn]. *)
Record SvgCall : Type := {
  returned : option (R * R);
  warned : list string
}.

(** [screenCTM] is what [svg.getScreenCTM()] answers: [None] is [null]. *)
Definition toSvgCoords (screenCTM : option DOMMatrix) (px py : R) : SvgCall :=
  match screenCTM with
  | None =>
      {| returned := Some (px, py); warned := ["SVG CTM not available"%string] |}
  | Some m =>
      match inverse m with
      | Some inv => {| returned := Some (matrixTransform inv (px, py));
                       warned := [] |}
      | None => {| returned := None; warned := [] |}
      end
  end.

(** The anchor [updateRope] asks for: the orientation is read from the
    script variables. *)
Definition tailScreen (L : Layout) (s : State) : R * R :=
  getTailAnchor (probeBox L) (IZR (sweepDeg (probe s)))
                (tailPosition (probe s)) (currentViewIndex (probe s)).

Local Close Scope R_scope.


(* ===================================================================== *)
(** ** Probe script: dragging *)
(* ===================================================================== *)

(** [Math.max] and [Math.min] on two numbers. *)
Definition Math_max (a b : Q) : Q := if Qle_bool a b then b else a.
Definition Math_min (a b : Q) : Q := if Qle_bool a b then a else b.

(** The part of a mouse event the listeners read. *)
Record MouseEvent : Type := {
  clientX : Q;
  clientY : Q
}.

(** The script variables of the drag. *)
Record DragVars : Type := {
  isDragging : bool;
  offsetX : Q;
  offsetY : Q
}.

Definition drag_idle : DragVars :=
  {| isDragging := false; offsetX := 0; offsetY := 0 |}.

(** [mousedown] on the probe.  [containerRect] is the box of the
    container, [probeOffsetLeft] and [probeOffsetTop] are the probe's
    [offsetLeft] and [offsetTop]. *)
Definition probe_mousedown (e : MouseEvent) (containerRect : DOMRect)
           (probeOffsetLeft probeOffsetTop : Q) (d : DragVars) : DragVars :=
  {| isDragging := true;
     offsetX := (clientX e - (left containerRect + probeOffsetLeft))%Q;
     offsetY := (clientY e - (top containerRect + probeOffsetTop))%Q |}.

(** The position [mousemove] writes into [probe.style.left] and
    [probe.style.top]; [None] when the listener returns at once because
    nothing is being dragged.  [probeWidth] and [probeHeight] are the
    probe's [offsetWidth] and [offsetHeight]. *)
Definition drag_position (e : MouseEvent) (containerRect : DOMRect)
           (probeWidth probeHeight : Q) (d : DragVars) : option (Q * Q) :=
  if negb (isDragging d) then None
  else
    let newLeft := (clientX e - left containerRect - offsetX d)%Q in
    let newTop := (clientY e - top containerRect - offsetY d)%Q in
    (* Constrain within container *)
    let maxLeft := (width containerRect - probeWidth)%Q in
    let maxTop := (height containerRect - probeHeight)%Q in
    let newLeft := Math_max 0 (Math_min newLeft maxLeft) in
    let newTop := Math_max 0 (Math_min newTop maxTop) in
    Some (newLeft, newTop).

(* ===================================================================== *)
(** ** Tutorial slideshow *)
(* ===================================================================== *)

Record Slide : Type := {
  slideNum : nat;
  slideText : string;
  imageSrc : string;
  altText : string
}.

(** The double quote of the third slide's text. *)
Definition dquote : string := String (Ascii.ascii_of_nat 34) EmptyString.

Definition tutorialSlides : list Slide :=
  [ {| slideNum := 1;
       slideText := "Use your mouse to drag the ultrasound probe over the circular zones on the body to see different ultrasound images.";
       imageSrc := "Echo_images/tutorial/tutorial1.png";
       altText := "Tutorial Step 1: Dragging the probe." |};
    {| slideNum := 2;
       slideText := "The probe automatically rotates and adjusts its tail position based on the position of the probe on the body";
       imageSrc := "Echo_images/tutorial/tutorial2.png";
       altText := "Tutorial Step 2: Probe rotation and tail adjustment." |};
    {| slideNum := 3;
       slideText := "When placing the probe on the intercostal space, you can click the "
                    ++ dquote ++ "Switch View" ++ dquote ++
                    " button to switch between parasternal long-axis and short-axis views.";
       imageSrc := "Echo_images/tutorial/tutorial3.png";
       altText := "Tutorial Step 3: Switching between long-axis and short-axis views." |};
    {| slideNum := 4;
       slideText := "Answer questions by clicking on the correct anatomical structures in the ultrasound image.";
       imageSrc := "Echo_images/tutorial/tutorial4.png";
       altText := "Tutorial Step 4: Answering questions by clicking structures." |};
    {| slideNum := 5;
       slideText := "After selecting an answer, you will receive immediate feedback indicating whether your choice was correct or incorrect.";
       imageSrc := "Echo_images/tutorial/tutorial5.png";
       altText := "Tutorial Step 5: Immediate feedback on answers." |};
    {| slideNum := 6;
       slideText := "For the Simulation Mode, you can click on the circles to check what anatomical structure they represent.";
       imageSrc := "Echo_images/tutorial/tutorial6.png";
       altText := "Tutorial Step 6: Checking anatomical structures." |};
    {| slideNum := 7;
       slideText := "You can exit the Simulation anytime by using the 'Exit To Menu' button.";
       imageSrc := "Echo_images/tutorial/tutorial7.png";
       altText := "Tutorial Step 7: Exiting the Simulation." |};
    {| slideNum := 8;
       slideText := "You can review these instructions anytime by clicking the 'Instructions' button.";
       imageSrc := "Echo_images/tutorial/tutorial8.png";
       altText := "Tutorial Step 8: Reviewing instructions." |} ].

(** The script variable [currentSlide] and the part of the page the
    slideshow writes to; [consoleErrors] collects [console.error]. *)
Record Tutorial : Type := {
  currentSlide : nat;
  tutorialText : string;
  tutorialImageSrc : string;
  tutorialImageAlt : string;
  slideIndicator : string;
  prevSlideButtonHidden : bool;
  nextSlideButtonHidden : bool;
  closeTutorialButtonHidden : bool;
  tutorialOverlayHidden : bool;
  consoleErrors : list string
}.

Definition updateSlideshow (t : Tutorial) : Tutorial :=
  match at_pos tutorialSlides (currentSlide t) with
  | None =>
      {| currentSlide := currentSlide t;
         tutorialText := tutorialText t;
         tutorialImageSrc := tutorialImageSrc t;
         tutorialImageAlt := tutorialImageAlt t;
         slideIndicator := slideIndicator t;
         prevSlideButtonHidden := prevSlideButtonHidden t;
         nextSlideButtonHidden := nextSlideButtonHidden t;
         closeTutorialButtonHidden := closeTutorialButtonHidden t;
         tutorialOverlayHidden := tutorialOverlayHidden t;
         consoleErrors :=
           app (consoleErrors t)
               ["No data found for slide " ++ nat_str (currentSlide t)] |}
  | Some currentSlideData =>
      let isFirstSlide := Nat.eqb (currentSlide t) 1 in
      let isLastSlide :=
        Nat.eqb (currentSlide t) (List.length tutorialSlides) in
      {| currentSlide := currentSlide t;
         tutorialText := slideText currentSlideData;
         tutorialImageSrc := imageSrc currentSlideData;
         tutorialImageAlt := altText currentSlideData;
         slideIndicator :=
           nat_str (currentSlide t) ++ " of " ++
           nat_str (List.length tutorialSlides);
         prevSlideButtonHidden := isFirstSlide;
         nextSlideButtonHidden := isLastSlide;
         closeTutorialButtonHidden := negb isLastSlide;
         tutorialOverlayHidden := tutorialOverlayHidden t;
         consoleErrors := consoleErrors t |}
  end.

Definition set_currentSlide (n : nat) (t : Tutorial) : Tutorial :=
  {| currentSlide := n;
     tutorialText := tutorialText t;
     tutorialImageSrc := tutorialImageSrc t;
     tutorialImageAlt := tutorialImageAlt t;
     slideIndicator := slideIndicator t;
     prevSlideButtonHidden := prevSlideButtonHidden t;
     nextSlideButtonHidden := nextSlideButtonHidden t;
     closeTutorialButtonHidden := closeTutorialButtonHidden t;
     tutorialOverlayHidden := tutorialOverlayHidden t;
     consoleErrors := consoleErrors t |}.

Definition set_tutorialOverlayHidden (b : bool) (t : Tutorial) : Tutorial :=
  {| currentSlide := currentSlide t;
     tutorialText := tutorialText t;
     tutorialImageSrc := tutorialImageSrc t;
     tutorialImageAlt := tutorialImageAlt t;
     slideIndicator := slideIndicator t;
     prevSlideButtonHidden := prevSlideButtonHidden t;
     nextSlideButtonHidden := nextSlideButtonHidden t;
     closeTutorialButtonHidden := closeTutorialButtonHidden t;
     tutorialOverlayHidden := b;
     consoleErrors := consoleErrors t |}.

(** Both buttons that open the tutorial have the same listener. *)
Definition tutorialButton_click (t : Tutorial) : Tutorial :=
  let t := set_tutorialOverlayHidden false t in
  let t := set_currentSlide 1 t in
  updateSlideshow t.

(** Both buttons that close the tutorial have the same listener. *)
Definition closeTutorial_click (t : Tutorial) : Tutorial :=
  set_tutorialOverlayHidden true t.

Definition nextSlideButton_click (t : Tutorial) : Tutorial :=
  if Nat.ltb (currentSlide t) (List.length tutorialSlides)
  then updateSlideshow (set_currentSlide (currentSlide t + 1) t)
  else t.

Definition prevSlideButton_click (t : Tutorial) : Tutorial :=
  if Nat.ltb 1 (currentSlide t)
  then updateSlideshow (set_currentSlide (currentSlide t - 1) t)
  else t.

Inductive TutorialEvent : Type :=
| OpenTutorial
| CloseTutorial
| NextSlide
| PrevSlide.

Definition tutorial_handle (e : TutorialEvent) (t : Tutorial) : Tutorial :=
  match e with
  | OpenTutorial => tutorialButton_click t
  | CloseTutorial => closeTutorial_click t
  | NextSlide => nextSlideButton_click t
  | PrevSlide => prevSlideButton_click t
  end.

Definition tutorial_run (es : list TutorialEvent) (t : Tutorial) : Tutorial :=
  fold_left (fun t e => tutorial_handle e t) es t.

(** The page once [DOMContentLoaded] has run; the text and the image are
    what the document declares. *)
Definition tutorial_loaded (txt src alt : string) : Tutorial :=
  {| currentSlide := 1;
     tutorialText := txt;
     tutorialImageSrc := src;
     tutorialImageAlt := alt;
     slideIndicator := "1 of " ++ nat_str (List.length tutorialSlides);
     prevSlideButtonHidden := true;
     nextSlideButtonHidden := false;
     closeTutorialButtonHidden := true;
     tutorialOverlayHidden := true;
     consoleErrors := [] |}.

(* ===================================================================== *)
(** ** Rope script: [updateRope] *)
(* ===================================================================== *)

Local Open Scope R_scope.

(** What [updateRope] leaves behind: the four points of the path it
    writes (start, two control points, end), if every conversion returned
    a point, and the warnings of the conversions. *)
Record RopeCall : Type := {
  rope_path : option ((R * R) * (R * R) * (R * R) * (R * R));
  rope_warned : list string
}.

(** The four points in screen coordinates.  [mBox] is the box of the
    machine area.  The factors [0.7] and [0.5] are taken as the fractions
    they denote. *)
Definition rope_screen_points (mBox : DOMRect) (L : Layout) (s : State)
  : (R * R) * (R * R) * (R * R) * (R * R) :=
  let mScreenX := Q2R (left mBox) + Q2R (width mBox) / 2 in
  let mScreenY := Q2R (top mBox) + 20 in
  let t := tailScreen L s in
  match tailPosition (probe s) with
  | up =>
      let c1x := mScreenX + (fst t - mScreenX) * (7 / 10) in
      let c1y := mScreenY - 50 in
      let c2x := c1x in
      let c2y := snd t - 350 in
      ((mScreenX, mScreenY), (c1x, c1y), (c2x, c2y), t)
  | down =>
      let c1x := mScreenX + (fst t - mScreenX) * (5 / 10) in
      let c1y := mScreenY - 150 in
      let c2x := mScreenX + (fst t - mScreenX) * (7 / 10) in
      let c2y := snd t + 100 in
      ((mScreenX, mScreenY), (c1x, c1y), (c2x, c2y), t)
  end.

Definition updateRope (screenCTM : option DOMMatrix) (mBox : DOMRect)
           (L : Layout) (s : State) : RopeCall :=
  let '(m, c1, c2, t) := rope_screen_points mBox L s in
  let mSvg := toSvgCoords screenCTM (fst m) (snd m) in
  let tSvg := toSvgCoords screenCTM (fst t) (snd t) in
  let c1Svg := toSvgCoords screenCTM (fst c1) (snd c1) in
  let c2Svg := toSvgCoords screenCTM (fst c2) (snd c2) in
  {| rope_path :=
       match returned mSvg, returned c1Svg, returned c2Svg, returned tSvg with
       | Some pm, Some pc1, Some pc2, Some pt => Some (pm, pc1, pc2, pt)
       | _, _, _, _ => None
       end;
     rope_warned :=
       (warned mSvg ++ warned tSvg ++ warned c1Svg ++ warned c2Svg)%list |}.

(* ===================================================================== *)
(** ** Listeners that call [updateRope()] *)
(* ===================================================================== *)

(** What the rope script finds on the page while one listener runs: what
    [svg.getScreenCTM()] answers and the box of the machine area. *)
Record Surface : Type := {
  ctm : option DOMMatrix;
  machineBox : DOMRect
}.

(** The transform of the surface has no inverse. *)
Definition singular (sf : Surface) : Prop :=
  exists m, ctm sf = Some m /\ determinant m = 0.

Definition updateRope_returns (sf : Surface) (L : Layout) (s : State) : bool :=
  match rope_path (updateRope (ctm sf) (machineBox sf) L s) with
  | Some _ => true
  | None => false
  end.

(** A call of [updateRope()] inside a listener: the listener goes on when
    the call returns and ends there when it does not.  The call writes the
    path of the rope and no script variable.  The elements the header of
    the rope script requires (the machine area, the rope surface and its
    path) are taken to be on the page, so that the conversion of
    [toSvgCoords] is the one call that may not return. *)
Definition call_updateRope (sf : Surface) (L : Layout) (s : State)
  : Completion State :=
  if updateRope_returns sf L s then Normal s else Throw s.

(** The listeners with their calls of [updateRope()]: the [mousemove]
    listener of the document calls it before the position update, the
    listener of the restart button after [loadQuestion()]; no other
    listener calls it. *)
Definition listen (sf : Surface) (e : Event) (s : State) : Completion State :=
  match e with
  | MouseMove L => call_updateRope sf L s >>= mousemove L
  | RestartButton L => restartButton_click L s >>= call_updateRope sf L
  | _ => handle e s
  end.

(** The state after a sequence of events, each on the surface it finds. *)
Definition run_listen (ses : list (Surface * Event)) (s : State) : State :=
  fold_left (fun s se => state_of (listen (fst se) (snd se) s)) ses s.

Local Close Scope R_scope.
(* ===================================================================== *)
(** ** Notions used in the statements *)
(* ===================================================================== *)

Local Open Scope list_scope.

(** The point lies in the open rectangle of the cell. *)
Definition strictly_inside (p : Q * Q) (c : Cell) : Prop :=
  (left (rect c) < fst p)%Q /\ (fst p < right (rect c))%Q /\
  (top (rect c) < snd p)%Q /\ (snd p < bottom (rect c))%Q.

(** The point lies in the closed rectangle of the cell: in the open
    rectangle or on one of its edges. *)
Definition inside (p : Q * Q) (c : Cell) : Prop :=
  (left (rect c) <= fst p)%Q /\ (fst p <= right (rect c))%Q /\
  (top (rect c) <= snd p)%Q /\ (snd p <= bottom (rect c))%Q.

(** The state after the first three blocks, over a zone that has views. *)
Definition entered (views : list View) (p : nat) (s : State) : State :=
  show_switch_view views (enter_cell p (clear_preview s)).

(** The state after the last two blocks, for the view [v]. *)
Definition shown (p : nat) (views : list View) (v : View) (s : State) : State :=
  inject_image p v (apply_view p views v s).

(** The index [updateImagePreview] leaves behind when the probe is over a
    zone at position [p] that has views. *)
Definition index_on_entry (s : State) (p : nat) : num :=
  if lastCellPos_differs s p then Fin 0 else currentViewIndex (probe s).

(** What the simulator remembers between position updates: the position of
    the last zone entered and the view index. *)
Definition remembered (s : State) : option nat * num :=
  (lastCellPos (probe s), currentViewIndex (probe s)).

(** The view index is a valid index into the views of the remembered
    position, whenever a position is remembered. *)
Definition index_ok (r : option nat * num) : Prop :=
  forall p, fst r = Some p ->
            exists n, snd r = Fin n /\ n < List.length (views_at p).

Definition view_index_ok (s : State) : Prop := index_ok (remembered s).

(** When no position is remembered the index is the initial [0], or [NaN]
    after a click on the switch-view button. *)
Definition index_unset (r : option nat * num) : Prop :=
  fst r = None -> snd r = Fin 0 \/ snd r = NaN.

Definition view_index_unset (s : State) : Prop := index_unset (remembered s).

(** The circles in the image panel were created for the remembered
    position. *)
Definition panel_of_remembered (s : State) : Prop :=
  forall src p cs, imagePanel (display s) = PanelImage src p cs ->
                   lastCellPos (probe s) = Some p.

(** [n] clicks on the switch-view button under one layout. *)
Definition cycle_times (L : Layout) (n : nat) (s : State) : State :=
  Nat.iter n (fun s => state_of (toggleButton_click L s)) s.

(** The variables of the quiz progression machine. *)
Record Progress : Type := {
  p_index : nat;
  p_score : nat;
  p_feedback : bool;
  p_sandbox : bool;
  p_endHidden : bool;
  p_final : string
}.

Definition progress (s : State) : Progress :=
  {| p_index := currentQuestionIndex (quiz s);
     p_score := score (quiz s);
     p_feedback := isFeedbackActive (quiz s);
     p_sandbox := isSandBoxActive (quiz s);
     p_endHidden := endScreenHidden (controls s);
     p_final := finalScore (controls s) |}.

(** The events that can occur between the display of a question and the
    click on the next-question button, in quiz mode. *)
Definition within_question (e : Event) : bool :=
  match e with
  | ContinueButton _ | MouseMove _ | ToggleButton _
  | CircleClick _ _ | ShowAnswerButton => true
  | _ => false
  end.

(** The first click on a circle among the events. *)
Fixpoint first_click (es : list Event) : option (nat * CircleData) :=
  match es with
  | [] => None
  | CircleClick p c :: _ => Some (p, c)
  | _ :: es' => first_click es'
  end.

(** The click is on a circle of the question's position that carries the
    question's answer. *)
Definition click_matches (q : Question) (p : nat) (c : CircleData) : bool :=
  Nat.eqb p (correctPosition q) && String.eqb (answer c) (correctAnswer q).

Definition answered_correctly (q : Question) (es : list Event) : bool :=
  match first_click es with
  | Some (p, c) => click_matches q p c
  | None => false
  end.

(** A play-through: for each question in turn the events that occur while
    it is displayed, then the click on the next-question button under the
    layout of that moment. *)
Fixpoint play (rounds : list (list Event * Layout)) : list Event :=
  match rounds with
  | [] => []
  | (es, L) :: rounds' => es ++ NextQuestionButton L :: play rounds'
  end.

(** The number of questions answered correctly at the first click. *)
Fixpoint correct_count (qs : list Question)
         (rounds : list (list Event * Layout)) : nat :=
  match qs, rounds with
  | q :: qs', (es, _) :: rounds' =>
      (if answered_correctly q es then 1 else 0) + correct_count qs' rounds'
  | _, _ => 0
  end.

(* ===================================================================== *)
(** ** A page used in the examples *)
(* ===================================================================== *)

Definition box (l t w h : Q) : DOMRect :=
  {| left := l; top := t; right := l + w; bottom := t + h;
     width := w; height := h |}.

(** Four zones of 40 by 40 pixels, one per position of the data model. *)
Definition zone1 : Cell := {| pos := 1; rect := box 100 0 40 40 |}.
Definition zone2 : Cell := {| pos := 2; rect := box 100 100 40 40 |}.
Definition zone3 : Cell := {| pos := 3; rect := box 100 200 40 40 |}.
Definition zone4 : Cell := {| pos := 4; rect := box 200 200 40 40 |}.

Definition sample_cells : list Cell := [zone1; zone2; zone3; zone4].

(** Two zones that overlap, the second inside the first. *)
Definition outer_zone : Cell := {| pos := 1; rect := box 0 0 100 100 |}.
Definition inner_zone : Cell := {| pos := 2; rect := box 10 10 20 20 |}.
Definition nested_cells : list Cell := [outer_zone; inner_zone].

(** Two zones that overlap in a strip: the right edge of the first runs
    through the second. *)
Definition edge_zoneA : Cell := {| pos := 1; rect := box 100 100 40 40 |}.
Definition edge_zoneB : Cell := {| pos := 2; rect := box 130 100 40 40 |}.
Definition edge_cells : list Cell := [edge_zoneA; edge_zoneB].

(** The layout with the probe (20 by 20 pixels) at offset [(l, t)]. *)
Definition probe_at (l t : Q) : Layout :=
  {| cells := sample_cells; probeBox := box l t 20 20 |}.

Definition over_zone1 : Layout := probe_at 110 10.
Definition over_zone2 : Layout := probe_at 110 110.
Definition over_zone3 : Layout := probe_at 110 210.
Definition over_zone4 : Layout := probe_at 210 210.
Definition off_zones : Layout := probe_at 0 0.

Definition page_load : State :=
  initial
    {| rotationDisplay := "-"; tailDisplay := "-"; viewDisplay := "-";
       partDisplay := "-"; imagePanel := PanelEmpty |}
    {| toggleButtonHidden := true; toggleButtonText := "Switch View";
       showAnswerButtonHidden := true; nextQuestionButtonHidden := true;
       correctAnswerImageHidden := true; feedbackText := FeedbackUnset;
       feedbackBoxHidden := true; endScreenHidden := true;
       finalScore := EmptyString |}.

(** A play-through of the quiz in which every question is answered
    correctly at the first click, and one in which the first question
    receives a wrong click before the right one. *)
Definition perfect_rounds : list (list Event * Layout) :=
  [ ([ContinueButton off_zones; MouseMove over_zone2;
      ToggleButton over_zone2; ToggleButton over_zone2;
      CircleClick 2 (mkCircle 53 30 "G" "Right Ventricle")], over_zone2);
    ([ContinueButton over_zone2;
      ToggleButton over_zone2; ToggleButton over_zone2;
      CircleClick 2 (mkCircle 45 56 "B" "Aortic Valve")], over_zone2);
    ([ContinueButton over_zone2; MouseMove over_zone1;
      CircleClick 1 (mkCircle 33 50 "D" "Main Pulmonary Artery")], over_zone1);
    ([ContinueButton over_zone1; MouseMove over_zone4;
      CircleClick 4 (mkCircle 55 70 "F" "Left Atrium")], over_zone4);
    ([ContinueButton over_zone4; MouseMove over_zone3;
      CircleClick 3 (mkCircle 53 58 "C" "Left Ventricle")], over_zone3) ].

Definition second_thoughts_rounds : list (list Event * Layout) :=
  ([ContinueButton off_zones; MouseMove over_zone2;
    ToggleButton over_zone2; ToggleButton over_zone2;
    CircleClick 2 (mkCircle 40 50 "F" "Left Ventricle");
    CircleClick 2 (mkCircle 53 30 "G" "Right Ventricle")], over_zone2)
  :: tl perfect_rounds.


Definition cycled_once : State :=
  run [MouseMove over_zone2; ToggleButton over_zone2] page_load.
Definition on_zone3 : State := run [MouseMove over_zone3] page_load.

(** The quiz started from the loaded page, and the same with the first
    question on screen. *)
Definition quiz_started : State := run [StartButton off_zones] page_load.
Definition first_question : State :=
  run [StartButton off_zones; ContinueButton off_zones] page_load.

(** Sandbox mode entered from the loaded page. *)
Definition sandbox_entered : State := run [SandBoxButton off_zones] page_load.

(** The first question, and clicks on its right circle with a position
    update in between. *)
Definition question1 : Question :=
  mkQuestion
    "In parasternal long axis view (PLAX), where is the right ventricle?"
    "300_up" 2 "G" "Echo_Images/answer/Q1_ans.png".

Definition circle_G : CircleData := mkCircle 53 30 "G" "Right Ventricle".

Definition eager_clicks : list Event :=
  [MouseMove over_zone2; CircleClick 2 circle_G; CircleClick 2 circle_G;
   MouseMove over_zone2; CircleClick 2 circle_G].

(* ===================================================================== *)
(** ** Notions used in the further statements *)
(* ===================================================================== *)

(** The tutorial as it shows slide [k] with data [d]. *)
Definition showing (k : nat) (d : Slide) (overlayHidden : bool) : Tutorial :=
  {| currentSlide := k;
     tutorialText := slideText d;
     tutorialImageSrc := imageSrc d;
     tutorialImageAlt := altText d;
     slideIndicator :=
       (nat_str k ++ " of " ++ nat_str (List.length tutorialSlides))%string;
     prevSlideButtonHidden := Nat.eqb k 1;
     nextSlideButtonHidden := Nat.eqb k (List.length tutorialSlides);
     closeTutorialButtonHidden := negb (Nat.eqb k (List.length tutorialSlides));
     tutorialOverlayHidden := overlayHidden;
     consoleErrors := [] |}.

(** The tutorial shows one of its slides, with the indicator and the
    buttons that go with it, and nothing was written to the console. *)
Definition tutorial_consistent (t : Tutorial) : Prop :=
  exists k d,
    1 <= k <= List.length tutorialSlides /\
    nth_error tutorialSlides (k - 1) = Some d /\
    slideNum d = k /\
    t = showing k d (tutorialOverlayHidden t).

(** The text of the switch-view button for view index [i]. *)
Definition switch_view_label (i : num) (views : list View) : string :=
  ("Switch View (" ++ num_succ_str i ++ "/" ++
   nat_str (List.length views) ++ ")")%string.

(** The text of the tail display for view [v] at view index [i] of
    position [p]. *)
Definition tail_text (p : nat) (views : list View) (v : View) (i : num)
  : string :=
  if Nat.eqb p 2 && num_eqb (num_rem i (List.length views)) 2
  then "Tail Neutral"
  else match tail v with
       | up => "Tail Up"
       | down => "Tail Down"
       end.

(** The panel for view [v] at position [p]. *)
Definition panel_for (p : nat) (v : View) : Panel :=
  match imageSet_at (key_of (angle v) (tail v)) p with
  | None => PanelNoImage (key_of (angle v) (tail v)) p
  | Some src => PanelImage src p (circles_at (key_of (angle v) (tail v)) p)
  end.

(** The controls once the first three blocks of a position update have
    run over position [p]. *)
Definition entered_controls (views : list View) (p : nat) (s : State)
  : Controls :=
  {| toggleButtonHidden := negb (switch_view_shown views s);
     toggleButtonText :=
       if switch_view_shown views s
       then switch_view_label (index_on_entry s p) views
       else toggleButtonText (controls s);
     showAnswerButtonHidden := true;
     nextQuestionButtonHidden := true;
     correctAnswerImageHidden := true;
     feedbackText := feedbackText (controls s);
     feedbackBoxHidden := feedbackBoxHidden (controls s);
     endScreenHidden := endScreenHidden (controls s);
     finalScore := finalScore (controls s) |}.

(** The state a position update leaves over position [p] when it shows
    view [v]: everything but the quiz variables, the feedback, the end
    screen and the summary is determined by [p], [v] and the index on
    entry. *)
Definition zone_state (views : list View) (p : nat) (v : View) (s : State)
  : State :=
  {| quiz := quiz s;
     probe := {| sweepDeg := angle v;
                 tailPosition := tail v;
                 lastCellPos := Some p;
                 currentViewIndex := index_on_entry s p |};
     display := {| rotationDisplay := degreesToClock (angle v);
                   tailDisplay := tail_text p views v (index_on_entry s p);
                   viewDisplay := view v;
                   partDisplay := "-";
                   imagePanel := panel_for p v |};
     controls := entered_controls views p s |}.

(** What a listener does to the quiz variables, as a function of the quiz
    variables alone. *)
Definition quiz_after (e : Event) (q : QuizVars) : QuizVars :=
  match e with
  | StartButton _ =>
      {| currentQuestionIndex := 0; score := 0;
         isSimulatorActive := isSimulatorActive q;
         isFeedbackActive := isFeedbackActive q;
         isSandBoxActive := isSandBoxActive q;
         gameStarted := true |}
  | SandBoxButton _ =>
      {| currentQuestionIndex := currentQuestionIndex q; score := score q;
         isSimulatorActive := false;
         isFeedbackActive := isFeedbackActive q;
         isSandBoxActive := true;
         gameStarted := gameStarted q |}
  | ContinueButton _ =>
      {| currentQuestionIndex := currentQuestionIndex q; score := score q;
         isSimulatorActive := true;
         isFeedbackActive := isFeedbackActive q;
         isSandBoxActive := isSandBoxActive q;
         gameStarted := gameStarted q |}
  | ConfirmExitButton =>
      {| currentQuestionIndex := 0; score := 0;
         isSimulatorActive := false;
         isFeedbackActive := isFeedbackActive q;
         isSandBoxActive := false;
         gameStarted := false |}
  | RestartButton _ =>
      {| currentQuestionIndex := 0; score := 0;
         isSimulatorActive := isSimulatorActive q;
         isFeedbackActive := isFeedbackActive q;
         isSandBoxActive := isSandBoxActive q;
         gameStarted := gameStarted q |}
  | MouseMove _ | ToggleButton _ | ShowAnswerButton => q
  | CircleClick p c =>
      if isSandBoxActive q then
        {| currentQuestionIndex := currentQuestionIndex q; score := score q;
           isSimulatorActive := false;
           isFeedbackActive := false;
           isSandBoxActive := isSandBoxActive q;
           gameStarted := gameStarted q |}
      else
        match nth_error quizData (currentQuestionIndex q) with
        | None => q
        | Some qData =>
            {| currentQuestionIndex := currentQuestionIndex q;
               score := score q +
                        (if click_matches qData p c &&
                            negb (isFeedbackActive q)
                         then 1 else 0);
               isSimulatorActive := false;
               isFeedbackActive := true;
               isSandBoxActive := isSandBoxActive q;
               gameStarted := gameStarted q |}
        end
  | NextQuestionButton _ =>
      {| currentQuestionIndex := currentQuestionIndex q + 1; score := score q;
         isSimulatorActive := false;
         isFeedbackActive := false;
         isSandBoxActive := isSandBoxActive q;
         gameStarted := gameStarted q |}
  end.

(** The score is within the number of questions and, in quiz mode, within
    the number of questions answered so far. *)
Definition score_bounded (q : QuizVars) : Prop :=
  score q <= List.length quizData /\
  (isSandBoxActive q = false ->
   score q <= currentQuestionIndex q +
              (if isFeedbackActive q then 1 else 0)).

(** The summary is the one the page was loaded with or [k out of total]
    for a [k] within the number of questions. *)
Definition summary_bounded (initial_summary : string) (s : State) : Prop :=
  finalScore (controls s) = initial_summary \/
  exists k, k <= List.length quizData /\
            finalScore (controls s)
            = (nat_str k ++ " out of " ++
               nat_str (List.length quizData))%string.

(** The display and controls of the loaded page of the examples. *)
Definition page_display : Display := display page_load.
Definition page_controls : Controls := controls page_load.

(** A wrong click on the first question, then out to the menu and into the
    quiz again, where the right circle is clicked. *)
Definition wrong_click : list Event :=
  [StartButton off_zones; ContinueButton off_zones; MouseMove over_zone2;
   ToggleButton over_zone2; ToggleButton over_zone2;
   CircleClick 2 (mkCircle 40 50 "F" "Left Ventricle")].

Definition after_wrong_click : State := run wrong_click page_load.

Definition right_clicks_again : list Event :=
  [ContinueButton over_zone2; CircleClick 2 circle_G; CircleClick 2 circle_G].

(** The events that can occur in sandbox mode short of leaving it. *)
Definition in_sandbox (e : Event) : bool :=
  match e with
  | MouseMove _ | ToggleButton _ | CircleClick _ _ => true
  | _ => false
  end.

(** The probe is over position [p] showing the view at the index. *)
Definition showing_view (p : nat) (s : State) : Prop :=
  lastCellPos (probe s) = Some p /\
  exists n v,
    currentViewIndex (probe s) = Fin n /\
    nth_error (views_at p) n = Some v /\
    sweepDeg (probe s) = angle v /\
    tailPosition (probe s) = tail v /\
    imagePanel (display s) = panel_for p v.

(* ===================================================================== *)
(** ** Zone resolver *)
(* ===================================================================== *)

(** The predicate handed to [find] decides the closed rectangle. *)
Lemma cell_contains_inside p c :
  cell_contains (fst p) (snd p) c = true <-> inside p c.
Proof.
  unfold cell_contains, inside. cbv zeta.
  rewrite !andb_true_iff, !Qle_bool_iff. tauto.
Qed.

Lemma strictly_inside_inside p c : strictly_inside p c -> inside p c.
Proof.
  intros (Hl & Hr & Ht & Hb).
  repeat split; apply Qlt_le_weak; assumption.
Qed.

Lemma find_cell_first before c after p :
  inside p c ->
  (forall c', In c' before -> ~ inside p c') ->
  find_cell (before ++ c :: after) p = Some c.
Proof.
  unfold find_cell. intros Hc.
  induction before as [|b before IH]; intros Hbefore; simpl.
  - rewrite (proj2 (cell_contains_inside p c) Hc). reflexivity.
  - destruct (cell_contains (fst p) (snd p) b) eqn:Eb.
    + exfalso. apply (Hbefore b); [now left|].
      apply cell_contains_inside, Eb.
    + apply IH. intros c' Hin. apply Hbefore. now right.
Qed.

(** The first zone that contains the point may come before [c] when it
    is [c] itself. *)
Lemma find_cell_only before c after p :
  inside p c ->
  (forall c', In c' before -> inside p c' -> c' = c) ->
  find_cell (before ++ c :: after) p = Some c.
Proof.
  unfold find_cell. intros Hc.
  induction before as [|b before IH]; intros Hbefore; simpl.
  - rewrite (proj2 (cell_contains_inside p c) Hc). reflexivity.
  - destruct (cell_contains (fst p) (snd p) b) eqn:Eb.
    + f_equal. apply Hbefore; [now left|].
      apply cell_contains_inside, Eb.
    + apply IH. intros c' Hin. apply Hbefore. now right.
Qed.

Lemma find_cell_none cs p :
  (forall c, In c cs -> ~ inside p c) -> find_cell cs p = None.
Proof.
  unfold find_cell. induction cs as [|c cs IH]; intros H; simpl.
  - reflexivity.
  - destruct (cell_contains (fst p) (snd p) c) eqn:Ec.
    + exfalso. apply (H c); [now left|].
      apply cell_contains_inside, Ec.
    + apply IH. intros c' Hin. apply H. now right.
Qed.

(** What an answer of the resolver says about the list. *)
Lemma find_cell_some_inv cs p c :
  find_cell cs p = Some c ->
  exists before after,
    cs = before ++ c :: after /\ inside p c /\
    forall c', In c' before -> ~ inside p c'.
Proof.
  unfold find_cell. induction cs as [|b cs IH]; simpl; [discriminate|].
  destruct (cell_contains (fst p) (snd p) b) eqn:Eb.
  - intros E. injection E as <-. exists [], cs.
    split; [reflexivity|]. split; [apply cell_contains_inside, Eb|].
    intros c' [].
  - intros E. destruct (IH E) as (before & after & -> & Hc & Hbefore).
    exists (b :: before), after. split; [reflexivity|]. split; [exact Hc|].
    intros c' [<- | Hin]; [|apply Hbefore, Hin].
    intros Hb. apply cell_contains_inside in Hb. congruence.
Qed.

Lemma find_cell_none_inv cs p :
  find_cell cs p = None -> forall c, In c cs -> ~ inside p c.
Proof.
  unfold find_cell. intros E c Hin Hc.
  apply cell_contains_inside in Hc.
  pose proof (find_none _ _ E c Hin) as Hf. congruence.
Qed.

(** The point [(140, 120)] is strictly inside exactly one rectangle of
    [edge_cells], that of the second zone; it is on the right edge of the
    first zone, and the resolver returns the first zone. *)
Lemma zone_resolver_edge_counterexample :
  strictly_inside (140, 120)%Q edge_zoneB /\
  ~ strictly_inside (140, 120)%Q edge_zoneA /\
  inside (140, 120)%Q edge_zoneA /\
  find_cell edge_cells (140, 120)%Q = Some edge_zoneA /\
  find_cell edge_cells (140, 120)%Q <> Some edge_zoneB.
Proof.
  split; [|split; [|split; [|split]]].
  - unfold strictly_inside; simpl; repeat split; reflexivity.
  - intros (_ & Hr & _). vm_compute in Hr. discriminate Hr.
  - unfold inside; simpl; repeat split; vm_compute; discriminate.
  - vm_compute. reflexivity.
  - vm_compute. discriminate.
Qed.

(** C3.  The zone resolver is a total function of the point and of the
    list of zones.  Rectangles are closed: a point on an edge is inside.
    (1) If the point is strictly inside exactly one rectangle and on the
    edge of no zone that comes before that zone, the resolver returns
    that zone.  (2) If the point is inside no rectangle, the resolver
    returns none.  (3) If several rectangles contain the point, edges
    included, the resolver returns the first of them in the order of the
    list.  (4) Conversely, a zone the resolver returns is the first whose
    rectangle contains the point, and when it returns none no rectangle
    contains the point. *)
Theorem zone_resolver_correct (cs : list Cell) (p : Q * Q) :
  (forall before c after,
      cs = before ++ c :: after ->
      strictly_inside p c ->
      (forall c', In c' cs -> strictly_inside p c' -> c' = c) ->
      (forall c', In c' before -> inside p c' -> strictly_inside p c') ->
      find_cell cs p = Some c) /\
  ((forall c, In c cs -> ~ inside p c) -> find_cell cs p = None) /\
  (forall before c after,
      cs = before ++ c :: after ->
      inside p c ->
      (forall c', In c' before -> ~ inside p c') ->
      find_cell cs p = Some c) /\
  (forall c,
      find_cell cs p = Some c ->
      exists before after,
        cs = before ++ c :: after /\ inside p c /\
        forall c', In c' before -> ~ inside p c') /\
  (find_cell cs p = None -> forall c, In c cs -> ~ inside p c).
Proof.
  split; [|split; [|split; [|split]]].
  - intros before c after -> Hc Huniq Hedge.
    apply find_cell_only; [apply strictly_inside_inside, Hc|].
    intros c' Hin Hins. apply Huniq.
    + apply in_or_app. now left.
    + apply Hedge; assumption.
  - apply find_cell_none.
  - intros before c after -> Hc Hbefore.
    apply find_cell_first; assumption.
  - apply find_cell_some_inv.
  - apply find_cell_none_inv.
Qed.

Lemma zone_resolver_correct_witness :
  find_cell sample_cells (120, 120)%Q = Some zone2 /\
  find_cell sample_cells (10, 10)%Q = None /\
  find_cell nested_cells (15, 15)%Q = Some outer_zone /\
  inside (140, 120)%Q edge_zoneA.
Proof.
  split; [|split; [|split]].
  - apply (proj1 (zone_resolver_correct sample_cells (120, 120)%Q)
                 [zone1] zone2 [zone3; zone4]).
    + reflexivity.
    + unfold strictly_inside; simpl; repeat split; reflexivity.
    + intros c' [<- | [<- | [<- | [<- | []]]]] H;
        try reflexivity; exfalso;
        destruct H as (Hl & Hr & Ht & Hb);
        vm_compute in Hl, Hr, Ht, Hb; discriminate.
    + intros c' [<- | []] (_ & _ & _ & Hb).
      exfalso. apply Hb. vm_compute. reflexivity.
  - apply (proj1 (proj2 (zone_resolver_correct sample_cells (10, 10)%Q))).
    intros c [<- | [<- | [<- | [<- | []]]]] (Hl & _);
      apply Hl; vm_compute; reflexivity.
  - apply (proj1 (proj2 (proj2 (zone_resolver_correct nested_cells
                                                      (15, 15)%Q)))
                 [] outer_zone [inner_zone]).
    + reflexivity.
    + unfold inside; simpl; repeat split; vm_compute; discriminate.
    + intros c' [].
  - destruct (proj1 (proj2 (proj2 (proj2
                (zone_resolver_correct edge_cells (140, 120)%Q))))
                edge_zoneA) as (before & after & _ & H & _).
    + vm_compute. reflexivity.
    + exact H.
Defined.

(* ===================================================================== *)
(** ** Position updates *)
(* ===================================================================== *)

Ltac split_ifs :=
  repeat match goal with
         | |- context [if ?b then _ else _] => destruct b eqn:?
         | |- context [match ?x with Some _ => _ | None => _ end] =>
             destruct x eqn:?
         end.

Lemma bind_state_of (P : State -> Prop) (c : Completion State)
      (f : State -> Completion State) :
  P (state_of c) ->
  (forall s, P s -> P (state_of (f s))) ->
  P (state_of (c >>= f)).
Proof. destruct c; simpl; auto. Qed.

Lemma lastCellPos_differs_false s p :
  lastCellPos_differs s p = false <-> lastCellPos (probe s) = Some p.
Proof.
  unfold lastCellPos_differs. destruct (lastCellPos (probe s)) as [q|].
  - rewrite negb_false_iff, Nat.eqb_eq. split; congruence.
  - split; discriminate.
Qed.

Lemma lastCellPos_differs_true s p :
  lastCellPos_differs s p = true <-> lastCellPos (probe s) <> Some p.
Proof.
  rewrite <- lastCellPos_differs_false.
  destruct (lastCellPos_differs s p); split; congruence.
Qed.

(** *** What each block of [updateImagePreview] touches *)

Lemma clear_preview_quiz s : quiz (clear_preview s) = quiz s.
Proof. reflexivity. Qed.

Lemma clear_preview_probe s : probe (clear_preview s) = probe s.
Proof. reflexivity. Qed.

Lemma clear_preview_end s :
  endScreenHidden (controls (clear_preview s)) = endScreenHidden (controls s) /\
  finalScore (controls (clear_preview s)) = finalScore (controls s).
Proof. split; reflexivity. Qed.

Lemma clear_preview_panel s : imagePanel (display (clear_preview s)) = PanelEmpty.
Proof. reflexivity. Qed.

Lemma resetProbe_quiz s : quiz (resetProbe s) = quiz s.
Proof. reflexivity. Qed.

Lemma resetProbe_controls s : controls (resetProbe s) = controls s.
Proof. reflexivity. Qed.

Lemma resetProbe_probe s :
  probe (resetProbe s)
  = {| sweepDeg := 90; tailPosition := down;
       lastCellPos := lastCellPos (probe s);
       currentViewIndex := currentViewIndex (probe s) |}.
Proof. reflexivity. Qed.

Lemma set_imagePanel_others v s :
  quiz (set_imagePanel v s) = quiz s /\
  probe (set_imagePanel v s) = probe s /\
  controls (set_imagePanel v s) = controls s /\
  imagePanel (display (set_imagePanel v s)) = v.
Proof. repeat split; reflexivity. Qed.

Lemma enter_cell_quiz p s : quiz (enter_cell p s) = quiz s.
Proof. unfold enter_cell. destruct (lastCellPos_differs s p); reflexivity. Qed.

Lemma enter_cell_controls p s : controls (enter_cell p s) = controls s.
Proof. unfold enter_cell. destruct (lastCellPos_differs s p); reflexivity. Qed.

Lemma enter_cell_display p s : display (enter_cell p s) = display s.
Proof. unfold enter_cell. destruct (lastCellPos_differs s p); reflexivity. Qed.

Lemma enter_cell_remembered p s :
  lastCellPos (probe (enter_cell p s)) = Some p /\
  currentViewIndex (probe (enter_cell p s)) = index_on_entry s p.
Proof.
  unfold enter_cell, index_on_entry.
  destruct (lastCellPos_differs s p) eqn:Ed.
  - split; reflexivity.
  - apply lastCellPos_differs_false in Ed. split; [exact Ed | reflexivity].
Qed.

Lemma show_switch_view_quiz views s : quiz (show_switch_view views s) = quiz s.
Proof.
  unfold show_switch_view. destruct (switch_view_shown views s); reflexivity.
Qed.

Lemma show_switch_view_probe views s :
  probe (show_switch_view views s) = probe s.
Proof.
  unfold show_switch_view. destruct (switch_view_shown views s); reflexivity.
Qed.

Lemma show_switch_view_display views s :
  display (show_switch_view views s) = display s.
Proof.
  unfold show_switch_view. destruct (switch_view_shown views s); reflexivity.
Qed.

Lemma show_switch_view_end views s :
  endScreenHidden (controls (show_switch_view views s))
  = endScreenHidden (controls s) /\
  finalScore (controls (show_switch_view views s)) = finalScore (controls s).
Proof.
  unfold show_switch_view.
  destruct (switch_view_shown views s); split; reflexivity.
Qed.

Lemma apply_view_quiz p views v s : quiz (apply_view p views v s) = quiz s.
Proof.
  unfold apply_view.
  match goal with |- context [if ?b then _ else _] => destruct b end;
    reflexivity.
Qed.

Lemma apply_view_controls p views v s :
  controls (apply_view p views v s) = controls s.
Proof.
  unfold apply_view.
  match goal with |- context [if ?b then _ else _] => destruct b end;
    reflexivity.
Qed.

Lemma apply_view_probe p views v s :
  probe (apply_view p views v s)
  = {| sweepDeg := angle v; tailPosition := tail v;
       lastCellPos := lastCellPos (probe s);
       currentViewIndex := currentViewIndex (probe s) |}.
Proof.
  unfold apply_view.
  match goal with |- context [if ?b then _ else _] => destruct b end;
    reflexivity.
Qed.

Lemma apply_view_display p views v s :
  rotationDisplay (display (apply_view p views v s)) = degreesToClock (angle v) /\
  viewDisplay (display (apply_view p views v s)) = view v /\
  imagePanel (display (apply_view p views v s)) = imagePanel (display s).
Proof.
  unfold apply_view.
  match goal with |- context [if ?b then _ else _] => destruct b end;
    repeat split; reflexivity.
Qed.

Lemma inject_image_others p v s :
  quiz (inject_image p v s) = quiz s /\
  probe (inject_image p v s) = probe s /\
  controls (inject_image p v s) = controls s /\
  rotationDisplay (display (inject_image p v s)) = rotationDisplay (display s) /\
  viewDisplay (display (inject_image p v s)) = viewDisplay (display s).
Proof.
  unfold inject_image.
  destruct (imageSet_at (key_of (angle v) (tail v)) p); repeat split; reflexivity.
Qed.

Lemma inject_image_panel p v s src q cs :
  imagePanel (display (inject_image p v s)) = PanelImage src q cs -> q = p.
Proof.
  unfold inject_image.
  destruct (imageSet_at (key_of (angle v) (tail v)) p); simpl; intros H.
  - injection H as _ <- _. reflexivity.
  - discriminate H.
Qed.

(** *** The three ways through [updateImagePreview] *)

Lemma updateImagePreview_no_zone L s :
  resolve L = None ->
  updateImagePreview L s
  = Normal (set_imagePanel PanelDropPrompt (resetProbe (clear_preview s))).
Proof. intros H. unfold updateImagePreview. rewrite H. reflexivity. Qed.

Lemma updateImagePreview_no_views L s cell :
  resolve L = Some cell ->
  views_at (pos cell) = [] ->
  updateImagePreview L s
  = Normal (set_imagePanel PanelInvalidPosition (clear_preview s)).
Proof. intros H E. unfold updateImagePreview. rewrite H, E. reflexivity. Qed.

Lemma updateImagePreview_views L s cell :
  resolve L = Some cell ->
  views_at (pos cell) <> [] ->
  updateImagePreview L s
  = match view_at (views_at (pos cell))
                  (currentViewIndex
                     (probe (entered (views_at (pos cell)) (pos cell) s))) with
    | None => Throw (entered (views_at (pos cell)) (pos cell) s)
    | Some v =>
        Normal (shown (pos cell) (views_at (pos cell)) v
                  (entered (views_at (pos cell)) (pos cell) s))
    end.
Proof.
  intros H E. unfold updateImagePreview. rewrite H.
  destruct (views_at (pos cell)) as [|v0 vs]; [congruence | reflexivity].
Qed.

Lemma entered_quiz views p s : quiz (entered views p s) = quiz s.
Proof.
  unfold entered.
  rewrite show_switch_view_quiz, enter_cell_quiz. apply clear_preview_quiz.
Qed.

Lemma entered_remembered views p s :
  lastCellPos (probe (entered views p s)) = Some p /\
  currentViewIndex (probe (entered views p s)) = index_on_entry s p.
Proof.
  unfold entered. rewrite show_switch_view_probe.
  apply (enter_cell_remembered p (clear_preview s)).
Qed.

Lemma entered_end views p s :
  endScreenHidden (controls (entered views p s)) = endScreenHidden (controls s) /\
  finalScore (controls (entered views p s)) = finalScore (controls s).
Proof.
  unfold entered.
  destruct (show_switch_view_end views (enter_cell p (clear_preview s)))
    as [-> ->].
  rewrite enter_cell_controls. apply clear_preview_end.
Qed.

Lemma entered_panel views p s :
  imagePanel (display (entered views p s)) = PanelEmpty.
Proof.
  unfold entered. rewrite show_switch_view_display, enter_cell_display.
  apply clear_preview_panel.
Qed.

Lemma shown_quiz p views v s : quiz (shown p views v s) = quiz s.
Proof.
  unfold shown. rewrite (proj1 (inject_image_others _ _ _)).
  apply apply_view_quiz.
Qed.

Lemma shown_controls p views v s : controls (shown p views v s) = controls s.
Proof.
  unfold shown.
  destruct (inject_image_others p v (apply_view p views v s))
    as (_ & _ & -> & _).
  apply apply_view_controls.
Qed.

Lemma shown_probe p views v s :
  probe (shown p views v s)
  = {| sweepDeg := angle v; tailPosition := tail v;
       lastCellPos := lastCellPos (probe s);
       currentViewIndex := currentViewIndex (probe s) |}.
Proof.
  unfold shown.
  destruct (inject_image_others p v (apply_view p views v s))
    as (_ & -> & _).
  apply apply_view_probe.
Qed.

Lemma shown_display p views v s :
  rotationDisplay (display (shown p views v s)) = degreesToClock (angle v) /\
  viewDisplay (display (shown p views v s)) = view v.
Proof.
  unfold shown.
  destruct (inject_image_others p v (apply_view p views v s))
    as (_ & _ & _ & -> & ->).
  destruct (apply_view_display p views v s) as (-> & -> & _). auto.
Qed.

Lemma shown_panel p views v s src q cs :
  imagePanel (display (shown p views v s)) = PanelImage src q cs -> q = p.
Proof. unfold shown. apply inject_image_panel. Qed.

(** A position update does not touch the quiz variables. *)
Lemma updateImagePreview_quiz L s :
  quiz (state_of (updateImagePreview L s)) = quiz s.
Proof.
  destruct (resolve L) as [cell|] eqn:Hr.
  - destruct (views_at (pos cell)) as [|v0 vs] eqn:Ev.
    + rewrite (updateImagePreview_no_views L s cell Hr Ev). reflexivity.
    + rewrite (updateImagePreview_views L s cell Hr)
        by (rewrite Ev; discriminate).
      destruct (view_at _ _) as [v|]; simpl state_of.
      * rewrite shown_quiz. apply entered_quiz.
      * apply entered_quiz.
  - rewrite (updateImagePreview_no_zone L s Hr). reflexivity.
Qed.

(** Nor the end screen and the final score. *)
Lemma updateImagePreview_end L s :
  endScreenHidden (controls (state_of (updateImagePreview L s)))
  = endScreenHidden (controls s) /\
  finalScore (controls (state_of (updateImagePreview L s)))
  = finalScore (controls s).
Proof.
  destruct (resolve L) as [cell|] eqn:Hr.
  - destruct (views_at (pos cell)) as [|v0 vs] eqn:Ev.
    + rewrite (updateImagePreview_no_views L s cell Hr Ev).
      split; reflexivity.
    + rewrite (updateImagePreview_views L s cell Hr)
        by (rewrite Ev; discriminate).
      destruct (view_at _ _) as [v|]; simpl state_of.
      * rewrite shown_controls. apply entered_end.
      * apply entered_end.
  - rewrite (updateImagePreview_no_zone L s Hr). split; reflexivity.
Qed.

(** Over a zone that has views the update remembers the zone; the index is
    [0] if the zone is not the remembered one and is kept otherwise. *)
Lemma updateImagePreview_zone L s cell :
  resolve L = Some cell ->
  views_at (pos cell) <> [] ->
  lastCellPos (probe (state_of (updateImagePreview L s))) = Some (pos cell) /\
  currentViewIndex (probe (state_of (updateImagePreview L s)))
  = index_on_entry s (pos cell).
Proof.
  intros Hr Hv. rewrite (updateImagePreview_views L s cell Hr Hv).
  destruct (view_at _ _) as [v|]; simpl state_of.
  - rewrite shown_probe. cbn [lastCellPos currentViewIndex].
    apply entered_remembered.
  - apply entered_remembered.
Qed.

(** The update completes when the view it selects exists, and then shows
    that view. *)
Lemma updateImagePreview_shows L s cell v :
  resolve L = Some cell ->
  views_at (pos cell) <> [] ->
  view_at (views_at (pos cell)) (index_on_entry s (pos cell)) = Some v ->
  exists s', updateImagePreview L s = Normal s' /\
             sweepDeg (probe s') = angle v /\
             tailPosition (probe s') = tail v /\
             rotationDisplay (display s') = degreesToClock (angle v) /\
             viewDisplay (display s') = view v.
Proof.
  intros Hr Hv Hview. rewrite (updateImagePreview_views L s cell Hr Hv).
  rewrite (proj2 (entered_remembered _ _ _)), Hview.
  eexists. split; [reflexivity|].
  rewrite shown_probe. cbn [sweepDeg tailPosition].
  destruct (shown_display (pos cell) (views_at (pos cell)) v
              (entered (views_at (pos cell)) (pos cell) s)) as (-> & ->).
  auto.
Qed.

Lemma view_at_in_range views n :
  n < List.length views ->
  view_at views (Fin n) = nth_error views n /\
  exists v, nth_error views n = Some v.
Proof.
  intros Hn. unfold view_at, num_rem.
  destruct (List.length views) as [|k] eqn:El; [lia|].
  rewrite Nat.mod_small by lia. split; [reflexivity|].
  destruct (nth_error views n) as [v|] eqn:E; [eauto|].
  apply nth_error_None in E. lia.
Qed.

Lemma view_at_first v0 vs : view_at (v0 :: vs) (Fin 0) = Some v0.
Proof.
  unfold view_at, num_rem. cbn [List.length].
  rewrite Nat.Div0.mod_0_l. reflexivity.
Qed.

Lemma switch_view_shown_quiz views s t :
  quiz t = quiz s -> switch_view_shown views t = switch_view_shown views s.
Proof. unfold switch_view_shown. intros ->. reflexivity. Qed.

(** What the guard of the switch-view button leaves behind. *)
Lemma switch_view_visibility L s cell :
  resolve L = Some cell ->
  views_at (pos cell) <> [] ->
  toggleButtonHidden (controls (state_of (updateImagePreview L s)))
  = negb (switch_view_shown (views_at (pos cell)) s).
Proof.
  intros Hr Hv.
  assert (Hentered :
            toggleButtonHidden
              (controls (entered (views_at (pos cell)) (pos cell) s))
            = negb (switch_view_shown (views_at (pos cell)) s)).
  { unfold entered, show_switch_view.
    rewrite (switch_view_shown_quiz _ s _
               (eq_trans (enter_cell_quiz (pos cell) (clear_preview s))
                         (clear_preview_quiz s))).
    destruct (switch_view_shown (views_at (pos cell)) s).
    - reflexivity.
    - rewrite enter_cell_controls. reflexivity. }
  rewrite (updateImagePreview_views L s cell Hr Hv).
  destruct (view_at _ _) as [v|]; simpl state_of; [|exact Hentered].
  rewrite shown_controls. exact Hentered.
Qed.

Lemma position_update_same_zone L s cell :
  resolve L = Some cell ->
  views_at (pos cell) <> [] ->
  lastCellPos (probe s) = Some (pos cell) ->
  currentViewIndex (probe (state_of (updateImagePreview L s)))
  = currentViewIndex (probe s).
Proof.
  intros Hr Hv Hsame. apply lastCellPos_differs_false in Hsame.
  rewrite (proj2 (updateImagePreview_zone L s cell Hr Hv)).
  unfold index_on_entry. rewrite Hsame. reflexivity.
Qed.

(** C4.  Let a position update resolve to a zone that has views.  If the
    zone differs from the zone the state remembers as the last one
    entered ([lastCellPos], which is [null] before the first entry), the
    update completes with that zone remembered, variant index [0] and the
    orientation of the zone's first variant.  If the zone is the
    remembered one, the variant index is unchanged. *)
Theorem position_update_variant_index
        (L : Layout) (s : State) (cell : Cell) (v0 : View) (vs : list View) :
  resolve L = Some cell ->
  views_at (pos cell) = v0 :: vs ->
  (lastCellPos (probe s) <> Some (pos cell) ->
   exists s', updateImagePreview L s = Normal s' /\
              lastCellPos (probe s') = Some (pos cell) /\
              currentViewIndex (probe s') = Fin 0 /\
              sweepDeg (probe s') = angle v0 /\
              tailPosition (probe s') = tail v0 /\
              viewDisplay (display s') = view v0) /\
  (lastCellPos (probe s) = Some (pos cell) ->
   lastCellPos (probe (state_of (updateImagePreview L s))) = Some (pos cell) /\
   currentViewIndex (probe (state_of (updateImagePreview L s)))
   = currentViewIndex (probe s)).
Proof.
  intros Hr Ev.
  assert (Hv : views_at (pos cell) <> []) by (rewrite Ev; discriminate).
  destruct (updateImagePreview_zone L s cell Hr Hv) as [Hl Hi].
  split.
  - intros Hd. apply lastCellPos_differs_true in Hd.
    assert (Hidx : index_on_entry s (pos cell) = Fin 0)
      by (unfold index_on_entry; rewrite Hd; reflexivity).
    destruct (updateImagePreview_shows L s cell v0 Hr Hv) as (s' & E & Hs).
    { rewrite Hidx, Ev. apply view_at_first. }
    exists s'. rewrite E in Hl, Hi. simpl state_of in Hl, Hi.
    rewrite Hidx in Hi. intuition.
  - intros Hsame. split; [exact Hl|].
    apply (position_update_same_zone L s cell); assumption.
Qed.

Lemma position_update_variant_index_witness :
  (exists s', updateImagePreview over_zone2 page_load = Normal s' /\
              lastCellPos (probe s') = Some 2 /\
              currentViewIndex (probe s') = Fin 0 /\
              sweepDeg (probe s') = 30%Z /\
              tailPosition (probe s') = up /\
              viewDisplay (display s') = "Parasternal Short-axis MV") /\
  currentViewIndex (probe (state_of (updateImagePreview over_zone2 cycled_once)))
  = Fin 1.
Proof.
  split.
  - apply (proj1 (position_update_variant_index
                    over_zone2 page_load zone2 _ _
                    ltac:(vm_compute; reflexivity) eq_refl)).
    simpl. discriminate.
  - etransitivity.
    + apply (proj2 (position_update_variant_index
                      over_zone2 cycled_once zone2 _ _
                      ltac:(vm_compute; reflexivity) eq_refl)).
      vm_compute. reflexivity.
    + vm_compute. reflexivity.
Defined.

(** C9.  A position update that resolves to no zone completes; it sets the
    orientation to its default ([sweepDeg] 90, [tailPosition] down, the
    three orientation displays to their default text), replaces the panel
    by the prompt and hides the controls, and leaves [lastCellPos],
    [currentViewIndex] and the quiz variables as they were.  Hence an
    update off all zones followed by an update over the remembered zone
    leaves the variant index as it was before the two: the index is not
    reset to [0]. *)
Theorem no_zone_update_keeps_variant
        (L_off L_on : Layout) (s : State) (cell : Cell) :
  resolve L_off = None ->
  exists s1,
    updateImagePreview L_off s = Normal s1 /\
    s1 = set_imagePanel PanelDropPrompt (resetProbe (clear_preview s)) /\
    sweepDeg (probe s1) = 90%Z /\
    tailPosition (probe s1) = down /\
    rotationDisplay (display s1) = "3 o'clock" /\
    tailDisplay (display s1) = "Tail Down" /\
    viewDisplay (display s1) = "-" /\
    lastCellPos (probe s1) = lastCellPos (probe s) /\
    currentViewIndex (probe s1) = currentViewIndex (probe s) /\
    quiz s1 = quiz s /\
    (resolve L_on = Some cell ->
     lastCellPos (probe s) = Some (pos cell) ->
     currentViewIndex (probe (state_of (updateImagePreview L_on s1)))
     = currentViewIndex (probe s)).
Proof.
  intros Hoff. eexists. split; [apply updateImagePreview_no_zone, Hoff|].
  repeat (split; [reflexivity|]).
  intros Hon Hsame.
  set (s1 := set_imagePanel PanelDropPrompt (resetProbe (clear_preview s))).
  destruct (views_at (pos cell)) as [|v0 vs] eqn:Ev.
  - rewrite (updateImagePreview_no_views L_on s1 cell Hon Ev). reflexivity.
  - apply (position_update_same_zone L_on s1 cell); try assumption.
    rewrite Ev; discriminate.
Qed.

Lemma no_zone_update_keeps_variant_witness :
  exists s1,
    updateImagePreview off_zones cycled_once = Normal s1 /\
    lastCellPos (probe s1) = Some 2 /\
    currentViewIndex (probe (state_of (updateImagePreview over_zone2 s1)))
    = Fin 1.
Proof.
  destruct (no_zone_update_keeps_variant
              off_zones over_zone2 cycled_once zone2
              ltac:(vm_compute; reflexivity))
    as (s1 & E & _ & _ & _ & _ & _ & _ & Hl & _ & _ & H).
  exists s1. split; [exact E|]. split.
  - rewrite Hl. vm_compute. reflexivity.
  - rewrite H.
    + vm_compute. reflexivity.
    + vm_compute. reflexivity.
    + vm_compute. reflexivity.
Defined.

(* ===================================================================== *)
(** ** The switch-view button *)
(* ===================================================================== *)

(** C7 (the code departs from the claim).  In sandbox mode a position
    update over a zone that has exactly one view leaves the switch-view
    button visible. *)
Theorem switch_view_visible_in_sandbox
        (L : Layout) (s : State) (cell : Cell) (v : View) :
  resolve L = Some cell ->
  views_at (pos cell) = [v] ->
  isSandBoxActive (quiz s) = true ->
  toggleButtonHidden (controls (state_of (updateImagePreview L s))) = false.
Proof.
  intros Hr Ev Hsb.
  rewrite (switch_view_visibility L s cell Hr) by (rewrite Ev; discriminate).
  unfold switch_view_shown. rewrite Hsb, orb_true_r. reflexivity.
Qed.

Lemma switch_view_visible_in_sandbox_witness :
  List.length (views_at (pos zone1)) = 1 /\
  toggleButtonHidden
    (controls (state_of (updateImagePreview over_zone1 sandbox_entered)))
  = false.
Proof.
  split; [reflexivity|].
  apply (switch_view_visible_in_sandbox
           over_zone1 sandbox_entered zone1
           {| angle := 0; tail := up; view := "Suprasternal Notch" |}).
  - vm_compute. reflexivity.
  - reflexivity.
  - vm_compute. reflexivity.
Defined.

(** The button then reads [Switch View (1/1)]. *)
Example switch_view_label_in_sandbox :
  toggleButtonText
    (controls (run [SandBoxButton off_zones; MouseMove over_zone1] page_load))
  = "Switch View (1/1)".
Proof. vm_compute. reflexivity. Qed.

Lemma succ_rem_lt n len :
  len <> 0 -> succ_rem (Fin n) len = Fin ((n + 1) mod len).
Proof. destruct len; [congruence | reflexivity]. Qed.

(** One click on the switch-view button while the probe stays over the
    remembered zone. *)
Lemma toggleButton_click_step L s cell n :
  resolve L = Some cell ->
  lastCellPos (probe s) = Some (pos cell) ->
  currentViewIndex (probe s) = Fin n ->
  views_at (pos cell) <> [] ->
  let len := List.length (views_at (pos cell)) in
  exists s' v,
    toggleButton_click L s = Normal s' /\
    lastCellPos (probe s') = Some (pos cell) /\
    currentViewIndex (probe s') = Fin ((n + 1) mod len) /\
    nth_error (views_at (pos cell)) ((n + 1) mod len) = Some v /\
    sweepDeg (probe s') = angle v /\
    tailPosition (probe s') = tail v /\
    viewDisplay (display s') = view v.
Proof.
  intros Hr Hl Hi Hv len.
  assert (Hlen : len <> 0).
  { unfold len. destruct (views_at (pos cell)); simpl; congruence. }
  unfold toggleButton_click. rewrite Hl, Hi. simpl views_of. fold len.
  rewrite (succ_rem_lt n len Hlen).
  set (s1 := set_currentViewIndex (Fin ((n + 1) mod len)) s).
  assert (Hl1 : lastCellPos (probe s1) = Some (pos cell)) by exact Hl.
  assert (Hidx : index_on_entry s1 (pos cell) = Fin ((n + 1) mod len)).
  { unfold index_on_entry.
    rewrite (proj2 (lastCellPos_differs_false s1 (pos cell)) Hl1).
    reflexivity. }
  destruct (view_at_in_range (views_at (pos cell)) ((n + 1) mod len))
    as (Eview & v & Ev).
  { apply Nat.mod_upper_bound. exact Hlen. }
  destruct (updateImagePreview_shows L s1 cell v Hr Hv)
    as (s' & E & Hsw & Htl & _ & Hvd).
  { rewrite Hidx, Eview. exact Ev. }
  destruct (updateImagePreview_zone L s1 cell Hr Hv) as [Hl' Hi'].
  rewrite E in Hl', Hi'. simpl in Hl', Hi'. rewrite Hidx in Hi'.
  exists s', v. intuition.
Qed.

Lemma cycle_times_index L s cell n k :
  resolve L = Some cell ->
  lastCellPos (probe s) = Some (pos cell) ->
  currentViewIndex (probe s) = Fin n ->
  n < List.length (views_at (pos cell)) ->
  lastCellPos (probe (cycle_times L k s)) = Some (pos cell) /\
  currentViewIndex (probe (cycle_times L k s))
  = Fin ((n + k) mod List.length (views_at (pos cell))).
Proof.
  intros Hr Hl Hi Hn.
  assert (Hv : views_at (pos cell) <> []).
  { destruct (views_at (pos cell)); [simpl in Hn; lia | discriminate]. }
  induction k as [|k [IHl IHi]].
  - simpl. rewrite Nat.add_0_r, Nat.mod_small by exact Hn. auto.
  - unfold cycle_times in *. simpl Nat.iter.
    destruct (toggleButton_click_step L _ cell _ Hr IHl IHi Hv)
      as (s' & v & E & Hl' & Hi' & _).
    rewrite E. simpl state_of. split; [exact Hl'|].
    rewrite Hi'. f_equal.
    rewrite Nat.Div0.add_mod_idemp_l. f_equal. lia.
Qed.

(** C5.  While the probe stays over the remembered zone, a click on the
    switch-view button completes and maps the variant index [n] to
    [(n + 1) mod count], where [count] is the number of variants of the
    zone, and shows that variant.  Hence, from a valid index, [count]
    clicks return to the index they started from, and with a single
    variant one click leaves the index unchanged. *)
Theorem cycle_closed_loop (L : Layout) (s : State) (cell : Cell) (n : nat) :
  resolve L = Some cell ->
  lastCellPos (probe s) = Some (pos cell) ->
  currentViewIndex (probe s) = Fin n ->
  views_at (pos cell) <> [] ->
  let count := List.length (views_at (pos cell)) in
  (exists s' v,
      toggleButton_click L s = Normal s' /\
      lastCellPos (probe s') = Some (pos cell) /\
      currentViewIndex (probe s') = Fin ((n + 1) mod count) /\
      nth_error (views_at (pos cell)) ((n + 1) mod count) = Some v /\
      sweepDeg (probe s') = angle v /\
      tailPosition (probe s') = tail v /\
      viewDisplay (display s') = view v) /\
  (n < count ->
   lastCellPos (probe (cycle_times L count s)) = Some (pos cell) /\
   currentViewIndex (probe (cycle_times L count s)) = Fin n) /\
  (n < count -> count = 1 ->
   currentViewIndex (probe (state_of (toggleButton_click L s))) = Fin n).
Proof.
  intros Hr Hl Hi Hv count. split; [|split].
  - apply toggleButton_click_step; assumption.
  - intros Hn.
    destruct (cycle_times_index L s cell n count Hr Hl Hi Hn) as [Hl' Hi'].
    split; [exact Hl'|]. rewrite Hi'. f_equal. fold count.
    replace (n + count) with (n + 1 * count) by lia.
    rewrite Nat.Div0.mod_add. apply Nat.mod_small. exact Hn.
  - intros Hn Hone.
    destruct (toggleButton_click_step L s cell n Hr Hl Hi Hv)
      as (s' & v & E & _ & Hi' & _).
    rewrite E. simpl state_of. rewrite Hi'. fold count. rewrite Hone.
    f_equal. rewrite Nat.mod_1_r. lia.
Qed.

Lemma cycle_closed_loop_witness :
  (lastCellPos (probe (cycle_times over_zone2 3 cycled_once)) = Some 2 /\
   currentViewIndex (probe (cycle_times over_zone2 3 cycled_once)) = Fin 1) /\
  currentViewIndex (probe (state_of (toggleButton_click over_zone3 on_zone3)))
  = Fin 0.
Proof.
  split.
  - apply (proj1 (proj2 (cycle_closed_loop
             over_zone2 cycled_once zone2 1
             ltac:(vm_compute; reflexivity)
             ltac:(vm_compute; reflexivity)
             ltac:(vm_compute; reflexivity)
             ltac:(simpl; discriminate)))).
    simpl. lia.
  - apply (proj2 (proj2 (cycle_closed_loop
             over_zone3 on_zone3 zone3 0
             ltac:(vm_compute; reflexivity)
             ltac:(vm_compute; reflexivity)
             ltac:(vm_compute; reflexivity)
             ltac:(simpl; discriminate)))).
    + simpl. lia.
    + reflexivity.
Defined.

(* ===================================================================== *)
(** ** The view index stays within the views of the remembered zone *)
(* ===================================================================== *)

Lemma views_at_nonempty_length p :
  views_at p <> [] -> 0 < List.length (views_at p).
Proof. destruct (views_at p); [congruence | simpl; lia]. Qed.

(** From a state whose index is valid a position update never throws. *)
Lemma updateImagePreview_completes L s :
  view_index_ok s -> is_normal (updateImagePreview L s) = true.
Proof.
  intros Hok.
  destruct (resolve L) as [cell|] eqn:Hr.
  - destruct (views_at (pos cell)) as [|v0 vs] eqn:Ev.
    + rewrite (updateImagePreview_no_views L s cell Hr Ev). reflexivity.
    + assert (Hv : views_at (pos cell) <> []) by (rewrite Ev; discriminate).
      assert (exists v, view_at (views_at (pos cell))
                                (index_on_entry s (pos cell)) = Some v)
        as [v Hview].
      { unfold index_on_entry.
        destruct (lastCellPos_differs s (pos cell)) eqn:Ed.
        - rewrite Ev. exists v0. apply view_at_first.
        - apply lastCellPos_differs_false in Ed.
          destruct (Hok _ Ed) as (n & Hn & Hlt). simpl in Hn. rewrite Hn.
          destruct (view_at_in_range _ n Hlt) as (-> & v & Hnth). eauto. }
      destruct (updateImagePreview_shows L s cell v Hr Hv Hview)
        as (s' & -> & _).
      reflexivity.
  - rewrite (updateImagePreview_no_zone L s Hr). reflexivity.
Qed.

Lemma loadQuestion_completes L s :
  view_index_ok s -> is_normal (loadQuestion L s) = true.
Proof.
  unfold loadQuestion.
  destruct (nth_error quizData _); [apply updateImagePreview_completes | auto].
Qed.

Lemma run_inv (P : State -> Prop) :
  (forall e s, P s -> P (state_of (handle e s))) ->
  forall es s, P s -> P (run es s).
Proof.
  intros Hstep es. unfold run.
  induction es as [|e es IH]; intros s Hs; simpl; auto.
Qed.

(** A property of the remembered position and index is preserved by every
    listener as soon as it holds on entry into a zone that has views, is
    kept by the step of the switch-view button, and holds after the
    assignments of the restart button. *)
Section RememberedInvariant.

Variable P : option nat * num -> Prop.

Hypothesis P_enter : forall p, views_at p <> [] -> P (Some p, Fin 0).
Hypothesis P_cycle :
  forall l i, P (l, i) -> P (l, succ_rem i (List.length (views_of l))).
Hypothesis P_restart : P (None, Fin 0).

Lemma updateImagePreview_remembered L s :
  P (remembered s) -> P (remembered (state_of (updateImagePreview L s))).
Proof.
  intros H.
  destruct (resolve L) as [cell|] eqn:Hr.
  - destruct (views_at (pos cell)) as [|v0 vs] eqn:Ev.
    + rewrite (updateImagePreview_no_views L s cell Hr Ev). exact H.
    + assert (Hv : views_at (pos cell) <> []) by (rewrite Ev; discriminate).
      destruct (updateImagePreview_zone L s cell Hr Hv) as [Hl Hi].
      unfold remembered. rewrite Hl, Hi. unfold index_on_entry.
      destruct (lastCellPos_differs s (pos cell)) eqn:Ed.
      * apply P_enter, Hv.
      * apply lastCellPos_differs_false in Ed.
        unfold remembered in H. rewrite Ed in H. exact H.
  - rewrite (updateImagePreview_no_zone L s Hr). exact H.
Qed.

Lemma loadQuestion_remembered L s :
  P (remembered s) -> P (remembered (state_of (loadQuestion L s))).
Proof.
  unfold loadQuestion.
  destruct (nth_error quizData _);
    [apply updateImagePreview_remembered | auto].
Qed.

Lemma initUI_remembered L s :
  P (remembered s) -> P (remembered (state_of (initUI L s))).
Proof.
  intros H. unfold initUI.
  apply bind_state_of with (P := fun s => P (remembered s)).
  - apply loadQuestion_remembered, H.
  - intros t Ht. exact Ht.
Qed.

Lemma enter_mode_remembered L s :
  P (remembered s) ->
  P (remembered
       (state_of (initUI L s >>= updateImagePreview L >>= loadQuestion L))).
Proof.
  intros H.
  apply bind_state_of with (P := fun s => P (remembered s));
    [apply bind_state_of with (P := fun s => P (remembered s))|].
  - apply initUI_remembered, H.
  - intros t. apply updateImagePreview_remembered.
  - intros t. apply loadQuestion_remembered.
Qed.

Lemma circle_click_remembered p c s :
  remembered (state_of (circle_click p c s)) = remembered s.
Proof.
  unfold circle_click.
  destruct (isSandBoxActive (quiz s)); [reflexivity|].
  destruct (nth_error quizData _); [|reflexivity].
  split_ifs; reflexivity.
Qed.

Lemma handle_remembered e s :
  P (remembered s) -> P (remembered (state_of (handle e s))).
Proof.
  intros H. destruct e as [L|L|L| |L|L|L|p c| |L]; simpl handle.
  - apply loadQuestion_remembered. exact H.
  - apply enter_mode_remembered. exact H.
  - apply enter_mode_remembered. exact H.
  - exact H.
  - apply loadQuestion_remembered. exact P_restart.
  - apply updateImagePreview_remembered, H.
  - apply updateImagePreview_remembered.
    apply (P_cycle _ _ H).
  - rewrite circle_click_remembered. exact H.
  - unfold showAnswerButton_click.
    destruct (nth_error quizData _); exact H.
  - unfold nextQuestionButton_click. cbv zeta.
    destruct (nth_error quizData _);
      [apply loadQuestion_remembered|]; exact H.
Qed.

Lemma run_remembered es s :
  P (remembered s) -> P (remembered (run es s)).
Proof.
  revert s. unfold run.
  induction es as [|e es IH]; intros s Hs; simpl; [exact Hs|].
  apply IH, handle_remembered, Hs.
Qed.

End RememberedInvariant.

Lemma index_ok_enter p : views_at p <> [] -> index_ok (Some p, Fin 0).
Proof.
  intros Hv q Hq. simpl in Hq. injection Hq as <-.
  exists 0. split; [reflexivity | apply views_at_nonempty_length, Hv].
Qed.

Lemma index_ok_cycle l i :
  index_ok (l, i) -> index_ok (l, succ_rem i (List.length (views_of l))).
Proof.
  intros H p Hp. cbn [fst] in Hp. subst l.
  destruct (H p eq_refl) as (n & Hn & Hlt). cbn [snd] in Hn. subst i.
  cbn [snd views_of].
  exists ((n + 1) mod List.length (views_at p)).
  split.
  - apply succ_rem_lt. lia.
  - apply Nat.mod_upper_bound. lia.
Qed.

Lemma index_ok_restart : index_ok (None, Fin 0).
Proof. intros p Hp. discriminate Hp. Qed.

Lemma index_unset_enter p : views_at p <> [] -> index_unset (Some p, Fin 0).
Proof. intros _ H. discriminate H. Qed.

Lemma index_unset_cycle l i :
  index_unset (l, i) ->
  index_unset (l, succ_rem i (List.length (views_of l))).
Proof.
  intros _ Hl. simpl in Hl. subst l. simpl. right.
  destruct i; reflexivity.
Qed.

Lemma index_unset_restart : index_unset (None, Fin 0).
Proof. intros _. left. reflexivity. Qed.

(** Only position 2 has a view at index 2. *)
Lemma three_views_only_at_2 p : 2 < List.length (views_at p) -> p = 2.
Proof.
  do 5 (destruct p as [|p]; [simpl; lia || reflexivity|]).
  simpl. lia.
Qed.

(** C10.  (1) Every listener, and so the position update, the click on the
    switch-view button and the click on the restart button, takes a state
    in which the view index is a valid index into the views of the
    remembered zone to such a state; no assumption on when the switch-view
    button is clicked is needed, because a remembered zone always has
    views.  (2) From such a state these three listeners run to completion.
    (3) The property holds in every state reached from the loading of the
    page.  (4) In such a state the view selected with the remainder of the
    index by the number of views is the view at the index itself, and it
    exists.  (5) In every state reached from the loading of the page, a
    view index equal to 2 implies that the remembered zone is position 2,
    the only position with three views. *)
Theorem view_index_invariant :
  (forall e s, view_index_ok s -> view_index_ok (state_of (handle e s))) /\
  (forall L s, view_index_ok s ->
               is_normal (mousemove L s) = true /\
               is_normal (toggleButton_click L s) = true /\
               is_normal (restartButton_click L s) = true) /\
  (forall d c es, view_index_ok (run es (initial d c))) /\
  (forall s p n, view_index_ok s ->
                 lastCellPos (probe s) = Some p ->
                 currentViewIndex (probe s) = Fin n ->
                 n < List.length (views_at p) /\
                 view_at (views_at p) (currentViewIndex (probe s))
                 = nth_error (views_at p) n /\
                 exists v, nth_error (views_at p) n = Some v) /\
  (forall d c es,
      num_eqb (currentViewIndex (probe (run es (initial d c)))) 2 = true ->
      lastCellPos (probe (run es (initial d c))) = Some 2 /\
      List.length (views_at 2) = 3 /\
      forall p, 2 < List.length (views_at p) -> p = 2).
Proof.
  split; [|split; [|split; [|split]]].
  - intros e s. apply (handle_remembered index_ok);
      [exact index_ok_enter | exact index_ok_cycle | exact index_ok_restart].
  - intros L s Hok. split; [|split].
    + apply updateImagePreview_completes, Hok.
    + apply updateImagePreview_completes.
      apply (index_ok_cycle _ _ Hok).
    + apply loadQuestion_completes. exact index_ok_restart.
  - intros d c es. apply (run_remembered index_ok);
      [exact index_ok_enter | exact index_ok_cycle | exact index_ok_restart |].
    exact index_ok_restart.
  - intros s p n Hok Hl Hi.
    destruct (Hok p Hl) as (m & Hm & Hlt). simpl in Hm.
    assert (m = n) by congruence. subst m.
    split; [exact Hlt|]. rewrite Hi. apply view_at_in_range, Hlt.
  - intros d c es H2.
    set (s := run es (initial d c)) in *.
    assert (Hok : view_index_ok s).
    { apply (run_remembered index_ok);
        [exact index_ok_enter | exact index_ok_cycle | exact index_ok_restart |].
      exact index_ok_restart. }
    assert (Hunset : view_index_unset s).
    { apply (run_remembered index_unset);
        [exact index_unset_enter | exact index_unset_cycle
         | exact index_unset_restart |].
      exact index_unset_restart. }
    split; [|split; [reflexivity | exact three_views_only_at_2]].
    destruct (lastCellPos (probe s)) as [p|] eqn:El.
    + destruct (Hok p El) as (n & Hn & Hlt). simpl in Hn.
      rewrite Hn in H2. simpl in H2. apply Nat.eqb_eq in H2. subst n.
      f_equal. apply three_views_only_at_2, Hlt.
    + destruct (Hunset El) as [E|E]; simpl in E; rewrite E in H2;
        discriminate H2.
Qed.

Lemma view_index_invariant_witness :
  view_index_ok (run [MouseMove over_zone2; ToggleButton over_zone2] page_load) /\
  view_index_ok
    (state_of (handle (ToggleButton over_zone2)
                 (run [MouseMove over_zone2; ToggleButton over_zone2]
                      page_load))) /\
  lastCellPos
    (probe (run [MouseMove over_zone2; ToggleButton over_zone2;
                 ToggleButton over_zone2; MouseMove off_zones] page_load))
  = Some 2.
Proof.
  pose proof view_index_invariant as (Hstep & _ & Hreach & _ & Hneutral).
  split; [|split].
  - apply (Hreach _ _ [MouseMove over_zone2; ToggleButton over_zone2]).
  - apply Hstep.
    apply (Hreach _ _ [MouseMove over_zone2; ToggleButton over_zone2]).
  - apply (Hneutral _ _ [MouseMove over_zone2; ToggleButton over_zone2;
                         ToggleButton over_zone2; MouseMove off_zones]).
    vm_compute. reflexivity.
Defined.

(* ===================================================================== *)
(** ** The circles of the panel belong to the remembered zone *)
(* ===================================================================== *)

Lemma panel_of_remembered_ext s t :
  lastCellPos (probe t) = lastCellPos (probe s) ->
  imagePanel (display t) = imagePanel (display s) ->
  panel_of_remembered s -> panel_of_remembered t.
Proof. unfold panel_of_remembered. intros -> ->. auto. Qed.

(** A position update establishes the property whatever the state. *)
Lemma updateImagePreview_panel L s :
  panel_of_remembered (state_of (updateImagePreview L s)).
Proof.
  intros src p cs.
  destruct (resolve L) as [cell|] eqn:Hr.
  - destruct (views_at (pos cell)) as [|v0 vs] eqn:Ev.
    + rewrite (updateImagePreview_no_views L s cell Hr Ev). simpl. discriminate.
    + assert (Hv : views_at (pos cell) <> []) by (rewrite Ev; discriminate).
      destruct (updateImagePreview_zone L s cell Hr Hv) as [Hl _].
      rewrite Hl. clear Hl.
      rewrite (updateImagePreview_views L s cell Hr Hv).
      destruct (view_at _ _) as [v|]; simpl state_of.
      * intros H. apply shown_panel in H. congruence.
      * rewrite entered_panel. discriminate.
  - rewrite (updateImagePreview_no_zone L s Hr). simpl. discriminate.
Qed.

Lemma loadQuestion_panel L s :
  panel_of_remembered s -> panel_of_remembered (state_of (loadQuestion L s)).
Proof.
  unfold loadQuestion.
  destruct (nth_error quizData _);
    [intros _; apply updateImagePreview_panel | auto].
Qed.

Lemma enter_mode_panel L s :
  panel_of_remembered s ->
  panel_of_remembered
    (state_of (initUI L s >>= updateImagePreview L >>= loadQuestion L)).
Proof.
  intros H.
  apply bind_state_of with (P := panel_of_remembered);
    [apply bind_state_of with (P := panel_of_remembered)|].
  - unfold initUI. apply bind_state_of with (P := panel_of_remembered).
    + apply loadQuestion_panel, H.
    + intros t Ht. exact Ht.
  - intros t _. apply updateImagePreview_panel.
  - intros t. apply loadQuestion_panel.
Qed.

Lemma handle_panel e s :
  panel_of_remembered s -> panel_of_remembered (state_of (handle e s)).
Proof.
  intros H. destruct e as [L|L|L| |L|L|L|p c| |L]; simpl handle.
  - apply loadQuestion_panel. exact H.
  - apply enter_mode_panel. exact H.
  - apply enter_mode_panel. exact H.
  - exact H.
  - unfold restartButton_click, loadQuestion. simpl nth_error.
    apply updateImagePreview_panel.
  - apply updateImagePreview_panel.
  - apply updateImagePreview_panel.
  - pose proof (circle_click_remembered p c s) as Hr.
    injection Hr as Hl _.
    revert H. apply panel_of_remembered_ext; [exact Hl|].
    unfold circle_click.
    destruct (isSandBoxActive (quiz s)); [reflexivity|].
    destruct (nth_error quizData _); [|reflexivity].
    split_ifs; reflexivity.
  - unfold showAnswerButton_click.
    destruct (nth_error quizData _); exact H.
  - unfold nextQuestionButton_click. cbv zeta.
    destruct (nth_error quizData _);
      [apply loadQuestion_panel|]; exact H.
Qed.

(** In every state reached from the loading of a page whose panel shows no
    image, the circles in the panel were created for the remembered
    zone: the position a circle's listener closed over is the zone the
    probe was last seen over. *)
Lemma reachable_panel d c es :
  (forall src p cs, imagePanel d <> PanelImage src p cs) ->
  panel_of_remembered (run es (initial d c)).
Proof.
  intros Hd. apply run_inv; [exact handle_panel|].
  intros src p cs H. exfalso. apply (Hd src p cs). exact H.
Qed.

(* ===================================================================== *)
(** ** Quiz progression *)
(* ===================================================================== *)

Lemma updateImagePreview_progress L s :
  progress (state_of (updateImagePreview L s)) = progress s.
Proof.
  unfold progress.
  rewrite (updateImagePreview_quiz L s).
  destruct (updateImagePreview_end L s) as [-> ->]. reflexivity.
Qed.

Lemma loadQuestion_progress L s :
  progress (state_of (loadQuestion L s)) = progress s.
Proof.
  unfold loadQuestion.
  destruct (nth_error quizData _);
    [apply updateImagePreview_progress | reflexivity].
Qed.

Lemma continueButton_click_progress L s :
  progress (state_of (continueButton_click L s)) = progress s.
Proof.
  unfold continueButton_click, initUI. cbv zeta.
  apply bind_state_of with (P := fun t => progress t = progress s);
    [apply bind_state_of with (P := fun t => progress t = progress s);
     [apply bind_state_of with (P := fun t => progress t = progress s)|]|].
  - rewrite loadQuestion_progress. reflexivity.
  - intros t Ht. exact Ht.
  - intros t Ht. rewrite updateImagePreview_progress. exact Ht.
  - intros t Ht. rewrite loadQuestion_progress. exact Ht.
Qed.

(** What a click on a circle does to the progression, in quiz mode, while a
    question is displayed: it scores if the click matches and no feedback
    is active, and feedback is active afterwards. *)
Lemma circle_click_progress p c s q :
  isSandBoxActive (quiz s) = false ->
  nth_error quizData (currentQuestionIndex (quiz s)) = Some q ->
  exists s',
    circle_click p c s = Normal s' /\
    progress s'
    = {| p_index := currentQuestionIndex (quiz s);
         p_score := score (quiz s) +
                    (if click_matches q p c && negb (isFeedbackActive (quiz s))
                     then 1 else 0);
         p_feedback := true;
         p_sandbox := false;
         p_endHidden := endScreenHidden (controls s);
         p_final := finalScore (controls s) |}.
Proof.
  intros Hsb Hq. unfold circle_click, click_matches. rewrite Hsb, Hq.
  eexists. split; [reflexivity|].
  destruct (isFeedbackActive (quiz s));
    destruct (Nat.eqb p (correctPosition q));
    destruct (String.eqb (answer c) (correctAnswer q));
    unfold progress; simpl; rewrite ?Hsb, ?Nat.add_0_r; reflexivity.
Qed.

(** Without a displayed question the listener throws before it assigns. *)
Lemma circle_click_no_question p c s :
  isSandBoxActive (quiz s) = false ->
  nth_error quizData (currentQuestionIndex (quiz s)) = None ->
  circle_click p c s = Throw s.
Proof. intros Hsb Hq. unfold circle_click. rewrite Hsb, Hq. reflexivity. Qed.

(** The events of a question other than a click on a circle leave the
    progression alone. *)
Lemma within_question_progress e s :
  within_question e = true ->
  (forall p c, e <> CircleClick p c) ->
  progress (state_of (handle e s)) = progress s.
Proof.
  intros Hw Hnc.
  destruct e as [L|L|L| |L|L|L|p c| |L]; try discriminate Hw; simpl handle.
  - apply continueButton_click_progress.
  - apply updateImagePreview_progress.
  - unfold toggleButton_click. rewrite updateImagePreview_progress.
    reflexivity.
  - exfalso. apply (Hnc p c). reflexivity.
  - unfold showAnswerButton_click.
    destruct (nth_error quizData _); reflexivity.
Qed.

Lemma progress_fields s t :
  progress t = progress s ->
  currentQuestionIndex (quiz t) = currentQuestionIndex (quiz s) /\
  score (quiz t) = score (quiz s) /\
  isFeedbackActive (quiz t) = isFeedbackActive (quiz s) /\
  isSandBoxActive (quiz t) = isSandBoxActive (quiz s) /\
  endScreenHidden (controls t) = endScreenHidden (controls s) /\
  finalScore (controls t) = finalScore (controls s).
Proof. unfold progress. intros H. injection H. auto 10. Qed.

(** While feedback is active, or while no question is displayed, nothing
    that happens within a question changes the progression. *)
Lemma run_no_scoring es s :
  forallb within_question es = true ->
  isSandBoxActive (quiz s) = false ->
  isFeedbackActive (quiz s) = true \/
  nth_error quizData (currentQuestionIndex (quiz s)) = None ->
  progress (run es s) = progress s.
Proof.
  revert s. unfold run.
  induction es as [|e es IH]; intros s Hw Hsb Hcase; [reflexivity|].
  simpl in Hw. apply andb_prop in Hw as [He Hes]. simpl fold_left.
  assert (Hstep : progress (state_of (handle e s)) = progress s).
  { destruct e as [L|L|L| |L|L|L|p c| |L];
      try (apply within_question_progress;
           [exact He | intros ? ?; discriminate]).
    simpl handle.
    destruct (nth_error quizData (currentQuestionIndex (quiz s)))
      as [q|] eqn:Hq.
    - destruct Hcase as [Hfb|]; [|discriminate].
      destruct (circle_click_progress p c s q Hsb Hq) as (s' & -> & Hs').
      simpl state_of. rewrite Hs'.
      rewrite Hfb, andb_false_r, Nat.add_0_r.
      unfold progress. rewrite Hfb, Hsb. reflexivity.
    - rewrite (circle_click_no_question p c s Hsb Hq). reflexivity. }
  rewrite IH; [exact Hstep | exact Hes | |].
  - change (p_sandbox (progress (state_of (handle e s))) = false).
    rewrite Hstep. exact Hsb.
  - change (p_feedback (progress (state_of (handle e s))) = true \/
            nth_error quizData (p_index (progress (state_of (handle e s))))
            = None).
    rewrite Hstep. exact Hcase.
Qed.

Ltac skip_event IH Hes Hsb Hfb Hq s c :=
  let Hstep := fresh "Hstep" in
  assert (Hstep : progress (state_of c) = progress s)
    by (apply within_question_progress;
        [reflexivity | intros ? ?; discriminate]);
  let Hi := fresh in let Hsc := fresh in let Hf := fresh in
  let Hsx := fresh in let Hen := fresh in let Hfi := fresh in
  destruct (progress_fields _ _ Hstep) as (Hi & Hsc & Hf & Hsx & Hen & Hfi);
  rewrite (IH (state_of c) Hes);
  [ rewrite Hi, Hsc, Hen, Hfi; reflexivity
  | rewrite Hsx; exact Hsb
  | rewrite Hf; exact Hfb
  | rewrite Hi; exact Hq ].

(** While a question awaits its answer, the events within the question
    score exactly when the first click on a circle matches. *)
Lemma run_awaiting es s q :
  forallb within_question es = true ->
  isSandBoxActive (quiz s) = false ->
  isFeedbackActive (quiz s) = false ->
  nth_error quizData (currentQuestionIndex (quiz s)) = Some q ->
  progress (run es s)
  = {| p_index := currentQuestionIndex (quiz s);
       p_score := score (quiz s) + (if answered_correctly q es then 1 else 0);
       p_feedback := match first_click es with
                     | Some _ => true
                     | None => false
                     end;
       p_sandbox := false;
       p_endHidden := endScreenHidden (controls s);
       p_final := finalScore (controls s) |}.
Proof.
  revert s.
  induction es as [|e es IH]; intros s Hw Hsb Hfb Hq.
  - unfold answered_correctly. simpl. unfold progress.
    rewrite Hsb, Hfb, Nat.add_0_r. reflexivity.
  - simpl in Hw. apply andb_prop in Hw as [He Hes].
    change (run (e :: es) s) with (run es (state_of (handle e s))).
    destruct e as [L|L|L| |L|L|L|p c| |L]; try discriminate He.
    + skip_event IH Hes Hsb Hfb Hq s (handle (ContinueButton L) s).
    + skip_event IH Hes Hsb Hfb Hq s (handle (MouseMove L) s).
    + skip_event IH Hes Hsb Hfb Hq s (handle (ToggleButton L) s).
    + (* the first click *)
      simpl handle.
      destruct (circle_click_progress p c s q Hsb Hq) as (s' & -> & Hs').
      simpl state_of. rewrite Hfb, andb_true_r in Hs'.
      rewrite run_no_scoring; [| exact Hes | |].
      * rewrite Hs'. unfold answered_correctly. reflexivity.
      * change (p_sandbox (progress s') = false). rewrite Hs'. reflexivity.
      * left. change (p_feedback (progress s') = true). rewrite Hs'.
        reflexivity.
    + skip_event IH Hes Hsb Hfb Hq s (handle ShowAnswerButton s).
Qed.

(** C1.  In quiz mode, let any number of events occur while one question
    is displayed: clicks on circles, position updates, clicks on the
    switch-view, show-answer and continue buttons.  (1) The question index
    does not change.  (2) If feedback is active at the start, the
    progression (question index, score, feedback flag, end screen and
    summary) does not change: clicks on circles are ignored.  (3) In every case the
    score grows by at most 1.  (4) If the question awaits its answer at
    the start, the score grows by 1 exactly when the first click on a
    circle is on a circle created for the question's position that
    carries the question's answer.  (5) A single click on a circle adds 1
    to the score if and only if no feedback is active, the circle was
    created for the question's position and carries the question's answer;
    otherwise it leaves the score as it is.  (6) The position a circle
    was created for is the active zone: in every state reached from the
    loading of the page, the circles in the panel were created for the
    zone the probe was last seen over. *)
Theorem score_once_per_question (s : State) (es : list Event) :
  isSandBoxActive (quiz s) = false ->
  forallb within_question es = true ->
  currentQuestionIndex (quiz (run es s)) = currentQuestionIndex (quiz s) /\
  (isFeedbackActive (quiz s) = true -> progress (run es s) = progress s) /\
  score (quiz s) <= score (quiz (run es s)) <= score (quiz s) + 1 /\
  (forall q,
      nth_error quizData (currentQuestionIndex (quiz s)) = Some q ->
      isFeedbackActive (quiz s) = false ->
      score (quiz (run es s))
      = score (quiz s) + (if answered_correctly q es then 1 else 0)) /\
  (forall p c,
      let t := state_of (circle_click p c s) in
      (score (quiz t) = score (quiz s) + 1 <->
       exists q,
         nth_error quizData (currentQuestionIndex (quiz s)) = Some q /\
         isFeedbackActive (quiz s) = false /\
         p = correctPosition q /\
         answer c = correctAnswer q) /\
      (score (quiz t) = score (quiz s) \/
       score (quiz t) = score (quiz s) + 1)) /\
  (forall d c es' src p cs,
      (forall src' p' cs', imagePanel d <> PanelImage src' p' cs') ->
      imagePanel (display (run es' (initial d c))) = PanelImage src p cs ->
      lastCellPos (probe (run es' (initial d c))) = Some p).
Proof.
  intros Hsb Hw.
  assert (Hcases :
            progress (run es s) = progress s \/
            exists q,
              nth_error quizData (currentQuestionIndex (quiz s)) = Some q /\
              isFeedbackActive (quiz s) = false /\
              p_index (progress (run es s)) = currentQuestionIndex (quiz s) /\
              p_score (progress (run es s))
              = score (quiz s) + (if answered_correctly q es then 1 else 0)).
  { destruct (isFeedbackActive (quiz s)) eqn:Hfb.
    - left. apply run_no_scoring; auto.
    - destruct (nth_error quizData (currentQuestionIndex (quiz s)))
        as [q|] eqn:Hq.
      + right. exists q. rewrite (run_awaiting es s q Hw Hsb Hfb Hq). auto.
      + left. apply run_no_scoring; auto. }
  change (currentQuestionIndex (quiz (run es s)))
    with (p_index (progress (run es s))).
  change (score (quiz (run es s))) with (p_score (progress (run es s))).
  split; [|split; [|split; [|split; [|split]]]].
  - destruct Hcases as [-> | (q & _ & _ & -> & _)]; reflexivity.
  - intros Hfb. apply run_no_scoring; auto.
  - destruct Hcases as [-> | (q & _ & _ & _ & ->)]; simpl.
    + lia.
    + destruct (answered_correctly q es); lia.
  - intros q Hq Hfb. rewrite (run_awaiting es s q Hw Hsb Hfb Hq). reflexivity.
  - intros p c t. subst t.
    destruct (nth_error quizData (currentQuestionIndex (quiz s)))
      as [q|] eqn:Hq.
    + destruct (circle_click_progress p c s q Hsb Hq) as (s' & -> & Hs').
      simpl state_of.
      change (score (quiz s')) with (p_score (progress s')).
      rewrite Hs'. simpl p_score. unfold click_matches.
      destruct (Nat.eqb_spec p (correctPosition q)) as [Hp|Hp];
        destruct (String.eqb_spec (answer c) (correctAnswer q)) as [Ha|Ha];
        destruct (isFeedbackActive (quiz s)) eqn:Hfb; simpl;
        (split; [split|]);
        try (intros (q' & Hq' & Hfb' & Hp' & Ha');
             injection Hq' as <-; congruence);
        try lia;
        try (intros _; exists q; auto).
    + rewrite (circle_click_no_question p c s Hsb Hq). simpl state_of.
      split; [split|]; try lia.
      intros (q' & Hq' & _). discriminate Hq'.
  - intros d c es' src p cs Hd Hpanel.
    apply (reachable_panel d c es' Hd src p cs Hpanel).
Qed.

Lemma score_once_per_question_witness :
  score (quiz (run eager_clicks first_question))
  = score (quiz first_question) + 1.
Proof.
  apply (proj1 (proj2 (proj2 (proj2
           (score_once_per_question first_question eager_clicks
              ltac:(vm_compute; reflexivity)
              ltac:(vm_compute; reflexivity)))))
           question1).
  - vm_compute. reflexivity.
  - vm_compute. reflexivity.
Defined.

(** What the click on the next-question button does to the progression. *)
Lemma nextQuestionButton_click_progress L s :
  progress (state_of (nextQuestionButton_click L s))
  = match nth_error quizData (currentQuestionIndex (quiz s) + 1) with
    | Some _ =>
        {| p_index := currentQuestionIndex (quiz s) + 1;
           p_score := score (quiz s);
           p_feedback := false;
           p_sandbox := isSandBoxActive (quiz s);
           p_endHidden := endScreenHidden (controls s);
           p_final := finalScore (controls s) |}
    | None =>
        {| p_index := currentQuestionIndex (quiz s) + 1;
           p_score := score (quiz s);
           p_feedback := false;
           p_sandbox := isSandBoxActive (quiz s);
           p_endHidden := false;
           p_final := (nat_str (score (quiz s)) ++ " out of " ++
                       nat_str (List.length quizData))%string |}
    end.
Proof.
  unfold nextQuestionButton_click. cbv zeta.
  change (currentQuestionIndex (quiz (set_currentQuestionIndex _ _)))
    with (currentQuestionIndex (quiz s) + 1).
  destruct (nth_error quizData (currentQuestionIndex (quiz s) + 1)).
  - rewrite loadQuestion_progress. reflexivity.
  - reflexivity.
Qed.

Lemma skipn_cons_nth {A : Type} (l : list A) i a rest :
  skipn i l = a :: rest ->
  nth_error l i = Some a /\ skipn (i + 1) l = rest.
Proof.
  revert l. induction i as [|i IH]; intros l H.
  - simpl in H. subst l. auto.
  - destruct l as [|b l]; [discriminate H|]. simpl in H.
    simpl. apply IH. exact H.
Qed.

Lemma skipn_nil_nth {A : Type} (l : list A) i :
  skipn i l = [] -> nth_error l i = None.
Proof.
  revert l. induction i as [|i IH]; intros l H.
  - simpl in H. subst l. reflexivity.
  - destruct l as [|b l]; [reflexivity|]. simpl in H. simpl. auto.
Qed.

Lemma forallb_firstn {A : Type} (f : A -> bool) k l :
  forallb f l = true -> forallb f (firstn k l) = true.
Proof.
  revert l. induction k as [|k IH]; intros l H; [reflexivity|].
  destruct l as [|a l]; [reflexivity|].
  simpl in H |- *. apply andb_prop in H as [Ha Hl].
  rewrite Ha. simpl. apply IH, Hl.
Qed.

Lemma run_app es1 es2 s : run (es1 ++ es2) s = run es2 (run es1 s).
Proof. unfold run. apply fold_left_app. Qed.

(** One round: the events of a question, then the next-question button. *)
Lemma round_progress es L s q rest :
  forallb within_question es = true ->
  isSandBoxActive (quiz s) = false ->
  isFeedbackActive (quiz s) = false ->
  skipn (currentQuestionIndex (quiz s)) quizData = q :: rest ->
  progress (run (es ++ [NextQuestionButton L]) s)
  = {| p_index := currentQuestionIndex (quiz s) + 1;
       p_score := score (quiz s) + (if answered_correctly q es then 1 else 0);
       p_feedback := false;
       p_sandbox := false;
       p_endHidden := match rest with
                      | [] => false
                      | _ :: _ => endScreenHidden (controls s)
                      end;
       p_final := match rest with
                  | [] => (nat_str (score (quiz s) +
                                    (if answered_correctly q es then 1 else 0))
                           ++ " out of " ++ nat_str (List.length quizData))%string
                  | _ :: _ => finalScore (controls s)
                  end |}.
Proof.
  intros Hw Hsb Hfb Hskip.
  destruct (skipn_cons_nth _ _ _ _ Hskip) as [Hq Hrest].
  rewrite run_app.
  pose proof (run_awaiting es s q Hw Hsb Hfb Hq) as Hp.
  set (s1 := run es s) in *.
  change (run [NextQuestionButton L] s1)
    with (state_of (nextQuestionButton_click L s1)).
  rewrite nextQuestionButton_click_progress.
  change (currentQuestionIndex (quiz s1)) with (p_index (progress s1)).
  change (score (quiz s1)) with (p_score (progress s1)).
  change (isSandBoxActive (quiz s1)) with (p_sandbox (progress s1)).
  change (endScreenHidden (controls s1)) with (p_endHidden (progress s1)).
  change (finalScore (controls s1)) with (p_final (progress s1)).
  rewrite Hp. simpl.
  destruct rest as [|q' rest'].
  - rewrite (skipn_nil_nth _ _ Hrest). reflexivity.
  - destruct (skipn_cons_nth _ _ _ _ Hrest) as [-> _]. reflexivity.
Qed.

(** A play-through that stops before the last question is left: the end
    screen stays as it is. *)
Lemma play_progress_before rounds :
  forall s qs,
    forallb (fun r => forallb within_question (fst r)) rounds = true ->
    isSandBoxActive (quiz s) = false ->
    isFeedbackActive (quiz s) = false ->
    skipn (currentQuestionIndex (quiz s)) quizData = qs ->
    List.length rounds < List.length qs ->
    progress (run (play rounds) s)
    = {| p_index := currentQuestionIndex (quiz s) + List.length rounds;
         p_score := score (quiz s) + correct_count qs rounds;
         p_feedback := false;
         p_sandbox := false;
         p_endHidden := endScreenHidden (controls s);
         p_final := finalScore (controls s) |}.
Proof.
  induction rounds as [|[es L] rounds IH]; intros s qs Hw Hsb Hfb Hskip Hlen.
  - destruct qs as [|q qs]; [simpl in Hlen; lia|].
    change (run (play []) s) with s. cbn [correct_count List.length].
    unfold progress. rewrite Hsb, Hfb, !Nat.add_0_r. reflexivity.
  - simpl in Hw. apply andb_prop in Hw as [Hes Hw].
    destruct qs as [|q qs]; [simpl in Hlen; lia|].
    destruct qs as [|q' qs]; [simpl in Hlen; lia|].
    simpl play.
    change (es ++ NextQuestionButton L :: play rounds)
      with (es ++ [NextQuestionButton L] ++ play rounds).
    rewrite app_assoc, run_app.
    pose proof (round_progress es L s q (q' :: qs) Hes Hsb Hfb Hskip) as Hp.
    set (s1 := run (es ++ [NextQuestionButton L]) s) in *.
    destruct (skipn_cons_nth _ _ _ _ Hskip) as [_ Hrest].
    rewrite (IH s1 (q' :: qs) Hw).
    + change (currentQuestionIndex (quiz s1)) with (p_index (progress s1)).
      change (score (quiz s1)) with (p_score (progress s1)).
      change (endScreenHidden (controls s1)) with (p_endHidden (progress s1)).
      change (finalScore (controls s1)) with (p_final (progress s1)).
      rewrite Hp. cbn [p_index p_score p_endHidden p_final].
      cbn [correct_count List.length]. f_equal; lia.
    + change (p_sandbox (progress s1) = false). rewrite Hp. reflexivity.
    + change (p_feedback (progress s1) = false). rewrite Hp. reflexivity.
    + change (skipn (p_index (progress s1)) quizData = q' :: qs).
      rewrite Hp. exact Hrest.
    + simpl in Hlen |- *. lia.
Qed.

(** A play-through of all the questions that are left ends on the end
    screen with the score in the summary. *)
Lemma play_progress_complete rounds :
  forall s qs,
    forallb (fun r => forallb within_question (fst r)) rounds = true ->
    isSandBoxActive (quiz s) = false ->
    isFeedbackActive (quiz s) = false ->
    skipn (currentQuestionIndex (quiz s)) quizData = qs ->
    List.length rounds = List.length qs ->
    rounds <> [] ->
    progress (run (play rounds) s)
    = {| p_index := currentQuestionIndex (quiz s) + List.length rounds;
         p_score := score (quiz s) + correct_count qs rounds;
         p_feedback := false;
         p_sandbox := false;
         p_endHidden := false;
         p_final := (nat_str (score (quiz s) + correct_count qs rounds)
                     ++ " out of " ++ nat_str (List.length quizData))%string |}.
Proof.
  induction rounds as [|[es L] rounds IH];
    intros s qs Hw Hsb Hfb Hskip Hlen Hne; [congruence|].
  simpl in Hw. apply andb_prop in Hw as [Hes Hw].
  destruct qs as [|q qs]; [discriminate Hlen|].
  simpl play.
  change (es ++ NextQuestionButton L :: play rounds)
    with (es ++ [NextQuestionButton L] ++ play rounds).
  rewrite app_assoc, run_app.
  pose proof (round_progress es L s q qs Hes Hsb Hfb Hskip) as Hp.
  set (s1 := run (es ++ [NextQuestionButton L]) s) in *.
  destruct (skipn_cons_nth _ _ _ _ Hskip) as [_ Hrest].
  destruct rounds as [|r rounds].
  - destruct qs; [|discriminate Hlen].
    simpl play. change (run [] s1) with s1. rewrite Hp.
    cbn [correct_count List.length]. rewrite !Nat.add_0_r. reflexivity.
  - destruct qs as [|q' qs]; [discriminate Hlen|].
    rewrite (IH s1 (q' :: qs) Hw).
    + change (currentQuestionIndex (quiz s1)) with (p_index (progress s1)).
      change (score (quiz s1)) with (p_score (progress s1)).
      rewrite Hp. cbn [p_index p_score].
      remember (r :: rounds) as rs.
      cbn [correct_count List.length].
      replace (score (quiz s) + (if answered_correctly q es then 1 else 0) +
               correct_count (q' :: qs) rs)
        with (score (quiz s) +
              ((if answered_correctly q es then 1 else 0) +
               correct_count (q' :: qs) rs)) by lia.
      f_equal; try lia. do 2 f_equal. lia.
    + change (p_sandbox (progress s1) = false). rewrite Hp. reflexivity.
    + change (p_feedback (progress s1) = false). rewrite Hp. reflexivity.
    + change (skipn (p_index (progress s1)) quizData = q' :: qs).
      rewrite Hp. exact Hrest.
    + simpl in Hlen |- *. lia.
    + discriminate.
Qed.

(** C2.  (1) The click on the next-question button adds exactly 1 to the
    question index.  (2) If there is a question at the new index, no
    feedback is active afterwards and score, end screen and summary are as
    before.  (3) If there is none, the listener completes with the end
    screen shown and the summary [score out of total].  (4) In a
    play-through in quiz mode that starts at the first question with score
    0 and clicks the next-question button once for each question, the end
    screen is hidden after each of the clicks but the last, and after the
    last it is shown; the question index is then the number of questions,
    the score is the number of questions whose first click on a circle was
    on a circle of the question's position carrying its answer, and the
    summary shows that score out of the number of questions. *)
Theorem advance_and_completion :
  (forall L s,
      currentQuestionIndex (quiz (state_of (nextQuestionButton_click L s)))
      = currentQuestionIndex (quiz s) + 1) /\
  (forall L s q,
      nth_error quizData (currentQuestionIndex (quiz s) + 1) = Some q ->
      let s' := state_of (nextQuestionButton_click L s) in
      isFeedbackActive (quiz s') = false /\
      score (quiz s') = score (quiz s) /\
      endScreenHidden (controls s') = endScreenHidden (controls s) /\
      finalScore (controls s') = finalScore (controls s)) /\
  (forall L s,
      nth_error quizData (currentQuestionIndex (quiz s) + 1) = None ->
      exists s',
        nextQuestionButton_click L s = Normal s' /\
        isFeedbackActive (quiz s') = false /\
        endScreenHidden (controls s') = false /\
        finalScore (controls s')
        = (nat_str (score (quiz s)) ++ " out of " ++
           nat_str (List.length quizData))%string) /\
  (forall s rounds,
      currentQuestionIndex (quiz s) = 0 ->
      score (quiz s) = 0 ->
      isSandBoxActive (quiz s) = false ->
      isFeedbackActive (quiz s) = false ->
      endScreenHidden (controls s) = true ->
      List.length rounds = List.length quizData ->
      forallb (fun r => forallb within_question (fst r)) rounds = true ->
      (forall k, k < List.length quizData ->
                 let sk := run (play (firstn k rounds)) s in
                 endScreenHidden (controls sk) = true /\
                 currentQuestionIndex (quiz sk) = k /\
                 isFeedbackActive (quiz sk) = false) /\
      let s' := run (play rounds) s in
      endScreenHidden (controls s') = false /\
      currentQuestionIndex (quiz s') = List.length quizData /\
      score (quiz s') = correct_count quizData rounds /\
      finalScore (controls s')
      = (nat_str (correct_count quizData rounds) ++ " out of " ++
         nat_str (List.length quizData))%string).
Proof.
  split; [|split; [|split]].
  - intros L s.
    change (currentQuestionIndex
              (quiz (state_of (nextQuestionButton_click L s))))
      with (p_index (progress (state_of (nextQuestionButton_click L s)))).
    rewrite nextQuestionButton_click_progress.
    destruct (nth_error quizData _); reflexivity.
  - intros L s q Hq s'. subst s'.
    pose proof (nextQuestionButton_click_progress L s) as Hp.
    rewrite Hq in Hp.
    set (s' := state_of (nextQuestionButton_click L s)) in *.
    change (p_feedback (progress s') = false /\
            p_score (progress s') = score (quiz s) /\
            p_endHidden (progress s') = endScreenHidden (controls s) /\
            p_final (progress s') = finalScore (controls s)).
    rewrite Hp. auto.
  - intros L s Hq. unfold nextQuestionButton_click. cbv zeta.
    change (currentQuestionIndex (quiz (set_currentQuestionIndex _ _)))
      with (currentQuestionIndex (quiz s) + 1).
    rewrite Hq. eexists. split; [reflexivity|]. auto.
  - intros s rounds Hi Hsc Hsb Hfb Hend Hlen Hw.
    assert (Hskip : skipn (currentQuestionIndex (quiz s)) quizData = quizData)
      by (rewrite Hi; reflexivity).
    split.
    + intros k Hk sk. subst sk.
      assert (Hwk : forallb (fun r => forallb within_question (fst r))
                            (firstn k rounds) = true).
      { apply forallb_firstn. exact Hw. }
      assert (Hlk : List.length (firstn k rounds) = k).
      { rewrite length_firstn. lia. }
      pose proof (play_progress_before (firstn k rounds) s quizData
                    Hwk Hsb Hfb Hskip ltac:(lia)) as Hp.
      set (sk := run (play (firstn k rounds)) s) in *.
      change (p_endHidden (progress sk) = true /\
              p_index (progress sk) = k /\
              p_feedback (progress sk) = false).
      rewrite Hp. simpl. rewrite Hend, Hi, Hlk. auto.
    + intros s'. subst s'.
      assert (Hne : rounds <> []).
      { intros ->. discriminate Hlen. }
      pose proof (play_progress_complete rounds s quizData
                    Hw Hsb Hfb Hskip Hlen Hne) as Hp.
      set (s' := run (play rounds) s) in *.
      change (p_endHidden (progress s') = false /\
              p_index (progress s') = List.length quizData /\
              p_score (progress s') = correct_count quizData rounds /\
              p_final (progress s')
              = (nat_str (correct_count quizData rounds) ++ " out of " ++
                 nat_str (List.length quizData))%string).
      rewrite Hp. cbn [p_endHidden p_index p_score p_final].
      rewrite Hi, Hsc, Hlen. auto.
Qed.

Lemma advance_and_completion_witness :
  (forall k, k < 5 ->
             endScreenHidden
               (controls (run (play (firstn k perfect_rounds)) quiz_started))
             = true) /\
  endScreenHidden (controls (run (play perfect_rounds) quiz_started)) = false /\
  score (quiz (run (play perfect_rounds) quiz_started)) = 5 /\
  finalScore (controls (run (play perfect_rounds) quiz_started))
  = "5 out of 5".
Proof.
  destruct (proj2 (proj2 (proj2 advance_and_completion))
                  quiz_started perfect_rounds
                  ltac:(vm_compute; reflexivity)
                  ltac:(vm_compute; reflexivity)
                  ltac:(vm_compute; reflexivity)
                  ltac:(vm_compute; reflexivity)
                  ltac:(vm_compute; reflexivity)
                  ltac:(vm_compute; reflexivity)
                  ltac:(vm_compute; reflexivity))
    as [Hbefore (Hend & _ & Hscore & Hfinal)].
  split; [|split; [|split]].
  - intros k Hk. apply (Hbefore k Hk).
  - exact Hend.
  - exact Hscore.
  - exact Hfinal.
Defined.

(** The circles clicked in the perfect play-through are in the panel when
    they are clicked: here the circle of the first question. *)
Example first_question_circle_in_panel :
  imagePanel
    (display (run [StartButton off_zones; ContinueButton off_zones;
                   MouseMove over_zone2; ToggleButton over_zone2;
                   ToggleButton over_zone2] page_load))
  = PanelImage "Echo_Images/300_up_2.png" 2
      [ mkCircle 40 50 "F" "Left Ventricle";
        mkCircle 53 30 "G" "Right Ventricle";
        mkCircle 65 60 "H" "Left Atrium";
        mkCircle 53 60 "I" "Mitral Valve";
        mkCircle 60 49 "K" "Ascending Aorta" ].
Proof. vm_compute. reflexivity. Qed.

(** A wrong first click is not made good by a right second click. *)
Example second_thoughts_summary :
  finalScore (controls (run (play second_thoughts_rounds) quiz_started))
  = "4 out of 5".
Proof. vm_compute. reflexivity. Qed.

(* ===================================================================== *)
(** ** Rope geometry *)
(* ===================================================================== *)

Local Open Scope R_scope.

Lemma getTailAnchor_neutral probeEl angleDeg tailDir i :
  num_eqb i 2 = true ->
  getTailAnchor probeEl angleDeg tailDir i = probe_center probeEl.
Proof.
  intros H. unfold getTailAnchor. rewrite H.
  destruct (probe_center probeEl). reflexivity.
Qed.




Local Close Scope R_scope.
(* ===================================================================== *)
(** ** The clock face of an angle *)
(* ===================================================================== *)

Local Open Scope Z_scope.

(** The double remainder of [degreesToClock] is the remainder of the
    floored division, also for negative angles. *)
Lemma normalized_is_mod (a : Z) :
  Z.rem (Z.rem a 360 + 360) 360 = a mod 360.
Proof.
  pose proof (Z.quot_rem' a 360) as Ha.
  assert (Hr : -360 < Z.rem a 360 < 360).
  { pose proof (Z.rem_bound_abs a 360) as Habs.
    assert (Z.abs (Z.rem a 360) < Z.abs 360) by (apply Habs; lia).
    lia. }
  rewrite Z.rem_mod_nonneg by lia.
  replace (Z.rem a 360 + 360) with (Z.rem a 360 + 1 * 360) by lia.
  rewrite Z.mod_add by lia.
  rewrite Ha at 2.
  rewrite Z.add_comm, Z.mul_comm, Z.mod_add by lia.
  reflexivity.
Qed.

Lemma hour_index_bounds (n : Z) :
  0 <= n < 360 -> 0 <= Z.rem ((n + 15) / 30) 12 < 12.
Proof.
  intros Hn.
  assert (H0 : 0 <= (n + 15) / 30) by (apply Z.div_pos; lia).
  apply Z.rem_bound_pos; lia.
Qed.

Lemma clock_label_defined (k : nat) :
  (k < 12)%nat -> nth_error clock_labels k = Some (nth k clock_labels "undefined").
Proof.
  intros Hk. do 12 (destruct k as [|k]; [reflexivity|]). lia.
Qed.

(** X1.  For every integer angle, negative or beyond a full turn,
    [degreesToClock] returns one of the twelve labels, and angles that
    differ by full turns have the same label. *)
Theorem degreesToClock_total_periodic (a k : Z) :
  In (degreesToClock a) clock_labels /\
  degreesToClock (a + 360 * k) = degreesToClock a.
Proof.
  split.
  - unfold degreesToClock. cbv zeta. rewrite normalized_is_mod.
    pose proof (Z.mod_pos_bound a 360 ltac:(lia)) as Hn.
    pose proof (hour_index_bounds (a mod 360) Hn) as Hh.
    rewrite (clock_label_defined (Z.to_nat (Z.rem ((a mod 360 + 15) / 30) 12)))
      by lia.
    apply nth_In. change (List.length clock_labels) with 12%nat. lia.
  - unfold degreesToClock. cbv zeta. rewrite !normalized_is_mod.
    rewrite Z.mul_comm, Z.mod_add by lia. reflexivity.
Qed.

(** X2.  The hour mark [h] of the dial is at [30 h] degrees; every
    angle from fifteen degrees before the mark (included) to fifteen
    degrees after it (excluded) is shown as hour [h], the top of the dial
    as 12 o'clock. *)
Theorem degreesToClock_nearest_hour (h : nat) (d : Z) :
  (h < 12)%nat ->
  -15 <= d < 15 ->
  degreesToClock (30 * Z.of_nat h + d) = nth h clock_labels "undefined".
Proof.
  intros Hh Hd. unfold degreesToClock. cbv zeta. rewrite normalized_is_mod.
  assert (Hidx : Z.rem (((30 * Z.of_nat h + d) mod 360 + 15) / 30) 12
                 = Z.of_nat h).
  { destruct (Z_le_gt_dec 0 (30 * Z.of_nat h + d)) as [Hpos|Hneg].
    - rewrite (Z.mod_small (30 * Z.of_nat h + d) 360) by lia.
      replace (30 * Z.of_nat h + d + 15) with (d + 15 + Z.of_nat h * 30) by lia.
      rewrite Z.div_add by lia.
      rewrite (Z.div_small (d + 15) 30) by lia.
      apply Z.rem_small. lia.
    - assert (h = 0%nat) by lia. subst h. cbn [Z.of_nat].
      replace (30 * 0 + d) with (d + 360 + (-1) * 360) by lia.
      rewrite Z.mod_add by lia.
      rewrite (Z.mod_small (d + 360) 360) by lia.
      replace (d + 360 + 15) with (d + 15 + 12 * 30) by lia.
      rewrite Z.div_add by lia.
      rewrite (Z.div_small (d + 15) 30) by lia.
      reflexivity. }
  rewrite Hidx, Nat2Z.id.
  rewrite (clock_label_defined h Hh). reflexivity.
Qed.

Lemma degreesToClock_nearest_hour_witness :
  degreesToClock (30 * Z.of_nat 10 + 0) = "10 o'clock"%string /\
  degreesToClock (30 * Z.of_nat 0 + (-15)) = "12 o'clock"%string.
Proof.
  split.
  - apply (degreesToClock_nearest_hour 10 0); lia.
  - apply (degreesToClock_nearest_hour 0 (-15)); lia.
Defined.

Local Close Scope Z_scope.

(* ===================================================================== *)
(** ** Dragging the probe *)
(* ===================================================================== *)

Local Open Scope Q_scope.

Lemma Qle_bool_false a b : Qle_bool a b = false -> b < a.
Proof.
  intros H. apply Qnot_le_lt. intros Hle.
  apply Qle_bool_iff in Hle. congruence.
Qed.

Lemma Math_max_spec a b :
  (a <= b /\ Math_max a b = b) \/ (b < a /\ Math_max a b = a).
Proof.
  unfold Math_max. destruct (Qle_bool a b) eqn:E.
  - left. split; [apply Qle_bool_iff, E | reflexivity].
  - right. split; [apply Qle_bool_false, E | reflexivity].
Qed.

Lemma Math_min_spec a b :
  (a <= b /\ Math_min a b = a) \/ (b < a /\ Math_min a b = b).
Proof.
  unfold Math_min. destruct (Qle_bool a b) eqn:E.
  - left. split; [apply Qle_bool_iff, E | reflexivity].
  - right. split; [apply Qle_bool_false, E | reflexivity].
Qed.

(** The clamp of the listener, on one coordinate. *)
Lemma clamp_spec x hi :
  0 <= Math_max 0 (Math_min x hi) /\
  (0 <= hi -> Math_max 0 (Math_min x hi) <= hi) /\
  (hi < 0 -> Math_max 0 (Math_min x hi) == 0) /\
  (0 <= x <= hi -> Math_max 0 (Math_min x hi) == x).
Proof.
  destruct (Math_min_spec x hi) as [[H1 ->] | [H1 ->]];
    [destruct (Math_max_spec 0 x) as [[H2 ->] | [H2 ->]]
    |destruct (Math_max_spec 0 hi) as [[H2 ->] | [H2 ->]]];
    repeat split; intros; lra.
Qed.

(** X3.  While the probe is dragged, the position the listener writes is
    never negative; if the probe is not wider (higher) than the container,
    the probe's box stays within the container's width (height); if it is
    wider (higher), the probe is pinned to the left (top) edge. *)
Theorem drag_stays_in_container
        (e : MouseEvent) (containerRect : DOMRect) (probeWidth probeHeight : Q)
        (d : DragVars) :
  isDragging d = true ->
  exists newLeft newTop,
    drag_position e containerRect probeWidth probeHeight d
    = Some (newLeft, newTop) /\
    0 <= newLeft /\ 0 <= newTop /\
    (probeWidth <= width containerRect ->
     newLeft + probeWidth <= width containerRect) /\
    (probeHeight <= height containerRect ->
     newTop + probeHeight <= height containerRect) /\
    (width containerRect < probeWidth -> newLeft == 0) /\
    (height containerRect < probeHeight -> newTop == 0).
Proof.
  intros Hd. unfold drag_position. rewrite Hd. cbv zeta. simpl negb.
  eexists. eexists. split; [reflexivity|].
  destruct (clamp_spec (clientX e - left containerRect - offsetX d)
                       (width containerRect - probeWidth))
    as (HL0 & HL1 & HL2 & _).
  destruct (clamp_spec (clientY e - top containerRect - offsetY d)
                       (height containerRect - probeHeight))
    as (HT0 & HT1 & HT2 & _).
  repeat split; try assumption; intros H.
  - assert (0 <= width containerRect - probeWidth) as H' by lra.
    specialize (HL1 H'). lra.
  - assert (0 <= height containerRect - probeHeight) as H' by lra.
    specialize (HT1 H'). lra.
  - apply HL2. lra.
  - apply HT2. lra.
Qed.

(** A container of 800 by 600 pixels at (50, 40), a probe of 160 by 160
    pixels, a grab and a pointer far beyond the lower right corner. *)
Lemma drag_stays_in_container_witness :
  drag_position {| clientX := 5000; clientY := 5000 |} (box 50 40 800 600)
                160 160
                (probe_mousedown {| clientX := 200; clientY := 300 |}
                                 (box 50 40 800 600) 120 200 drag_idle)
  = Some (Math_max 0 (Math_min (5000 - 50 - (200 - (50 + 120))) (800 - 160)),
          Math_max 0 (Math_min (5000 - 40 - (300 - (40 + 200))) (600 - 160))) /\
  Math_max 0 (Math_min (5000 - 50 - (200 - (50 + 120))) (800 - 160)) + 160
  <= 800.
Proof.
  destruct (drag_stays_in_container
              {| clientX := 5000; clientY := 5000 |} (box 50 40 800 600)
              160 160
              (probe_mousedown {| clientX := 200; clientY := 300 |}
                               (box 50 40 800 600) 120 200 drag_idle)
              eq_refl)
    as (l & t & E & _ & _ & Hw & _).
  split.
  - reflexivity.
  - injection E as <- _. apply Hw. simpl. lra.
Defined.

Local Close Scope Q_scope.

(* ===================================================================== *)
(** ** Tutorial slideshow *)
(* ===================================================================== *)

Lemma slide_defined k :
  1 <= k <= List.length tutorialSlides ->
  exists d, at_pos tutorialSlides k = Some d /\
            nth_error tutorialSlides (k - 1) = Some d /\
            slideNum d = k.
Proof.
  intros Hk. change (List.length tutorialSlides) with 8 in Hk.
  destruct k as [|k]; [lia|].
  do 8 (destruct k as [|k]; [eexists; repeat split; reflexivity|]).
  lia.
Qed.

(** Showing a slide within the bounds makes the tutorial consistent. *)
Lemma updateSlideshow_consistent k t :
  1 <= k <= List.length tutorialSlides ->
  consoleErrors t = [] ->
  exists d,
    nth_error tutorialSlides (k - 1) = Some d /\ slideNum d = k /\
    updateSlideshow (set_currentSlide k t)
    = showing k d (tutorialOverlayHidden t).
Proof.
  intros Hk Herr. destruct (slide_defined k Hk) as (d & Hat & Hnth & Hnum).
  exists d. split; [exact Hnth|]. split; [exact Hnum|].
  unfold updateSlideshow. cbn [set_currentSlide currentSlide].
  rewrite Hat. unfold showing.
  cbn [tutorialOverlayHidden consoleErrors set_currentSlide].
  rewrite Herr. reflexivity.
Qed.

Lemma tutorial_handle_consistent e t :
  tutorial_consistent t -> tutorial_consistent (tutorial_handle e t).
Proof.
  intros (k & d & Hk & Hnth & Hnum & Ht).
  assert (Hcur : currentSlide t = k) by (rewrite Ht; reflexivity).
  assert (Herr : consoleErrors t = []) by (rewrite Ht; reflexivity).
  destruct e; simpl tutorial_handle.
  - unfold tutorialButton_click. cbv zeta.
    destruct (updateSlideshow_consistent 1 (set_tutorialOverlayHidden false t))
      as (d1 & Hn1 & Hs1 & E); [simpl; lia | exact Herr |].
    rewrite E. exists 1, d1. repeat split; try assumption; simpl; lia.
  - unfold closeTutorial_click.
    exists k, d. repeat split; try assumption; try lia.
    rewrite Ht at 1. reflexivity.
  - unfold nextSlideButton_click. rewrite Hcur.
    destruct (Nat.ltb_spec k (List.length tutorialSlides)) as [Hlt|Hge].
    + destruct (updateSlideshow_consistent (k + 1) t)
        as (d1 & Hn1 & Hs1 & E); [lia | exact Herr |].
      rewrite E. exists (k + 1), d1. repeat split; try assumption; lia.
    + exists k, d. repeat split; try assumption; lia.
  - unfold prevSlideButton_click. rewrite Hcur.
    destruct (Nat.ltb_spec 1 k) as [Hlt|Hge].
    + destruct (updateSlideshow_consistent (k - 1) t)
        as (d1 & Hn1 & Hs1 & E); [lia | exact Herr |].
      rewrite E. exists (k - 1), d1. repeat split; try assumption; lia.
    + exists k, d. repeat split; try assumption; lia.
Qed.

Lemma tutorialButton_click_consistent t0 :
  consoleErrors t0 = [] -> tutorial_consistent (tutorialButton_click t0).
Proof.
  intros Herr. unfold tutorialButton_click. cbv zeta.
  destruct (updateSlideshow_consistent 1 (set_tutorialOverlayHidden false t0))
    as (d1 & Hn1 & Hs1 & E); [simpl; lia | exact Herr |].
  rewrite E. exists 1, d1. repeat split; try assumption; simpl; lia.
Qed.

(** X5.  Once the tutorial has been opened, whatever clicks on its four
    controls follow, it shows a slide between the first and the last with
    that slide's text and image, the indicator reads [k of 8], the
    previous button is hidden exactly on the first slide, the next button
    exactly on the last, the close button exactly off the last, and the
    [No data found] error is never logged. *)
Theorem tutorial_stays_consistent (t0 : Tutorial) (es : list TutorialEvent) :
  consoleErrors t0 = [] ->
  tutorial_consistent (tutorial_run es (tutorialButton_click t0)).
Proof.
  intros Herr.
  pose proof (tutorialButton_click_consistent t0 Herr) as H0.
  revert H0. generalize (tutorialButton_click t0). unfold tutorial_run.
  induction es as [|e es IH]; intros t Ht; simpl; [exact Ht|].
  apply IH, tutorial_handle_consistent, Ht.
Qed.

Lemma tutorial_stays_consistent_witness :
  tutorial_consistent
    (tutorial_run [NextSlide; NextSlide; PrevSlide; CloseTutorial]
       (tutorialButton_click
          (tutorial_loaded "text" "image.png" "alt"))).
Proof.
  apply (tutorial_stays_consistent
           (tutorial_loaded "text" "image.png" "alt")
           [NextSlide; NextSlide; PrevSlide; CloseTutorial]).
  reflexivity.
Defined.

Lemma next_clicks_slide n :
  forall t,
    tutorial_consistent t ->
    currentSlide (tutorial_run (repeat NextSlide n) t)
    = Nat.min (currentSlide t + n) (List.length tutorialSlides).
Proof.
  induction n as [|n IH]; intros t Ht.
  - change (tutorial_run (repeat NextSlide 0) t) with t.
    destruct Ht as (k & d & Hk & _ & _ & E).
    assert (currentSlide t = k) by (rewrite E; reflexivity). lia.
  - change (tutorial_run (repeat NextSlide (S n)) t)
      with (tutorial_run (repeat NextSlide n) (nextSlideButton_click t)).
    rewrite IH by (apply (tutorial_handle_consistent NextSlide), Ht).
    destruct Ht as (k & d & Hk & _ & _ & E).
    assert (Hcur : currentSlide t = k) by (rewrite E; reflexivity).
    unfold nextSlideButton_click.
    destruct (Nat.ltb_spec (currentSlide t) (List.length tutorialSlides))
      as [Hlt|Hge].
    + assert (Hc : currentSlide
                     (updateSlideshow (set_currentSlide (currentSlide t + 1) t))
                   = currentSlide t + 1).
      { unfold updateSlideshow.
        destruct (at_pos tutorialSlides _); reflexivity. }
      rewrite Hc. lia.
    + lia.
Qed.

(** X6.  In a consistent tutorial, [n] clicks on the next button lead to
    slide [k + n], but not beyond the last slide; a click on the next
    button followed by a click on the previous button restores the
    tutorial exactly, unless it was on the last slide, and likewise a
    click on previous followed by next, unless it was on the first. *)
Theorem tutorial_navigation (t : Tutorial) (n : nat) :
  tutorial_consistent t ->
  currentSlide (tutorial_run (repeat NextSlide n) t)
  = Nat.min (currentSlide t + n) (List.length tutorialSlides) /\
  (currentSlide t < List.length tutorialSlides ->
   prevSlideButton_click (nextSlideButton_click t) = t) /\
  (1 < currentSlide t ->
   nextSlideButton_click (prevSlideButton_click t) = t) /\
  (currentSlide t = List.length tutorialSlides ->
   nextSlideButton_click t = t) /\
  (currentSlide t = 1 -> prevSlideButton_click t = t).
Proof.
  intros Ht. split; [apply next_clicks_slide, Ht|].
  destruct Ht as (k & d & Hk & Hnth & Hnum & E).
  assert (Hcur : currentSlide t = k) by (rewrite E; reflexivity).
  assert (Herr : consoleErrors t = []) by (rewrite E; reflexivity).
  assert (Hback : forall t', tutorialOverlayHidden t' = tutorialOverlayHidden t ->
                             consoleErrors t' = [] ->
                             updateSlideshow (set_currentSlide k t') = t).
  { intros t' Hov Herr'.
    destruct (updateSlideshow_consistent k t' Hk Herr')
      as (d' & Hn' & _ & E').
    rewrite E', Hov. assert (d' = d) by congruence. subst d'.
    symmetry. exact E. }
  repeat split.
  - intros Hlt. unfold nextSlideButton_click.
    destruct (Nat.ltb_spec (currentSlide t) (List.length tutorialSlides));
      [|lia].
    destruct (updateSlideshow_consistent (currentSlide t + 1) t)
      as (d1 & _ & _ & E1); [lia | exact Herr |].
    rewrite E1. unfold prevSlideButton_click.
    cbn [showing currentSlide].
    destruct (Nat.ltb_spec 1 (currentSlide t + 1)); [|lia].
    replace (currentSlide t + 1 - 1) with k by lia.
    apply Hback; reflexivity.
  - intros Hgt. unfold prevSlideButton_click.
    destruct (Nat.ltb_spec 1 (currentSlide t)); [|lia].
    destruct (updateSlideshow_consistent (currentSlide t - 1) t)
      as (d1 & _ & _ & E1); [lia | exact Herr |].
    rewrite E1. unfold nextSlideButton_click.
    cbn [showing currentSlide].
    destruct (Nat.ltb_spec (currentSlide t - 1) (List.length tutorialSlides));
      [|lia].
    replace (currentSlide t - 1 + 1) with k by lia.
    apply Hback; reflexivity.
  - intros Hlast. unfold nextSlideButton_click.
    destruct (Nat.ltb_spec (currentSlide t) (List.length tutorialSlides));
      [lia | reflexivity].
  - intros Hfirst. unfold prevSlideButton_click.
    destruct (Nat.ltb_spec 1 (currentSlide t)); [lia | reflexivity].
Qed.

Lemma tutorial_navigation_witness :
  currentSlide
    (tutorial_run (repeat NextSlide 20)
       (tutorialButton_click (tutorial_loaded "text" "image.png" "alt")))
  = 8 /\
  prevSlideButton_click
    (nextSlideButton_click
       (tutorialButton_click (tutorial_loaded "text" "image.png" "alt")))
  = tutorialButton_click (tutorial_loaded "text" "image.png" "alt").
Proof.
  assert (Hc : tutorial_consistent
                 (tutorialButton_click
                    (tutorial_loaded "text" "image.png" "alt")))
    by (apply tutorialButton_click_consistent; reflexivity).
  destruct (tutorial_navigation _ 20 Hc) as (Hn & Hnp & _).
  split.
  - rewrite Hn. reflexivity.
  - apply Hnp. vm_compute. lia.
Defined.

(* ===================================================================== *)
(** ** Further properties of the position update *)
(* ===================================================================== *)

Lemma State_ext (s t : State) :
  quiz s = quiz t -> probe s = probe t ->
  display s = display t -> controls s = controls t -> s = t.
Proof. destruct s, t. simpl. intros -> -> -> ->. reflexivity. Qed.

Lemma entered_controls_eq views p s :
  controls (entered views p s) = entered_controls views p s.
Proof.
  unfold entered, show_switch_view, entered_controls, switch_view_label.
  rewrite (switch_view_shown_quiz views s _
             (eq_trans (enter_cell_quiz p (clear_preview s))
                       (clear_preview_quiz s))).
  destruct (switch_view_shown views s).
  - cbn [set_toggleButtonText set_toggleButtonHidden on_controls controls negb
         toggleButtonHidden toggleButtonText showAnswerButtonHidden
         nextQuestionButtonHidden correctAnswerImageHidden feedbackText
         feedbackBoxHidden endScreenHidden finalScore probe].
    rewrite (proj2 (enter_cell_remembered p (clear_preview s))).
    rewrite enter_cell_controls.
    change (index_on_entry (clear_preview s) p) with (index_on_entry s p).
    reflexivity.
  - rewrite enter_cell_controls. reflexivity.
Qed.

Lemma entered_display_eq views p s :
  display (entered views p s)
  = {| rotationDisplay := rotationDisplay (display s);
       tailDisplay := tailDisplay (display s);
       viewDisplay := viewDisplay (display s);
       partDisplay := "-";
       imagePanel := PanelEmpty |}.
Proof.
  unfold entered. rewrite show_switch_view_display, enter_cell_display.
  reflexivity.
Qed.

Lemma shown_display_eq p views v s :
  display (shown p views v s)
  = {| rotationDisplay := degreesToClock (angle v);
       tailDisplay := tail_text p views v (currentViewIndex (probe s));
       viewDisplay := view v;
       partDisplay := partDisplay (display s);
       imagePanel := panel_for p v |}.
Proof.
  unfold shown, inject_image, apply_view, tail_text, panel_for.
  cbn [probe currentViewIndex set_viewDisplay set_tailDisplay
       set_rotationDisplay set_tailPosition set_sweepDeg on_probe on_display].
  destruct (Nat.eqb p 2 &&
            num_eqb (num_rem (currentViewIndex (probe s)) (List.length views)) 2);
    destruct (imageSet_at (key_of (angle v) (tail v)) p); reflexivity.
Qed.

(** The closed form of the state after a position update over a zone. *)
Lemma shown_entered_closed p views v s :
  shown p views v (entered views p s) = zone_state views p v s.
Proof.
  apply State_ext.
  - rewrite shown_quiz, entered_quiz. reflexivity.
  - rewrite shown_probe.
    destruct (entered_remembered views p s) as [-> ->]. reflexivity.
  - rewrite shown_display_eq, entered_display_eq.
    rewrite (proj2 (entered_remembered views p s)). reflexivity.
  - rewrite shown_controls. apply entered_controls_eq.
Qed.

Lemma index_on_entry_remembered s p :
  lastCellPos (probe s) = Some p ->
  index_on_entry s p = currentViewIndex (probe s).
Proof.
  intros H. unfold index_on_entry.
  rewrite (proj2 (lastCellPos_differs_false s p) H). reflexivity.
Qed.

Lemma zone_state_again views p v s :
  zone_state views p v (zone_state views p v s) = zone_state views p v s.
Proof.
  assert (Hi : index_on_entry (zone_state views p v s) p = index_on_entry s p)
    by (apply index_on_entry_remembered; reflexivity).
  assert (Hs : switch_view_shown views (zone_state views p v s)
               = switch_view_shown views s)
    by (apply switch_view_shown_quiz; reflexivity).
  unfold zone_state at 1. rewrite Hi.
  unfold entered_controls at 1. rewrite Hs, Hi.
  unfold zone_state, entered_controls.
  cbn [quiz controls toggleButtonText feedbackText feedbackBoxHidden
       endScreenHidden finalScore].
  destruct (switch_view_shown views s); reflexivity.
Qed.

Lemma entered_probe_eq views p s :
  probe (entered views p s)
  = {| sweepDeg := sweepDeg (probe s);
       tailPosition := tailPosition (probe s);
       lastCellPos := Some p;
       currentViewIndex := index_on_entry s p |}.
Proof.
  unfold entered. rewrite show_switch_view_probe.
  unfold enter_cell, index_on_entry.
  change (lastCellPos_differs (clear_preview s) p)
    with (lastCellPos_differs s p).
  destruct (lastCellPos_differs s p) eqn:Ed; [reflexivity|].
  apply lastCellPos_differs_false in Ed.
  rewrite clear_preview_probe. destruct (probe s). simpl in *.
  rewrite Ed. reflexivity.
Qed.

Lemma entered_again views p s :
  entered views p (entered views p s) = entered views p s.
Proof.
  assert (Hi : index_on_entry (entered views p s) p = index_on_entry s p).
  { rewrite index_on_entry_remembered; apply entered_remembered. }
  assert (Hs : switch_view_shown views (entered views p s)
               = switch_view_shown views s)
    by (apply switch_view_shown_quiz, entered_quiz).
  apply State_ext.
  - rewrite !entered_quiz. reflexivity.
  - rewrite (entered_probe_eq views p (entered views p s)), Hi.
    rewrite (entered_probe_eq views p s). reflexivity.
  - rewrite (entered_display_eq views p (entered views p s)).
    rewrite (entered_display_eq views p s). reflexivity.
  - rewrite (entered_controls_eq views p (entered views p s)).
    unfold entered_controls at 1. rewrite Hs, Hi.
    rewrite (entered_controls_eq views p s). unfold entered_controls.
    cbn [toggleButtonText feedbackText feedbackBoxHidden endScreenHidden
         finalScore].
    destruct (switch_view_shown views s); reflexivity.
Qed.

Lemma updateImagePreview_closed L s cell :
  resolve L = Some cell ->
  views_at (pos cell) <> [] ->
  updateImagePreview L s
  = match view_at (views_at (pos cell)) (index_on_entry s (pos cell)) with
    | None => Throw (entered (views_at (pos cell)) (pos cell) s)
    | Some v => Normal (zone_state (views_at (pos cell)) (pos cell) v s)
    end.
Proof.
  intros Hr Hv. rewrite (updateImagePreview_views L s cell Hr Hv).
  rewrite (proj2 (entered_remembered _ _ _)).
  destruct (view_at _ _); [|reflexivity].
  rewrite shown_entered_closed. reflexivity.
Qed.

Lemma no_zone_state_again s :
  set_imagePanel PanelDropPrompt
    (resetProbe (clear_preview
       (set_imagePanel PanelDropPrompt (resetProbe (clear_preview s)))))
  = set_imagePanel PanelDropPrompt (resetProbe (clear_preview s)).
Proof. apply State_ext; reflexivity. Qed.

Lemma no_views_state_again s :
  set_imagePanel PanelInvalidPosition
    (clear_preview (set_imagePanel PanelInvalidPosition (clear_preview s)))
  = set_imagePanel PanelInvalidPosition (clear_preview s).
Proof. apply State_ext; reflexivity. Qed.

Lemma position_update_idempotent_helper (L : Layout) (s : State) :
  updateImagePreview L (state_of (updateImagePreview L s))
  = updateImagePreview L s.
Proof.
  destruct (resolve L) as [cell|] eqn:Hr.
  - destruct (views_at (pos cell)) as [|v0 vs] eqn:Ev.
    + rewrite (updateImagePreview_no_views L s cell Hr Ev). simpl state_of.
      rewrite (updateImagePreview_no_views L _ cell Hr Ev).
      rewrite no_views_state_again. reflexivity.
    + assert (Hv : views_at (pos cell) <> []) by (rewrite Ev; discriminate).
      rewrite (updateImagePreview_closed L s cell Hr Hv).
      destruct (view_at (views_at (pos cell)) (index_on_entry s (pos cell)))
        as [v|] eqn:Eview; simpl state_of.
      * rewrite (updateImagePreview_closed L _ cell Hr Hv).
        rewrite (index_on_entry_remembered (zone_state _ _ v s) (pos cell))
          by reflexivity.
        cbn [zone_state probe currentViewIndex]. rewrite Eview.
        rewrite zone_state_again. reflexivity.
      * rewrite (updateImagePreview_closed L _ cell Hr Hv).
        rewrite (index_on_entry_remembered (entered _ _ s) (pos cell))
          by apply entered_remembered.
        rewrite (proj2 (entered_remembered _ _ _)), Eview.
        rewrite entered_again. reflexivity.
  - rewrite (updateImagePreview_no_zone L s Hr). simpl state_of.
    rewrite (updateImagePreview_no_zone L _ Hr).
    rewrite no_zone_state_again. reflexivity.
Qed.


(** X7.  A position update under an unchanged layout is idempotent: a
    second update, from whatever state the first one left (also one it
    left by throwing), completes or throws as the first did and leaves
    exactly the state the first left; and so does any number of further
    updates. *)
Theorem position_update_idempotent (L : Layout) (s : State) (n : nat) :
  updateImagePreview L (state_of (updateImagePreview L s))
  = updateImagePreview L s /\
  run (repeat (MouseMove L) (S n)) s = state_of (updateImagePreview L s).
Proof.
  split; [apply position_update_idempotent_helper|].
  revert s. induction n as [|n IH]; intros s; [reflexivity|].
  change (run (repeat (MouseMove L) (S (S n))) s)
    with (run (repeat (MouseMove L) (S n))
              (state_of (updateImagePreview L s))).
  rewrite IH, position_update_idempotent_helper. reflexivity.
Qed.

(* ===================================================================== *)
(** ** The quiz variables on their own *)
(* ===================================================================== *)

Lemma loadQuestion_quiz L s : quiz (state_of (loadQuestion L s)) = quiz s.
Proof.
  unfold loadQuestion.
  destruct (nth_error quizData _); [apply updateImagePreview_quiz | reflexivity].
Qed.

Lemma enter_mode_quiz L s :
  quiz (state_of (initUI L s >>= updateImagePreview L >>= loadQuestion L))
  = quiz s.
Proof.
  apply bind_state_of with (P := fun t => quiz t = quiz s);
    [apply bind_state_of with (P := fun t => quiz t = quiz s)|].
  - unfold initUI.
    apply bind_state_of with (P := fun t => quiz t = quiz s).
    + apply loadQuestion_quiz.
    + intros t Ht. exact Ht.
  - intros t Ht. rewrite updateImagePreview_quiz. exact Ht.
  - intros t Ht. rewrite loadQuestion_quiz. exact Ht.
Qed.

Lemma circle_click_quiz p c s :
  quiz (state_of (circle_click p c s)) = quiz_after (CircleClick p c) (quiz s).
Proof.
  unfold circle_click, quiz_after, click_matches.
  destruct (isSandBoxActive (quiz s)) eqn:Hsb.
  - simpl. rewrite Hsb. reflexivity.
  - destruct (nth_error quizData (currentQuestionIndex (quiz s))) as [q|];
      [|reflexivity].
    destruct (Nat.eqb p (correctPosition q));
      destruct (String.eqb (answer c) (correctAnswer q));
      destruct (isFeedbackActive (quiz s));
      simpl; rewrite ?Hsb, ?Nat.add_0_r; reflexivity.
Qed.

Lemma handle_quiz e s :
  quiz (state_of (handle e s)) = quiz_after e (quiz s).
Proof.
  destruct e as [L|L|L| |L|L|L|p c| |L]; simpl handle.
  - unfold startButton_click. rewrite loadQuestion_quiz. reflexivity.
  - unfold sandBoxButton_click. cbv zeta. rewrite enter_mode_quiz. reflexivity.
  - unfold continueButton_click. cbv zeta. rewrite enter_mode_quiz. reflexivity.
  - reflexivity.
  - unfold restartButton_click. rewrite loadQuestion_quiz. reflexivity.
  - unfold mousemove. apply updateImagePreview_quiz.
  - unfold toggleButton_click. rewrite updateImagePreview_quiz. reflexivity.
  - apply circle_click_quiz.
  - unfold showAnswerButton_click.
    destruct (nth_error quizData _); reflexivity.
  - unfold nextQuestionButton_click. cbv zeta.
    destruct (nth_error quizData _).
    + rewrite loadQuestion_quiz. reflexivity.
    + reflexivity.
Qed.

(** X8.  After any listener, the quiz variables (score, question index,
    mode flags, feedback flag, started flag) are a function of the event
    and of their own values before.  For a click on a circle the event
    holds the position and the answer the circle was created with, and
    through them the zone the probe was over when the panel was drawn;
    apart from that, nothing of the probe variables, of the remembered
    zone, of the displays or of the controls enters.  Two states that
    agree on the quiz variables before an event agree on them after it,
    however else they differ. *)
Theorem quiz_variables_noninterference (e : Event) (s t : State) :
  quiz s = quiz t ->
  quiz (state_of (handle e s)) = quiz (state_of (handle e t)) /\
  quiz (state_of (handle e s)) = quiz_after e (quiz s).
Proof.
  intros H. rewrite !handle_quiz, H. split; reflexivity.
Qed.

Lemma quiz_variables_noninterference_witness :
  quiz (state_of (handle (MouseMove over_zone2) first_question))
  = quiz (state_of (handle (MouseMove over_zone2)
                      (run [MouseMove over_zone3] first_question))).
Proof.
  apply (proj1 (quiz_variables_noninterference
                  (MouseMove over_zone2) first_question
                  (run [MouseMove over_zone3] first_question)
                  ltac:(vm_compute; reflexivity))).
Defined.

Lemma quiz_after_bounded e q : score_bounded q -> score_bounded (quiz_after e q).
Proof.
  intros [Hmax Hquiz]. unfold score_bounded.
  change (List.length quizData) with 5 in *.
  destruct e as [L|L|L| |L|L|L|p c| |L]; simpl quiz_after;
    try (split; simpl; intros; try discriminate; try lia; auto; fail).
  - (* click on a circle *)
    destruct (isSandBoxActive q) eqn:Hsb.
    + split; simpl; [exact Hmax | intros H; congruence].
    + destruct (nth_error quizData (currentQuestionIndex q)) as [qd|] eqn:Hq.
      * assert (Hlt : currentQuestionIndex q < List.length quizData).
        { apply nth_error_Some. congruence. }
        change (List.length quizData) with 5 in Hlt.
        specialize (Hquiz eq_refl). revert Hquiz.
        destruct (isFeedbackActive q); intros Hquiz; simpl;
          rewrite ?andb_false_r, ?andb_true_r;
          destruct (click_matches qd p c); split; intros; lia.
      * split; [exact Hmax | intros _; apply Hquiz; reflexivity].
  - (* next question *)
    split; simpl; [exact Hmax|]. intros Hsb. specialize (Hquiz Hsb).
    revert Hquiz. destruct (isFeedbackActive q); intros Hquiz; lia.
Qed.

Lemma handle_final e s :
  finalScore (controls (state_of (handle e s))) = finalScore (controls s) \/
  finalScore (controls (state_of (handle e s)))
  = (nat_str (score (quiz s)) ++ " out of " ++
     nat_str (List.length quizData))%string.
Proof.
  destruct e as [L|L|L| |L|L|L|p c| |L].
  - left. simpl handle. unfold startButton_click.
    match goal with |- context [loadQuestion L ?t] =>
      destruct (progress_fields t _ (loadQuestion_progress L t))
        as (_ & _ & _ & _ & _ & ->) end.
    reflexivity.
  - left. simpl handle. unfold sandBoxButton_click. cbv zeta.
    apply bind_state_of
      with (P := fun t => finalScore (controls t) = finalScore (controls s));
      [apply bind_state_of
         with (P := fun t => finalScore (controls t) = finalScore (controls s));
       [unfold initUI;
        apply bind_state_of
          with (P := fun t => finalScore (controls t) = finalScore (controls s))
       |]|].
    + match goal with |- context [loadQuestion L ?t] =>
        destruct (progress_fields t _ (loadQuestion_progress L t))
          as (_ & _ & _ & _ & _ & ->) end.
      reflexivity.
    + intros t Ht. exact Ht.
    + intros t Ht. rewrite (proj2 (updateImagePreview_end L t)). exact Ht.
    + intros t Ht.
      destruct (progress_fields t _ (loadQuestion_progress L t))
        as (_ & _ & _ & _ & _ & ->).
      exact Ht.
  - left.
    destruct (progress_fields s _
                (within_question_progress (ContinueButton L) s eq_refl
                   ltac:(intros ? ?; discriminate)))
      as (_ & _ & _ & _ & _ & H).
    exact H.
  - left. reflexivity.
  - left. simpl handle. unfold restartButton_click.
    match goal with |- context [loadQuestion L ?t] =>
      destruct (progress_fields t _ (loadQuestion_progress L t))
        as (_ & _ & _ & _ & _ & ->) end.
    reflexivity.
  - left.
    destruct (progress_fields s _
                (within_question_progress (MouseMove L) s eq_refl
                   ltac:(intros ? ?; discriminate)))
      as (_ & _ & _ & _ & _ & H).
    exact H.
  - left.
    destruct (progress_fields s _
                (within_question_progress (ToggleButton L) s eq_refl
                   ltac:(intros ? ?; discriminate)))
      as (_ & _ & _ & _ & _ & H).
    exact H.
  - left. simpl handle. unfold circle_click.
    destruct (isSandBoxActive (quiz s)); [reflexivity|].
    destruct (nth_error quizData _); [|reflexivity].
    split_ifs; reflexivity.
  - left.
    destruct (progress_fields s _
                (within_question_progress ShowAnswerButton s eq_refl
                   ltac:(intros ? ?; discriminate)))
      as (_ & _ & _ & _ & _ & H).
    exact H.
  - simpl handle.
    pose proof (nextQuestionButton_click_progress L s) as Hp.
    change (finalScore (controls (state_of (nextQuestionButton_click L s))))
      with (p_final (progress (state_of (nextQuestionButton_click L s)))).
    rewrite Hp.
    destruct (nth_error quizData _); [left | right]; reflexivity.
Qed.

(** X9.  In every state reached from the loading of the page, by any
    events in any order, the score is at most the number of questions; in
    quiz mode it is at most the number of questions passed, plus one while
    feedback is shown; and the summary of the end screen, once written,
    reads [k out of total] with [k] at most the total. *)
Theorem score_never_exceeds_questions (d : Display) (c : Controls)
        (es : list Event) :
  let s := run es (initial d c) in
  score (quiz s) <= List.length quizData /\
  (isSandBoxActive (quiz s) = false ->
   score (quiz s) <= currentQuestionIndex (quiz s) +
                     (if isFeedbackActive (quiz s) then 1 else 0)) /\
  summary_bounded (finalScore c) s.
Proof.
  intros s. subst s.
  assert (H : score_bounded (quiz (run es (initial d c))) /\
              summary_bounded (finalScore c) (run es (initial d c))).
  { apply (run_inv (fun s => score_bounded (quiz s) /\
                             summary_bounded (finalScore c) s)).
    - intros e s [Hb Hs]. split.
      + rewrite handle_quiz. apply quiz_after_bounded, Hb.
      + destruct (handle_final e s) as [E|E].
        * unfold summary_bounded. rewrite E. exact Hs.
        * right. exists (score (quiz s)). split; [apply Hb | exact E].
    - split.
      + split; simpl; intros; lia.
      + left. reflexivity. }
  destruct H as [[H1 H2] H3]. auto.
Qed.

Lemma score_never_exceeds_questions_witness :
  score (quiz (run (play perfect_rounds ++ [CircleClick 3 circle_G])
                   (initial page_display page_controls))) <= 5.
Proof.
  apply (proj1 (score_never_exceeds_questions
                  page_display page_controls
                  (play perfect_rounds ++ [CircleClick 3 circle_G]))).
Defined.

(** X10.  The feedback flag, once set, is cleared by two listeners only:
    the next-question button, and a circle clicked in sandbox mode.  In
    particular leaving to the menu and starting the quiz again does not
    clear it: if feedback was active on leaving, no click on a circle of
    the first question scores, the right one included. *)
Theorem feedback_survives_exit (s : State) :
  isFeedbackActive (quiz s) = true ->
  (forall e,
      isFeedbackActive (quiz (state_of (handle e s))) = false ->
      (exists L, e = NextQuestionButton L) \/
      (exists p c, e = CircleClick p c /\ isSandBoxActive (quiz s) = true)) /\
  (forall L es,
      forallb within_question es = true ->
      score (quiz (run (ConfirmExitButton :: StartButton L :: es) s)) = 0 /\
      isFeedbackActive
        (quiz (run (ConfirmExitButton :: StartButton L :: es) s)) = true).
Proof.
  intros Hfb. split.
  - intros e He. rewrite handle_quiz in He.
    destruct e as [L|L|L| |L|L|L|p c| |L]; simpl in He; try congruence.
    + destruct (isSandBoxActive (quiz s)) eqn:Hsb.
      * right. exists p, c. auto.
      * destruct (nth_error quizData _); simpl in He; congruence.
    + left. exists L. reflexivity.
  - intros L es Hw.
    change (run (ConfirmExitButton :: StartButton L :: es) s)
      with (run es (state_of (handle (StartButton L)
                                (state_of (handle ConfirmExitButton s))))).
    set (s2 := state_of (handle (StartButton L)
                           (state_of (handle ConfirmExitButton s)))).
    assert (Hq : quiz s2
                 = quiz_after (StartButton L)
                     (quiz_after ConfirmExitButton (quiz s)))
      by (unfold s2; rewrite !handle_quiz; reflexivity).
    assert (Hsb2 : isSandBoxActive (quiz s2) = false)
      by (rewrite Hq; reflexivity).
    assert (Hfb2 : isFeedbackActive (quiz s2) = true)
      by (rewrite Hq; exact Hfb).
    pose proof (run_no_scoring es s2 Hw Hsb2 (or_introl Hfb2)) as Hp.
    destruct (progress_fields _ _ Hp) as (_ & -> & -> & _).
    split; [rewrite Hq; reflexivity | exact Hfb2].
Qed.

Lemma feedback_survives_exit_witness :
  score (quiz (run (ConfirmExitButton :: StartButton over_zone2
                      :: right_clicks_again) after_wrong_click)) = 0.
Proof.
  apply (proj2 (feedback_survives_exit
                  after_wrong_click ltac:(vm_compute; reflexivity))
               over_zone2 right_clicks_again).
  reflexivity.
Defined.

Lemma in_sandbox_step e s :
  in_sandbox e = true ->
  isSandBoxActive (quiz s) = true ->
  view_index_ok s ->
  is_normal (handle e s) = true /\
  view_index_ok (state_of (handle e s)) /\
  currentQuestionIndex (quiz (state_of (handle e s)))
  = currentQuestionIndex (quiz s) /\
  score (quiz (state_of (handle e s))) = score (quiz s) /\
  isSandBoxActive (quiz (state_of (handle e s))) = true.
Proof.
  intros He Hsb Hok.
  split; [|split].
  - destruct e as [L|L|L| |L|L|L|p c| |L]; try discriminate He; simpl handle.
    + apply updateImagePreview_completes, Hok.
    + apply updateImagePreview_completes.
      apply (index_ok_cycle _ _ Hok).
    + unfold circle_click. rewrite Hsb. reflexivity.
  - apply (handle_remembered index_ok);
      [exact index_ok_enter | exact index_ok_cycle | exact index_ok_restart
       | exact Hok].
  - rewrite handle_quiz.
    destruct e as [L|L|L| |L|L|L|p c| |L]; try discriminate He;
      simpl quiz_after; rewrite ?Hsb; auto.
Qed.

(** X11.  Sandbox mode bypasses the quiz.  While it is active and the
    view index is valid, position updates, clicks on the switch-view
    button and clicks on circles, in any number and order, leave score and
    question index as they were, leave sandbox mode active and keep the
    view index valid.  A click on a circle runs to completion, writes the
    circle's text to the part display, hides the feedback box, clears the
    feedback flag and leaves the feedback text alone, whether or not a
    question is current. *)
Theorem sandbox_bypasses_quiz (s : State) (es : list Event) :
  isSandBoxActive (quiz s) = true ->
  view_index_ok s ->
  forallb in_sandbox es = true ->
  (score (quiz (run es s)) = score (quiz s) /\
   currentQuestionIndex (quiz (run es s)) = currentQuestionIndex (quiz s) /\
   isSandBoxActive (quiz (run es s)) = true /\
   view_index_ok (run es s)) /\
  (forall p c,
      exists s',
        circle_click p c s = Normal s' /\
        partDisplay (display s') = text c /\
        feedbackBoxHidden (controls s') = true /\
        isFeedbackActive (quiz s') = false /\
        feedbackText (controls s') = feedbackText (controls s)).
Proof.
  intros Hsb Hok Hes. split.
  - revert s Hsb Hok. unfold run.
    induction es as [|e es IH]; intros s Hsb Hok; simpl; [auto|].
    simpl in Hes. apply andb_prop in Hes as [He Hes].
    destruct (in_sandbox_step e s He Hsb Hok) as (_ & Hok' & Hi & Hsc & Hsb').
    destruct (IH Hes _ Hsb' Hok') as (-> & -> & -> & Hok'').
    auto.
  - intros p c. unfold circle_click. rewrite Hsb.
    eexists. split; [reflexivity|]. repeat split.
Qed.

Lemma sandbox_bypasses_quiz_witness :
  score (quiz (run [MouseMove over_zone2; CircleClick 2 circle_G;
                    ToggleButton over_zone2; CircleClick 2 circle_G]
                   sandbox_entered))
  = score (quiz sandbox_entered).
Proof.
  apply (proj1 (sandbox_bypasses_quiz
                  sandbox_entered
                  [MouseMove over_zone2; CircleClick 2 circle_G;
                   ToggleButton over_zone2; CircleClick 2 circle_G]
                  ltac:(vm_compute; reflexivity)
                  ltac:(intros p Hp; vm_compute in Hp; discriminate Hp)
                  eq_refl)).
Defined.

Lemma completes_bind (c : Completion State) (f : State -> Completion State) :
  is_normal c = true ->
  is_normal (f (state_of c)) = true ->
  is_normal (c >>= f) = true.
Proof. destruct c; simpl; [auto | discriminate]. Qed.

Lemma state_of_bind (c : Completion State) (f : State -> Completion State) :
  is_normal c = true -> state_of (c >>= f) = state_of (f (state_of c)).
Proof. destruct c; simpl; [reflexivity | discriminate]. Qed.

Lemma initUI_completes L s :
  view_index_ok s ->
  is_normal (initUI L s) = true /\ view_index_ok (state_of (initUI L s)).
Proof.
  intros Hok. split.
  - unfold initUI. apply completes_bind.
    + apply loadQuestion_completes, Hok.
    + reflexivity.
  - apply (initUI_remembered index_ok);
      [exact index_ok_enter | exact Hok].
Qed.

Lemma enter_mode_completes L s :
  view_index_ok s ->
  is_normal (initUI L s >>= updateImagePreview L >>= loadQuestion L) = true.
Proof.
  intros Hok. destruct (initUI_completes L s Hok) as [Hn Hok1].
  apply completes_bind.
  - apply completes_bind; [exact Hn|].
    apply updateImagePreview_completes, Hok1.
  - apply loadQuestion_completes.
    rewrite state_of_bind by exact Hn.
    apply (updateImagePreview_remembered index_ok);
      [exact index_ok_enter | exact Hok1].
Qed.

Lemma handle_throws e s :
  view_index_ok s ->
  is_normal (handle e s) = false ->
  nth_error quizData (currentQuestionIndex (quiz s)) = None /\
  (e = ShowAnswerButton \/
   exists p c, e = CircleClick p c /\ isSandBoxActive (quiz s) = false) /\
  handle e s = Throw s.
Proof.
  intros Hok Hthrow.
  destruct e as [L|L|L| |L|L|L|p c| |L]; simpl handle in *.
  - unfold startButton_click in Hthrow.
    rewrite loadQuestion_completes in Hthrow by exact Hok. discriminate.
  - unfold sandBoxButton_click in Hthrow. cbv zeta in Hthrow.
    rewrite enter_mode_completes in Hthrow by exact Hok. discriminate.
  - unfold continueButton_click in Hthrow. cbv zeta in Hthrow.
    rewrite enter_mode_completes in Hthrow by exact Hok. discriminate.
  - discriminate.
  - unfold restartButton_click in Hthrow.
    rewrite loadQuestion_completes in Hthrow by exact index_ok_restart.
    discriminate.
  - unfold mousemove in Hthrow.
    rewrite updateImagePreview_completes in Hthrow by exact Hok. discriminate.
  - unfold toggleButton_click in Hthrow.
    rewrite updateImagePreview_completes in Hthrow
      by apply (index_ok_cycle _ _ Hok).
    discriminate.
  - unfold circle_click in *.
    destruct (isSandBoxActive (quiz s)) eqn:Hsb; [discriminate|].
    destruct (nth_error quizData _) eqn:Hq; [discriminate|].
    split; [reflexivity|]. split; [|reflexivity].
    right. exists p, c. auto.
  - unfold showAnswerButton_click in *.
    destruct (nth_error quizData _) eqn:Hq; [discriminate|].
    auto.
  - unfold nextQuestionButton_click in Hthrow. cbv zeta in Hthrow.
    destruct (nth_error quizData _); [|discriminate].
    rewrite loadQuestion_completes in Hthrow by exact Hok. discriminate.
Qed.

(* ===================================================================== *)
(** ** Restart, the label of the switch-view button, entering a mode *)
(* ===================================================================== *)

Lemma index_on_entry_ok s p :
  view_index_ok s ->
  views_at p <> [] ->
  exists n v, index_on_entry s p = Fin n /\
              n < List.length (views_at p) /\
              nth_error (views_at p) n = Some v /\
              view_at (views_at p) (index_on_entry s p) = Some v.
Proof.
  intros Hok Hv. unfold index_on_entry.
  destruct (lastCellPos_differs s p) eqn:Ed.
  - destruct (views_at p) as [|v0 vs] eqn:Ev; [congruence|].
    exists 0, v0. repeat split; [simpl; lia | apply view_at_first].
  - apply lastCellPos_differs_false in Ed.
    destruct (Hok p Ed) as (n & Hn & Hlt). simpl in Hn.
    destruct (view_at_in_range _ n Hlt) as (Hva & v & Hnth).
    exists n, v. rewrite Hn. repeat split; congruence.
Qed.

(** The listener of the restart button up to its call of
    [updateRope()]. *)
Lemma restartButton_click_resets (L : Layout) (s : State) :
  exists s',
    restartButton_click L s = Normal s' /\
    currentQuestionIndex (quiz s') = 0 /\
    score (quiz s') = 0 /\
    currentViewIndex (probe s') = Fin 0 /\
    endScreenHidden (controls s') = true /\
    isFeedbackActive (quiz s') = isFeedbackActive (quiz s) /\
    isSimulatorActive (quiz s') = isSimulatorActive (quiz s) /\
    isSandBoxActive (quiz s') = isSandBoxActive (quiz s) /\
    gameStarted (quiz s') = gameStarted (quiz s) /\
    match resolve L with
    | Some cell =>
        match views_at (pos cell) with
        | v0 :: _ => lastCellPos (probe s') = Some (pos cell) /\
                     sweepDeg (probe s') = angle v0 /\
                     tailPosition (probe s') = tail v0
        | [] => lastCellPos (probe s') = None /\
                sweepDeg (probe s') = 90%Z /\
                tailPosition (probe s') = down
        end
    | None => lastCellPos (probe s') = None /\
              sweepDeg (probe s') = 90%Z /\
              tailPosition (probe s') = down
    end.
Proof.
  unfold restartButton_click, loadQuestion. cbv zeta.
  match goal with
  | |- context [nth_error quizData (currentQuestionIndex (quiz ?t))] =>
      change (nth_error quizData (currentQuestionIndex (quiz t)))
        with (nth_error quizData 0);
      set (s0 := t)
  end.
  simpl nth_error. cbv iota.
  destruct (resolve L) as [cell|] eqn:Hr.
  - destruct (views_at (pos cell)) as [|v0 vs] eqn:Ev.
    + rewrite (updateImagePreview_no_views L s0 cell Hr Ev).
      eexists. split; [reflexivity|]. repeat split.
    + assert (Hv : views_at (pos cell) <> []) by (rewrite Ev; discriminate).
      rewrite (updateImagePreview_closed L s0 cell Hr Hv).
      assert (Hi : index_on_entry s0 (pos cell) = Fin 0) by reflexivity.
      rewrite Hi, Ev, view_at_first.
      eexists. split; [reflexivity|].
      unfold zone_state. cbn [quiz probe controls currentViewIndex lastCellPos
                              sweepDeg tailPosition].
      rewrite Hi. unfold entered_controls. cbn [endScreenHidden].
      repeat split.
  - rewrite (updateImagePreview_no_zone L s0 Hr).
    eexists. split; [reflexivity|]. repeat split.
Qed.

(** X14.  When a position update from a state with a valid view index
    leaves the switch-view button visible, the button reads
    [Switch View (k/n)], where [n] is the number of views of the zone and
    [k], the view index plus one, lies between 1 and [n]. *)
Theorem switch_view_label_in_range (L : Layout) (s : State) (cell : Cell) :
  resolve L = Some cell ->
  views_at (pos cell) <> [] ->
  view_index_ok s ->
  toggleButtonHidden (controls (state_of (updateImagePreview L s))) = false ->
  exists k,
    1 <= k <= List.length (views_at (pos cell)) /\
    currentViewIndex (probe (state_of (updateImagePreview L s))) = Fin (k - 1) /\
    toggleButtonText (controls (state_of (updateImagePreview L s)))
    = ("Switch View (" ++ nat_str k ++ "/" ++
       nat_str (List.length (views_at (pos cell))) ++ ")")%string.
Proof.
  intros Hr Hv Hok.
  destruct (index_on_entry_ok s (pos cell) Hok Hv)
    as (n & v & Hn & Hlt & _ & Hview).
  rewrite (updateImagePreview_closed L s cell Hr Hv), Hview.
  simpl state_of. unfold zone_state, entered_controls.
  cbn [controls probe toggleButtonHidden toggleButtonText currentViewIndex].
  intros Hshown. apply negb_false_iff in Hshown. rewrite Hshown, Hn.
  exists (n + 1). split; [lia|]. split.
  - f_equal. lia.
  - reflexivity.
Qed.

Lemma switch_view_label_in_range_witness :
  exists k,
    1 <= k <= List.length (views_at (pos zone2)) /\
    currentViewIndex
      (probe (state_of (updateImagePreview over_zone2
                          (set_isSimulatorActive true cycled_once))))
    = Fin (k - 1) /\
    toggleButtonText
      (controls (state_of (updateImagePreview over_zone2
                             (set_isSimulatorActive true cycled_once))))
    = ("Switch View (" ++ nat_str k ++ "/" ++
       nat_str (List.length (views_at (pos zone2))) ++ ")")%string.
Proof.
  apply (switch_view_label_in_range
           over_zone2 (set_isSimulatorActive true cycled_once) zone2).
  - vm_compute. reflexivity.
  - simpl. discriminate.
  - intros p Hp. vm_compute in Hp. injection Hp as <-.
    exists 1. split; [vm_compute; reflexivity | simpl; lia].
  - vm_compute. reflexivity.
Defined.

Lemma zone_state_ext views p v s t :
  quiz t = quiz s ->
  index_on_entry t p = index_on_entry s p ->
  controls t = controls s ->
  zone_state views p v t = zone_state views p v s.
Proof.
  intros Hq Hi Hc. unfold zone_state, entered_controls.
  rewrite (switch_view_shown_quiz views s t Hq), Hq, Hi, Hc. reflexivity.
Qed.

(** The assignments [initUI] makes after its call of [loadQuestion]. *)
Lemma update_after_initUI_assignments L s :
  view_index_ok s ->
  (forall cell, resolve L = Some cell -> views_at (pos cell) <> []) ->
  exists z,
    updateImagePreview L s = Normal z /\
    updateImagePreview L
      (set_viewDisplay "-"
         (set_tailDisplay "Tail Down"
            (set_rotationDisplay "3 o'clock" (set_sweepDeg 90 z))))
    = Normal z.
Proof.
  intros Hok Hviews.
  destruct (resolve L) as [cell|] eqn:Hr.
  - pose proof (Hviews cell eq_refl) as Hv.
    destruct (index_on_entry_ok s (pos cell) Hok Hv)
      as (n & v & Hn & Hlt & _ & Hview).
    rewrite (updateImagePreview_closed L s cell Hr Hv), Hview.
    eexists. split; [reflexivity|].
    rewrite (updateImagePreview_closed L _ cell Hr Hv).
    match goal with
    | |- context [index_on_entry ?t (pos cell)] =>
        assert (Hi : index_on_entry t (pos cell) = index_on_entry s (pos cell))
          by (rewrite (index_on_entry_remembered t (pos cell)) by reflexivity;
              reflexivity)
    end.
    rewrite Hi, Hview. f_equal.
    rewrite <- (zone_state_again (views_at (pos cell)) (pos cell) v s) at 2.
    apply zone_state_ext; [reflexivity | | reflexivity].
    rewrite Hi. symmetry.
    apply index_on_entry_remembered. reflexivity.
  - rewrite (updateImagePreview_no_zone L s Hr).
    eexists. split; [reflexivity|].
    rewrite (updateImagePreview_no_zone L _ Hr).
    f_equal; apply State_ext; reflexivity.
Qed.

Lemma enter_mode_one_update L s :
  nth_error quizData (currentQuestionIndex (quiz s)) <> None ->
  view_index_ok s ->
  (forall cell, resolve L = Some cell -> views_at (pos cell) <> []) ->
  initUI L s >>= updateImagePreview L >>= loadQuestion L
  = updateImagePreview L s.
Proof.
  intros Hq Hok Hviews.
  destruct (update_after_initUI_assignments L s Hok Hviews) as (z & E & E2).
  assert (Hload : forall t, quiz t = quiz s ->
                            loadQuestion L t = updateImagePreview L t).
  { intros t Ht. unfold loadQuestion. rewrite Ht.
    destruct (nth_error quizData (currentQuestionIndex (quiz s)));
      [reflexivity | congruence]. }
  unfold initUI. rewrite (Hload s eq_refl), E.
  cbn [bind]. rewrite E2. cbn [bind].
  assert (Hz : quiz z = quiz s).
  { pose proof (updateImagePreview_quiz L s) as H. rewrite E in H. exact H. }
  rewrite (Hload z Hz).
  pose proof (position_update_idempotent_helper L s) as Hidem.
  rewrite E in Hidem. exact Hidem.
Qed.

(** X15.  While a question is current and the probe is not over a zone
    without views, the continue button amounts to setting its two flags
    and one position update, and the sandbox button likewise: the three
    position updates they trigger and the default orientation [initUI]
    writes in between leave nothing else behind. *)
Theorem entering_mode_is_one_update (L : Layout) (s : State) :
  nth_error quizData (currentQuestionIndex (quiz s)) <> None ->
  view_index_ok s ->
  (forall cell, resolve L = Some cell -> views_at (pos cell) <> []) ->
  continueButton_click L s
  = updateImagePreview L
      (set_isSimulatorActive true (set_feedbackBoxHidden true s)) /\
  sandBoxButton_click L s
  = updateImagePreview L
      (set_isSandBoxActive true (set_isSimulatorActive false s)).
Proof.
  intros Hq Hok Hviews. split.
  - unfold continueButton_click. cbv zeta.
    apply enter_mode_one_update; assumption.
  - unfold sandBoxButton_click. cbv zeta.
    apply enter_mode_one_update; assumption.
Qed.

Lemma entering_mode_is_one_update_witness :
  continueButton_click over_zone2 quiz_started
  = updateImagePreview over_zone2
      (set_isSimulatorActive true (set_feedbackBoxHidden true quiz_started)).
Proof.
  apply (proj1 (entering_mode_is_one_update over_zone2 quiz_started
                  ltac:(vm_compute; discriminate)
                  ltac:(intros p Hp; vm_compute in Hp; discriminate Hp)
                  ltac:(intros cell Hc; vm_compute in Hc;
                        injection Hc as <-; vm_compute; discriminate))).
Defined.

(* ===================================================================== *)
(** ** The tables agree with each other *)
(* ===================================================================== *)

Lemma views_have_images p v :
  In v (views_at p) ->
  exists src, panel_for p v
              = PanelImage src p (circles_at (key_of (angle v) (tail v)) p).
Proof.
  intros Hin.
  do 5 (destruct p as [|p];
        [simpl in Hin;
         repeat (destruct Hin as [<-|Hin];
                 [eexists; vm_compute; reflexivity|]);
         contradiction|]).
  simpl in Hin. contradiction.
Qed.

Lemma view_at_In views i v : view_at views i = Some v -> In v views.
Proof.
  unfold view_at. destruct (num_rem i (List.length views)); [|discriminate].
  apply nth_error_In.
Qed.

(** The panel after a position update. *)
Lemma updateImagePreview_panel_cases L s :
  let panel := imagePanel (display (state_of (updateImagePreview L s))) in
  panel = PanelDropPrompt \/ panel = PanelInvalidPosition \/
  panel = PanelEmpty \/
  exists p v, In v (views_at p) /\ panel = panel_for p v.
Proof.
  intros panel. subst panel.
  destruct (resolve L) as [cell|] eqn:Hr.
  - destruct (views_at (pos cell)) as [|v0 vs] eqn:Ev.
    + rewrite (updateImagePreview_no_views L s cell Hr Ev). auto.
    + assert (Hv : views_at (pos cell) <> []) by (rewrite Ev; discriminate).
      rewrite (updateImagePreview_closed L s cell Hr Hv).
      destruct (view_at _ _) as [v|] eqn:Eview; simpl state_of.
      * right. right. right. exists (pos cell), v.
        split; [apply (view_at_In _ _ _ Eview) | reflexivity].
      * rewrite entered_panel. auto.
  - rewrite (updateImagePreview_no_zone L s Hr). auto.
Qed.

(** After a listener the panel is as before, or as some position update
    left it. *)
Lemma handle_panel_cases e s :
  imagePanel (display (state_of (handle e s))) = imagePanel (display s) \/
  exists L t, imagePanel (display (state_of (handle e s)))
              = imagePanel (display (state_of (updateImagePreview L t))).
Proof.
  assert (Hload : forall L t,
             state_of (loadQuestion L t) = t \/
             state_of (loadQuestion L t) = state_of (updateImagePreview L t)).
  { intros L t. unfold loadQuestion.
    destruct (nth_error quizData _); auto. }
  assert (Hmode : forall L t,
             exists u, imagePanel
                         (display (state_of (initUI L t
                                             >>= updateImagePreview L
                                             >>= loadQuestion L)))
                       = imagePanel
                           (display (state_of (updateImagePreview L u)))).
  { intros L t. destruct (initUI L t) as [a|a] eqn:E1; unfold bind at 2.
    - destruct (updateImagePreview L a) as [b|b] eqn:E2; unfold bind.
      + destruct (Hload L b) as [-> | ->].
        * exists a. rewrite E2. reflexivity.
        * exists b. reflexivity.
      + exists a. rewrite E2. reflexivity.
    - unfold bind. simpl state_of. unfold initUI in E1.
      destruct (loadQuestion L t) as [b|b] eqn:E0;
        [unfold bind in E1; discriminate|].
      unfold bind in E1. injection E1 as <-.
      unfold loadQuestion in E0.
      destruct (nth_error quizData _); [|discriminate].
      exists t. rewrite E0. reflexivity. }
  destruct e as [L|L|L| |L|L|L|p c| |L]; simpl handle.
  - unfold startButton_click.
    match goal with |- context [loadQuestion L ?t] =>
      destruct (Hload L t) as [-> | ->] end;
      [left; reflexivity | right; eauto].
  - right. unfold sandBoxButton_click. cbv zeta.
    match goal with |- context [initUI L ?t] =>
      destruct (Hmode L t) as (u & ->) end.
    eauto.
  - right. unfold continueButton_click. cbv zeta.
    match goal with |- context [initUI L ?t] =>
      destruct (Hmode L t) as (u & ->) end.
    eauto.
  - left. reflexivity.
  - unfold restartButton_click.
    match goal with |- context [loadQuestion L ?t] =>
      destruct (Hload L t) as [-> | ->] end;
      [left; reflexivity | right; eauto].
  - right. unfold mousemove. eauto.
  - right. unfold toggleButton_click. eauto.
  - left. unfold circle_click.
    destruct (isSandBoxActive (quiz s)); [reflexivity|].
    destruct (nth_error quizData _); [|reflexivity].
    split_ifs; reflexivity.
  - left. unfold showAnswerButton_click.
    destruct (nth_error quizData _); reflexivity.
  - unfold nextQuestionButton_click. cbv zeta.
    destruct (nth_error quizData _).
    + match goal with |- context [loadQuestion L ?t] =>
        destruct (Hload L t) as [-> | ->] end;
        [left; reflexivity | right; eauto].
    + left. reflexivity.
Qed.

(** X16.  Every view of every zone has an image in the image table, so
    the placeholder [No image for key ...] is never shown: in no state
    reached from the loading of the page, by any events under any
    layouts, is it the content of the image panel. *)
Theorem no_image_placeholder_unreachable
        (d : Display) (c : Controls) (es : list Event) :
  (forall p v, In v (views_at p) ->
               imageSet_at (key_of (angle v) (tail v)) p <> None) /\
  ((forall k p, imagePanel d <> PanelNoImage k p) ->
   forall k p,
     imagePanel (display (run es (initial d c))) <> PanelNoImage k p).
Proof.
  split.
  - intros p v Hin. destruct (views_have_images p v Hin) as (src & H).
    unfold panel_for in H. destruct (imageSet_at _ _); [discriminate|].
    discriminate H.
  - intros Hd.
    apply (run_inv (fun s => forall k p,
                        imagePanel (display s) <> PanelNoImage k p)).
    + intros e s Hs k p.
      destruct (handle_panel_cases e s) as [-> | (L & t & ->)]; [apply Hs|].
      destruct (updateImagePreview_panel_cases L t)
        as [-> | [-> | [-> | (p' & v & Hin & ->)]]]; try discriminate.
      destruct (views_have_images p' v Hin) as (src & ->). discriminate.
    + exact Hd.
Qed.

Lemma no_image_placeholder_unreachable_witness :
  imagePanel
    (display (run (StartButton off_zones :: play perfect_rounds)
                  (initial page_display page_controls)))
  <> PanelNoImage "300_up" 2.
Proof.
  apply (proj2 (no_image_placeholder_unreachable
                  page_display page_controls
                  (StartButton off_zones :: play perfect_rounds))).
  intros k p. simpl. discriminate.
Defined.

(* ===================================================================== *)
(** ** Every question can be answered *)
(* ===================================================================== *)

Lemma updateImagePreview_showing_view L s cell :
  view_index_ok s ->
  resolve L = Some cell ->
  views_at (pos cell) <> [] ->
  exists s', updateImagePreview L s = Normal s' /\
             showing_view (pos cell) s' /\ quiz s' = quiz s.
Proof.
  intros Hok Hr Hv.
  destruct (index_on_entry_ok s (pos cell) Hok Hv)
    as (n & v & Hi & Hlt & Hnth & Hview).
  rewrite (updateImagePreview_closed L s cell Hr Hv), Hview.
  eexists. split; [reflexivity|]. split; [|reflexivity].
  split; [reflexivity|]. exists n, v.
  repeat split; try reflexivity; assumption.
Qed.

Lemma showing_view_ok p s : showing_view p s -> view_index_ok s.
Proof.
  intros (Hl & n & v & Hi & Hnth & _) p' Hp'.
  unfold remembered in *. cbn [fst snd] in *.
  rewrite Hl in Hp'. injection Hp' as <-.
  exists n. split; [exact Hi|].
  apply nth_error_Some. rewrite Hnth. discriminate.
Qed.

Lemma toggleButton_click_showing_view L s cell :
  resolve L = Some cell ->
  showing_view (pos cell) s ->
  exists s', toggleButton_click L s = Normal s' /\
             showing_view (pos cell) s' /\ quiz s' = quiz s.
Proof.
  intros Hr Hs.
  assert (Hv : views_at (pos cell) <> []).
  { destruct Hs as (_ & n & v & _ & Hnth & _).
    intros E. rewrite E in Hnth. destruct n; discriminate. }
  unfold toggleButton_click.
  match goal with |- context [updateImagePreview L ?t] => set (s1 := t) end.
  assert (Hok1 : view_index_ok s1).
  { apply (index_ok_cycle _ _ (showing_view_ok _ _ Hs)). }
  destruct (updateImagePreview_showing_view L s1 cell Hok1 Hr Hv)
    as (s' & E & Hs' & Hq).
  exists s'. split; [exact E|]. split; [exact Hs' | exact Hq].
Qed.

Lemma cycle_times_showing_view L k s cell :
  resolve L = Some cell ->
  showing_view (pos cell) s ->
  showing_view (pos cell) (cycle_times L k s) /\
  quiz (cycle_times L k s) = quiz s.
Proof.
  intros Hr Hs. induction k as [|k [IHs IHq]].
  - split; [exact Hs | reflexivity].
  - unfold cycle_times in *. simpl Nat.iter.
    destruct (toggleButton_click_showing_view L _ cell Hr IHs)
      as (s' & E & Hs' & Hq).
    rewrite E. simpl state_of. split; [exact Hs'|].
    rewrite Hq. exact IHq.
Qed.

(** For each question, a view of its position shows a circle that carries
    its answer; the view is the one the question's key names. *)
Lemma question_has_circle q :
  In q quizData ->
  exists i v c,
    nth_error (views_at (correctPosition q)) i = Some v /\
    key_of (angle v) (tail v) = key q /\
    In c (circles_at (key q) (correctPosition q)) /\
    answer c = correctAnswer q.
Proof.
  intros Hin.
  assert (Hall :
            forallb
              (fun q =>
                 existsb (fun v => String.eqb (key_of (angle v) (tail v))
                                              (key q))
                         (views_at (correctPosition q)) &&
                 existsb (fun c => String.eqb (answer c) (correctAnswer q))
                         (circles_at (key q) (correctPosition q)))
              quizData = true) by (vm_compute; reflexivity).
  rewrite forallb_forall in Hall. specialize (Hall q Hin).
  apply andb_true_iff in Hall. destruct Hall as [Hview Hcircle].
  apply existsb_exists in Hview. destruct Hview as (v & Hv & Hkey).
  apply existsb_exists in Hcircle. destruct Hcircle as (c & Hc & Hans).
  apply String.eqb_eq in Hkey, Hans.
  destruct (In_nth_error _ _ Hv) as (i & Hi).
  exists i, v, c. auto.
Qed.

(** X17.  Every question of the quiz can be answered.  In simulator mode,
    with question [q] current and not yet answered, and the probe over a
    zone with the question's position: after the position update and
    fewer clicks on the switch-view button than the zone has views, the
    probe has the sweep angle and tail position that the question's key
    names, the panel shows the image of that view with a circle carrying
    the correct answer, and a click on that circle raises the score by
    1. *)
Theorem every_question_answerable
        (L : Layout) (cell : Cell) (s : State) (q : Question) :
  view_index_ok s ->
  isSandBoxActive (quiz s) = false ->
  isFeedbackActive (quiz s) = false ->
  nth_error quizData (currentQuestionIndex (quiz s)) = Some q ->
  resolve L = Some cell ->
  pos cell = correctPosition q ->
  exists k c,
    k < List.length (views_at (correctPosition q)) /\
    let t := cycle_times L k (state_of (updateImagePreview L s)) in
    key_of (sweepDeg (probe t)) (tailPosition (probe t)) = key q /\
    (exists src cs,
        imagePanel (display t) = PanelImage src (correctPosition q) cs /\
        In c cs) /\
    answer c = correctAnswer q /\
    score (quiz (state_of (circle_click (correctPosition q) c t)))
    = score (quiz s) + 1.
Proof.
  intros Hok Hsb Hfb Hq Hr Hp.
  destruct (question_has_circle q (nth_error_In _ _ Hq))
    as (i & v & c & Hnth & Hkey & Hc & Hans).
  set (p := correctPosition q) in *.
  set (len := List.length (views_at p)).
  assert (Hi : i < len).
  { apply nth_error_Some. rewrite Hnth. discriminate. }
  assert (Hv : views_at (pos cell) <> []).
  { rewrite Hp. intros E. rewrite E in Hnth. destruct i; discriminate. }
  destruct (updateImagePreview_showing_view L s cell Hok Hr Hv)
    as (s0 & E0 & Hs0 & Hq0).
  rewrite E0. simpl state_of.
  destruct Hs0 as (Hl0 & n0 & v0 & Hi0 & Hnth0 & Hrest0).
  assert (Hn0 : n0 < len).
  { unfold len. rewrite <- Hp. apply nth_error_Some.
    rewrite Hnth0. discriminate. }
  set (k := (i + len - n0) mod len).
  assert (Hk : (n0 + k) mod len = i).
  { unfold k. rewrite Nat.Div0.add_mod_idemp_r.
    replace (n0 + (i + len - n0)) with (i + 1 * len) by lia.
    rewrite Nat.Div0.mod_add. apply Nat.mod_small, Hi. }
  destruct (cycle_times_index L s0 cell n0 k Hr Hl0 Hi0) as [_ Hidx].
  { rewrite Hp. exact Hn0. }
  destruct (cycle_times_showing_view L k s0 cell Hr)
    as [(_ & n & v' & Hin & Hnth' & Hsw & Htl & Hpanel) Hquiz].
  { split; [exact Hl0|]. exists n0, v0. auto. }
  rewrite Hp in Hidx, Hnth', Hpanel. fold len in Hidx.
  rewrite Hk in Hidx. rewrite Hidx in Hin. injection Hin as <-.
  rewrite Hnth in Hnth'. injection Hnth' as <-.
  exists k, c. split; [apply Nat.mod_upper_bound; lia|].
  cbv zeta. set (t := cycle_times L k s0) in *.
  split; [rewrite Hsw, Htl; exact Hkey|].
  split.
  - destruct (views_have_images p v (nth_error_In _ _ Hnth)) as (src & Hpf).
    exists src, (circles_at (key_of (angle v) (tail v)) p).
    split; [rewrite Hpanel; exact Hpf|]. rewrite Hkey. exact Hc.
  - split; [exact Hans|].
    assert (Hsbt : isSandBoxActive (quiz t) = false)
      by (rewrite Hquiz, Hq0; exact Hsb).
    assert (Hqt : nth_error quizData (currentQuestionIndex (quiz t)) = Some q)
      by (rewrite Hquiz, Hq0; exact Hq).
    destruct (circle_click_progress p c t q Hsbt Hqt) as (s' & E & Hprog).
    rewrite E. simpl state_of.
    apply (f_equal p_score) in Hprog. unfold progress in Hprog.
    cbn [p_score] in Hprog. rewrite Hprog.
    unfold click_matches. fold p. rewrite Nat.eqb_refl, Hans, String.eqb_refl.
    rewrite Hquiz, Hq0, Hfb. reflexivity.
Qed.

Lemma every_question_answerable_witness :
  exists k c,
    k < List.length (views_at (correctPosition question1)) /\
    let t := cycle_times over_zone2 k
               (state_of (updateImagePreview over_zone2 first_question)) in
    key_of (sweepDeg (probe t)) (tailPosition (probe t)) = key question1 /\
    (exists src cs,
        imagePanel (display t)
        = PanelImage src (correctPosition question1) cs /\ In c cs) /\
    answer c = correctAnswer question1 /\
    score (quiz (state_of (circle_click (correctPosition question1) c t)))
    = score (quiz first_question) + 1.
Proof.
  apply (every_question_answerable over_zone2 zone2 first_question question1).
  - intros p Hp. vm_compute in Hp. discriminate Hp.
  - vm_compute. reflexivity.
  - vm_compute. reflexivity.
  - vm_compute. reflexivity.
  - vm_compute. reflexivity.
  - reflexivity.
Defined.

(* ===================================================================== *)
(** ** The rope path *)
(* ===================================================================== *)

Local Open Scope R_scope.





Lemma num_eqb_2 i : num_eqb i 2 = true <-> i = Fin 2.
Proof.
  destruct i as [n|]; simpl.
  - rewrite Nat.eqb_eq. split; congruence.
  - split; discriminate.
Qed.

(** In a state reached from the loading of the page, index 2 is the third
    view of position 2. *)
Lemma index_2_at_position_2 d c es :
  currentViewIndex (probe (run es (initial d c))) = Fin 2 ->
  lastCellPos (probe (run es (initial d c))) = Some 2%nat.
Proof.
  set (s := run es (initial d c)). intros H2.
  assert (Hok : view_index_ok s).
  { apply (run_remembered index_ok);
      [exact index_ok_enter | exact index_ok_cycle | exact index_ok_restart |].
    exact index_ok_restart. }
  assert (Hunset : view_index_unset s).
  { apply (run_remembered index_unset);
      [exact index_unset_enter | exact index_unset_cycle
       | exact index_unset_restart |].
    exact index_unset_restart. }
  destruct (lastCellPos (probe s)) as [p|] eqn:El.
  - destruct (Hok p El) as (n & Hn & Hlt). cbn [snd remembered] in Hn.
    rewrite Hn in H2. injection H2 as ->.
    f_equal. apply three_views_only_at_2, Hlt.
  - destruct (Hunset El) as [E|E]; cbn [snd remembered] in E;
      rewrite E in H2; discriminate H2.
Qed.

(** X19.  In every state reached from the loading of the page in which
    the view index is 2, the zone last entered is position 2, whose third
    view is the only view with that index, and the rope ends at the very
    point [getProbeCenter] returns for the probe, whatever the sweep angle
    and the tail position.  This outlasts the zone: after a position
    update with the probe over no zone, which resets the orientation of
    the probe, the view index is still 2 and the rope still ends at that
    point. *)
Theorem rope_end_at_probe_centre
        (d : Display) (c : Controls) (es : list Event) (L : Layout) :
  let s := run es (initial d c) in
  currentViewIndex (probe s) = Fin 2 ->
  lastCellPos (probe s) = Some 2%nat /\
  tailScreen L s = probe_center (probeBox L) /\
  forall L',
    resolve L' = None ->
    exists s',
      updateImagePreview L' s = Normal s' /\
      sweepDeg (probe s') = 90%Z /\
      tailPosition (probe s') = down /\
      currentViewIndex (probe s') = Fin 2 /\
      tailScreen L s' = probe_center (probeBox L).
Proof.
  intros s H2. split; [apply index_2_at_position_2, H2|].
  split; [apply getTailAnchor_neutral, num_eqb_2, H2|].
  intros L' Hr. rewrite (updateImagePreview_no_zone L' s Hr).
  eexists. split; [reflexivity|].
  assert (Hi : currentViewIndex
                 (probe (set_imagePanel PanelDropPrompt
                           (resetProbe (clear_preview s)))) = Fin 2)
    by exact H2.
  repeat split; try exact Hi.
  apply getTailAnchor_neutral, num_eqb_2, Hi.
Qed.

Lemma rope_end_at_probe_centre_witness :
  tailScreen over_zone2
             (run [MouseMove over_zone2; ToggleButton over_zone2;
                   ToggleButton over_zone2]
                  (initial page_display page_controls))
  = probe_center (probeBox over_zone2).
Proof.
  apply (rope_end_at_probe_centre
           page_display page_controls
           [MouseMove over_zone2; ToggleButton over_zone2;
            ToggleButton over_zone2]
           over_zone2).
  vm_compute. reflexivity.
Defined.

Local Close Scope R_scope.

(* ===================================================================== *)
(** ** Listeners with their rope calls *)
(* ===================================================================== *)

Lemma inverse_none m : inverse m = None <-> determinant m = 0%R.
Proof.
  unfold inverse. destruct (Req_dec_T (determinant m) 0) as [E|E].
  - split; auto.
  - split; [discriminate | contradiction].
Qed.

(** The call of [updateRope()] returns unless the transform of the
    surface has no inverse. *)
Lemma updateRope_returns_false sf L s :
  updateRope_returns sf L s = false <-> singular sf.
Proof.
  unfold updateRope_returns, updateRope, singular.
  destruct (rope_screen_points (machineBox sf) L s) as [[[m c1] c2] t].
  unfold toSvgCoords. destruct (ctm sf) as [M|].
  - destruct (inverse M) as [inv|] eqn:E; cbn [rope_path returned].
    + split; [discriminate|]. intros (M' & HM & Hd).
      injection HM as <-. apply inverse_none in Hd. congruence.
    + split; [|reflexivity]. intros _. exists M.
      split; [reflexivity | apply inverse_none, E].
  - cbn [rope_path returned]. split; [discriminate|].
    intros (M' & HM & _). discriminate HM.
Qed.

Lemma call_updateRope_cases sf L s :
  (call_updateRope sf L s = Normal s /\ ~ singular sf) \/
  (call_updateRope sf L s = Throw s /\ singular sf).
Proof.
  unfold call_updateRope.
  destruct (updateRope_returns sf L s) eqn:E.
  - left. split; [reflexivity|]. intros H.
    apply updateRope_returns_false with (L := L) (s := s) in H. congruence.
  - right. split; [reflexivity|]. apply (updateRope_returns_false sf L s), E.
Qed.

(** A listener with its rope call leaves the state the listener without
    it leaves, or the state it found. *)
Lemma listen_state_cases sf e s :
  state_of (listen sf e s) = state_of (handle e s) \/
  state_of (listen sf e s) = s.
Proof.
  destruct e as [L|L|L| |L|L|L|p c| |L]; try (left; reflexivity).
  - left. simpl listen. simpl handle.
    destruct (restartButton_click_resets L s) as (s' & -> & _).
    simpl bind. destruct (call_updateRope_cases sf L s') as [[-> _] | [-> _]];
      reflexivity.
  - simpl listen. simpl handle.
    destruct (call_updateRope_cases sf L s) as [[-> _] | [-> _]];
      [left | right]; reflexivity.
Qed.

Lemma run_listen_view_index_ok ses s :
  view_index_ok s -> view_index_ok (run_listen ses s).
Proof.
  revert s. unfold run_listen.
  induction ses as [|[sf e] ses IH]; intros s Hok; simpl; [exact Hok|].
  apply IH. destruct (listen_state_cases sf e s) as [-> | ->]; [|exact Hok].
  apply (handle_remembered index_ok);
    [exact index_ok_enter | exact index_ok_cycle | exact index_ok_restart
     | exact Hok].
Qed.

(** X12.  In every state reached from the loading of the page, a listener
    throws in two cases only.  (1) No question is current (the index is
    past the last question) and the listener is that of the show-answer
    button or that of a circle in quiz mode; these throw before they
    assign, and the state is as it was.  (2) The listener calls
    [updateRope()] and the transform of the rope surface has no inverse:
    the [mousemove] listener then ends before the position update, with
    the state as it was, and the listener of the restart button ends
    after all its assignments.  Conversely, on such a surface these two
    listeners throw; on any other surface a listener does what it does
    without its rope call. *)
Theorem listeners_throw_cases
        (d : Display) (c : Controls) (ses : list (Surface * Event))
        (sf : Surface) (e : Event) :
  let s := run_listen ses (initial d c) in
  (is_normal (listen sf e s) = false ->
   (nth_error quizData (currentQuestionIndex (quiz s)) = None /\
    List.length quizData <= currentQuestionIndex (quiz s) /\
    (e = ShowAnswerButton \/
     exists p c', e = CircleClick p c' /\ isSandBoxActive (quiz s) = false) /\
    listen sf e s = Throw s) \/
   (singular sf /\
    ((exists L, e = MouseMove L /\ listen sf e s = Throw s) \/
     (exists L, e = RestartButton L /\
                listen sf e s = Throw (state_of (restartButton_click L s)))))) /\
  (singular sf ->
   forall L,
     listen sf (MouseMove L) s = Throw s /\
     listen sf (RestartButton L) s
     = Throw (state_of (restartButton_click L s))) /\
  (~ singular sf -> listen sf e s = handle e s).
Proof.
  intros s.
  assert (Hok : view_index_ok s).
  { apply run_listen_view_index_ok. exact index_ok_restart. }
  assert (Hmove : forall L,
             (listen sf (MouseMove L) s = handle (MouseMove L) s /\
              ~ singular sf) \/
             (listen sf (MouseMove L) s = Throw s /\ singular sf)).
  { intros L. simpl listen. simpl handle.
    destruct (call_updateRope_cases sf L s) as [[-> H] | [-> H]];
      [left | right]; auto. }
  assert (Hrestart : forall L,
             (listen sf (RestartButton L) s = handle (RestartButton L) s /\
              ~ singular sf) \/
             (listen sf (RestartButton L) s
              = Throw (state_of (restartButton_click L s)) /\ singular sf)).
  { intros L. simpl listen. simpl handle.
    destruct (restartButton_click_resets L s) as (s' & -> & _).
    simpl bind. simpl state_of.
    destruct (call_updateRope_cases sf L s') as [[-> H] | [-> H]];
      [left | right]; auto. }
  split; [|split].
  - intros Hthrow.
    assert (Hquiz : is_normal (handle e s) = false ->
                    nth_error quizData (currentQuestionIndex (quiz s)) = None /\
                    List.length quizData <= currentQuestionIndex (quiz s) /\
                    (e = ShowAnswerButton \/
                     exists p c', e = CircleClick p c' /\
                                  isSandBoxActive (quiz s) = false) /\
                    handle e s = Throw s).
    { intros H. destruct (handle_throws e s Hok H) as (Hq & He & Hs).
      split; [exact Hq|]. split; [apply nth_error_None, Hq|]. auto. }
    destruct e as [L|L|L| |L|L|L|p c'| |L];
      try (left; apply Hquiz; exact Hthrow).
    + (* restart *)
      destruct (Hrestart L) as [[E _] | [E Hs]].
      * rewrite E in Hthrow. left. rewrite E. apply Hquiz, Hthrow.
      * right. split; [exact Hs|]. right. exists L. auto.
    + (* mousemove *)
      destruct (Hmove L) as [[E _] | [E Hs]].
      * rewrite E in Hthrow. left. rewrite E. apply Hquiz, Hthrow.
      * right. split; [exact Hs|]. left. exists L. auto.
  - intros Hs L. split.
    + destruct (Hmove L) as [[_ H] | [E _]]; [contradiction | exact E].
    + destruct (Hrestart L) as [[_ H] | [E _]]; [contradiction | exact E].
  - intros Hs.
    destruct e as [L|L|L| |L|L|L|p c'| |L]; try reflexivity.
    + destruct (Hrestart L) as [[E _] | [_ H]]; [exact E | contradiction].
    + destruct (Hmove L) as [[E _] | [_ H]]; [exact E | contradiction].
Qed.

Local Open Scope R_scope.

Lemma listeners_throw_cases_witness :
  listen {| ctm := Some {| ma := 1; mb := 2; mc := 2; md := 4;
                           me := 0; mf := 0 |};
            machineBox := box 0 0 200 100 |}
         (MouseMove over_zone2)
         (run_listen [({| ctm := None; machineBox := box 0 0 200 100 |},
                       MouseMove over_zone3)]
                     (initial page_display page_controls))
  = Throw (run_listen [({| ctm := None; machineBox := box 0 0 200 100 |},
                        MouseMove over_zone3)]
                      (initial page_display page_controls)).
Proof.
  apply (proj1 (proj2 (listeners_throw_cases
                         page_display page_controls
                         [({| ctm := None; machineBox := box 0 0 200 100 |},
                           MouseMove over_zone3)]
                         {| ctm := Some {| ma := 1; mb := 2; mc := 2; md := 4;
                                           me := 0; mf := 0 |};
                            machineBox := box 0 0 200 100 |}
                         (MouseMove over_zone2)))).
  eexists. split; [reflexivity|]. unfold determinant. simpl. lra.
Defined.

Local Close Scope R_scope.

(** X13.  The listener of the restart button runs to completion unless
    the transform of the rope surface has no inverse; then it throws in
    its last statement, the call of [updateRope()], after all its
    assignments.  Either way it leaves question index 0, score 0, view
    index 0 and the end screen hidden, and it does not touch the feedback
    flag and the mode flags.  The zone it remembers and the orientation it
    leaves are those of the layout it finds: over a zone with views, that
    zone and the orientation of the zone's first view; otherwise no zone
    and the default orientation. *)
Theorem restart_resets (sf : Surface) (L : Layout) (s : State) :
  exists s',
    ((listen sf (RestartButton L) s = Normal s' /\ ~ singular sf) \/
     (listen sf (RestartButton L) s = Throw s' /\ singular sf)) /\
    currentQuestionIndex (quiz s') = 0 /\
    score (quiz s') = 0 /\
    currentViewIndex (probe s') = Fin 0 /\
    endScreenHidden (controls s') = true /\
    isFeedbackActive (quiz s') = isFeedbackActive (quiz s) /\
    isSimulatorActive (quiz s') = isSimulatorActive (quiz s) /\
    isSandBoxActive (quiz s') = isSandBoxActive (quiz s) /\
    gameStarted (quiz s') = gameStarted (quiz s) /\
    match resolve L with
    | Some cell =>
        match views_at (pos cell) with
        | v0 :: _ => lastCellPos (probe s') = Some (pos cell) /\
                     sweepDeg (probe s') = angle v0 /\
                     tailPosition (probe s') = tail v0
        | [] => lastCellPos (probe s') = None /\
                sweepDeg (probe s') = 90%Z /\
                tailPosition (probe s') = down
        end
    | None => lastCellPos (probe s') = None /\
              sweepDeg (probe s') = 90%Z /\
              tailPosition (probe s') = down
    end.
Proof.
  destruct (restartButton_click_resets L s) as (s' & E & Hrest).
  exists s'. split; [|exact Hrest].
  simpl listen. rewrite E. simpl bind.
  destruct (call_updateRope_cases sf L s') as [[-> H] | [-> H]];
    [left | right]; auto.
Qed.

